(** * Marketing-analytics pipelines: channels, helium (time series), keywords

    A shallow embedding of [src/lib/analysis/channels.py], [helium.py] and
    [keywords.py], and the properties of their validators, cleaners and
    [run_analysis] entry points.

    Modelling conventions.
    - Python [str] values are byte strings ([string]); [str.strip],
      [str.lower] and the digits of a regular expression are given on the
      ASCII range.
    - A pandas column is typed by its dtype: [int64], [float64] (IEEE
      binary64, Rocq's primitive floats) or [object] (text cells, missing
      cells as [None]).  The other dtypes [read_csv] can infer (bool,
      uint64, complex, datetime) are outside this development.
    - [int64] arithmetic wraps around ([wrap64]).
    - A Python [set] of strings is iterated in an order that depends on the
      interpreter's string-hash seed: the order is a parameter
      ([set_order]), any permutation of the elements.
    - What the libraries do beyond the tabular operations (reading the CSV
      file, parsing numbers and dates out of text, regular expressions,
      floating-point sums, drawing and saving charts, writing files) is a
      record of parameters ([env]); the file system is an explicit state. *)

From Stdlib Require Import ZArith List String Ascii Bool Lia Permutation.
From Stdlib Require Import Floats DecimalString.
Import ListNotations.

Local Open Scope string_scope.
Local Open Scope list_scope.

(** ** Python-level values and control *)

Module Py.

(** Exceptions raised by the modelled operations; all of them are
    subclasses of Python's [Exception]. *)
Inductive exn_class :=
| TypeError | KeyError | AttributeError | ValueError | OSError | LibraryError.

Record exn := Exn { exn_kind : exn_class; exn_msg : string }.

(** [str(e)] *)
Definition str_exn (e : exn) : string := exn_msg e.

(** What a call does to its caller: it returns, or it raises. *)
Inductive outcome (A : Type) :=
| Returned (a : A)
| Raised (e : exn).
Arguments Returned {A} a.
Arguments Raised {A} e.

(** Code that threads a state and may raise; the state survives a raise
    (files written before a failure stay on disk). *)
Definition M (S A : Type) := S -> outcome A * S.

Definition ret {S A} (a : A) : M S A := fun s => (Returned a, s).
Definition raise {S A} (e : exn) : M S A := fun s => (Raised e, s).
Definition bind {S A B} (c : M S A) (k : A -> M S B) : M S B :=
  fun s => match c s with
           | (Returned a, s') => k a s'
           | (Raised e, s') => (Raised e, s')
           end.
Definition lift {S A} (r : outcome A) : M S A := fun s => (r, s).
Definition get {S} : M S S := fun s => (Returned s, s).
Definition modify {S} (f : S -> S) : M S unit := fun s => (Returned tt, f s).

(** [try: body except Exception as e: handler(e)] *)
Definition try_except {S A} (body : M S A) (handler : exn -> M S A) : M S A :=
  fun s => match body s with
           | (Returned a, s') => (Returned a, s')
           | (Raised e, s') => handler e s'
           end.

(** Raising when an optional library error is present. *)
Definition check {S} (err : option exn) : M S unit :=
  match err with Some e => raise e | None => ret tt end.

Definition obind {A B} (r : outcome A) (k : A -> outcome B) : outcome B :=
  match r with Returned a => k a | Raised e => Raised e end.

(** *** Strings *)

Definition chars (s : string) : list ascii := list_ascii_of_string s.
Definition of_chars (l : list ascii) : string := string_of_list_ascii l.

(** [c.isspace()] on ASCII: TAB..CR, FS..US and the blank. *)
Definition isspace (c : ascii) : bool :=
  let n := nat_of_ascii c in
  (((9 <=? n) && (n <=? 13)) || ((28 <=? n) && (n <=? 32)))%nat.

Definition isupper (c : ascii) : bool :=
  let n := nat_of_ascii c in ((65 <=? n) && (n <=? 90))%nat.

Definition isdigit (c : ascii) : bool :=
  let n := nat_of_ascii c in ((48 <=? n) && (n <=? 57))%nat.

Definition lower_char (c : ascii) : ascii :=
  if isupper c then ascii_of_nat (nat_of_ascii c + 32)%nat else c.

Fixpoint dropwhile {A} (p : A -> bool) (l : list A) : list A :=
  match l with
  | [] => []
  | x :: t => if p x then dropwhile p t else l
  end.

Definition lstrip_chars (l : list ascii) := dropwhile isspace l.
Definition rstrip_chars (l : list ascii) := rev (dropwhile isspace (rev l)).

(** [s.strip()] *)
Definition strip (s : string) : string :=
  of_chars (rstrip_chars (lstrip_chars (chars s))).

(** [s.lower()] *)
Definition lower (s : string) : string :=
  of_chars (map lower_char (chars s)).

(** [sep.join(parts)] *)
Fixpoint join (sep : string) (parts : list string) : string :=
  match parts with
  | [] => ""
  | [p] => p
  | p :: rest => (p ++ sep ++ join sep rest)%string
  end.

(** [s.split(sep)] for a one-character separator: never the empty list. *)
Fixpoint split_chars (sep : ascii) (l : list ascii) : list (list ascii) :=
  match l with
  | [] => [[]]
  | c :: t =>
      if Ascii.eqb c sep then [] :: split_chars sep t
      else match split_chars sep t with
           | [] => [[c]]
           | w :: ws => (c :: w) :: ws
           end
  end.

Definition split (sep : ascii) (s : string) : list string :=
  map of_chars (split_chars sep (chars s)).

(** [needle in s] *)
Definition substring_of (needle s : string) : Prop :=
  exists pre post, s = (pre ++ needle ++ post)%string.

(** [str(n)] for integers *)
Definition str_nat (n : nat) : string := NilZero.string_of_uint (Nat.to_uint n).
Definition str_Z (z : Z) : string := NilZero.string_of_int (Z.to_int z).

(** Zero padding on the left, as [%02d] does. *)
Definition pad (width : nat) (s : string) : string :=
  (of_chars (repeat "0"%char (width - String.length s)) ++ s)%string.

(** *** Sets of strings

    A set is kept as the list of its elements; [iter] gives the order in
    which the interpreter enumerates it. *)

Definition pyset := list string.

Definition mem (x : string) (l : list string) : bool := existsb (String.eqb x) l.

(** The distinct elements. *)
Fixpoint dedup (l : list string) : list string :=
  match l with
  | [] => []
  | x :: t => if mem x t then dedup t else x :: dedup t
  end.

Record set_order := SetOrder {
  iter : pyset -> list string;
  iter_perm : forall s, Permutation (iter s) (dedup s)
}.

(** Two enumeration orders, as two hash seeds can give. *)
Definition forward_order : set_order :=
  SetOrder dedup (fun s => Permutation_refl (dedup s)).

Definition backward_order : set_order :=
  SetOrder (fun s => rev (dedup s)) (fun s => Permutation_sym (Permutation_rev (dedup s))).

(** [a - b] *)
Definition set_diff (a b : pyset) : pyset := filter (fun x => negb (mem x b)) a.
(** [a.issubset(b)] *)
Definition issubset (a b : pyset) : bool := forallb (fun x => mem x b) a.

(** *** Configuration values

    The JSON-like values a caller can put in [config]. *)
#[local] Unset Elimination Schemes.
Inductive cfgval :=
| CfgNone
| CfgInt (z : Z)
| CfgStr (s : string)
| CfgList (l : list string)
| CfgDict (d : list (string * cfgval)).
#[local] Set Elimination Schemes.

Definition dict := list (string * cfgval).

Fixpoint dict_get {V} (d : list (string * V)) (k : string) : option V :=
  match d with
  | [] => None
  | (k', v) :: t => if String.eqb k k' then Some v else dict_get t k
  end.

(** [d[k] = v]: update in place, or append as the newest key. *)
Fixpoint dict_set {V} (d : list (string * V)) (k : string) (v : V) : list (string * V) :=
  match d with
  | [] => [(k, v)]
  | (k', v') :: t => if String.eqb k k' then (k', v) :: t else (k', v') :: dict_set t k v
  end.

(** [config.get(k, default)] *)
Definition cfg_get (config : dict) (k : string) (default : cfgval) : cfgval :=
  match dict_get config k with Some v => v | None => default end.

Definition type_name (v : cfgval) : string :=
  match v with
  | CfgNone => "NoneType" | CfgInt _ => "int" | CfgStr _ => "str"
  | CfgList _ => "list" | CfgDict _ => "dict"
  end.

(** Iterating a value: the elements of a list, the characters of a string,
    the keys of a dict; [None] and integers are not iterable. *)
Definition py_iter (v : cfgval) : outcome (list string) :=
  match v with
  | CfgList l => Returned l
  | CfgStr s => Returned (map (fun c => String c EmptyString) (chars s))
  | CfgDict d => Returned (map fst d)
  | _ => Raised (Exn TypeError ("'" ++ type_name v ++ "' object is not iterable")%string)
  end.

(** [set(v)] *)
Definition py_set (v : cfgval) : outcome pyset := py_iter v.

(** [bool(v)] *)
Definition truthy (v : cfgval) : bool :=
  match v with
  | CfgNone => false
  | CfgInt z => negb (Z.eqb z 0)
  | CfgStr s => negb (String.eqb s "")
  | CfgList l => match l with [] => false | _ => true end
  | CfgDict d => match d with [] => false | _ => true end
  end.

(** [max(d, key=d.get)]: the first key whose value is maximal. *)
Fixpoint max_from (best : string) (bv : Z) (l : list (string * Z)) : string :=
  match l with
  | [] => best
  | (k, v) :: t => if (bv <? v)%Z then max_from k v t else max_from best bv t
  end.

Definition max_key (d : list (string * Z)) : outcome string :=
  match d with
  | [] => Raised (Exn ValueError "max() arg is an empty sequence")
  | (k, v) :: t => Returned (max_from k v t)
  end.

(** A stable sort: [x] goes before the first element it may precede. *)
Fixpoint insert_by {A} (leb : A -> A -> bool) (x : A) (l : list A) : list A :=
  match l with
  | [] => [x]
  | y :: t => if leb x y then x :: l else y :: insert_by leb x t
  end.

Definition sort_by {A} (leb : A -> A -> bool) (l : list A) : list A :=
  fold_right (insert_by leb) [] l.

(** The distinct values, each at its first occurrence. *)
Fixpoint uniq {A} (eqb : A -> A -> bool) (l : list A) : list A :=
  match l with
  | [] => []
  | x :: t => x :: filter (fun y => negb (eqb y x)) (uniq eqb t)
  end.

(** The sorted distinct values (the keys of a [groupby], the labels of a
    pivot). *)
Definition sort_uniq {A} (leb eqb : A -> A -> bool) (l : list A) : list A :=
  sort_by leb (uniq eqb l).

(** *** 64-bit integers *)

Definition int64_min : Z := - 2 ^ 63.
Definition int64_max : Z := 2 ^ 63 - 1.
Definition in_int64 (z : Z) : Prop := (int64_min <= z <= int64_max)%Z.
Definition wrap64 (z : Z) : Z := ((z + 2 ^ 63) mod 2 ^ 64 - 2 ^ 63)%Z.

(** numpy's sum of an [int64] array *)
Definition sum64 (xs : list Z) : Z := fold_left (fun a x => wrap64 (a + x)) xs 0%Z.

(** Python's sum of a list of [int] *)
Definition sumZ (xs : list Z) : Z := fold_left Z.add xs 0%Z.

Declare Scope py_scope.
Delimit Scope py_scope with py.
Notation "x <- c ;; k" := (bind c (fun x => k))
  (at level 61, c at next level, right associativity) : py_scope.
Notation "c ;;; k" := (bind c (fun _ => k))
  (at level 61, right associativity) : py_scope.

End Py.

(** ** Tables *)

Module Pandas.
Import Py.

Inductive column :=
| ColInt (xs : list Z)
| ColFloat (xs : list float)
| ColObj (xs : list (option string)).

(** A DataFrame: its columns in order, each with its cells. *)
Definition frame := list (string * column).

Definition col_len (c : column) : nat :=
  match c with
  | ColInt xs => List.length xs
  | ColFloat xs => List.length xs
  | ColObj xs => List.length xs
  end.

(** [df.columns] *)
Definition columns (df : frame) : list string := map fst df.

(** [len(df)] *)
Definition nrows (df : frame) : nat :=
  match df with
  | [] => 0
  | (_, c) :: _ => col_len c
  end.

(** [pd.api.types.is_numeric_dtype] *)
Definition is_numeric_dtype (c : column) : bool :=
  match c with ColObj _ => false | _ => true end.

(** [pd.api.types.is_integer_dtype] *)
Definition is_integer_dtype (c : column) : bool :=
  match c with ColInt _ => true | _ => false end.

(** [df[name]] *)
Definition getcol (df : frame) (name : string) : outcome column :=
  match dict_get df name with
  | Some c => Returned c
  | None => Raised (Exn KeyError ("'" ++ name ++ "'")%string)
  end.

(** [df[names]]: the named columns, in the order asked. *)
Fixpoint select (df : frame) (names : list string) : outcome frame :=
  match names with
  | [] => Returned []
  | n :: t =>
      obind (getcol df n) (fun c =>
      obind (select df t) (fun r => Returned ((n, c) :: r)))
  end.

(** [df[name] = c] *)
Definition setcol (df : frame) (name : string) (c : column) : frame :=
  dict_set df name c.

(** Boolean-mask row selection. *)
Fixpoint mask_filter {A} (m : list bool) (l : list A) : list A :=
  match m, l with
  | b :: m', x :: l' => if b then x :: mask_filter m' l' else mask_filter m' l'
  | _, _ => []
  end.

Definition col_filter (m : list bool) (c : column) : column :=
  match c with
  | ColInt xs => ColInt (mask_filter m xs)
  | ColFloat xs => ColFloat (mask_filter m xs)
  | ColObj xs => ColObj (mask_filter m xs)
  end.

Definition frame_filter (m : list bool) (df : frame) : frame :=
  map (fun nc => (fst nc, col_filter m (snd nc))) df.

(** *** Floats *)

Definition is_nan (f : float) : bool := PrimFloat.is_nan f.

Definition is_finite (f : float) : bool :=
  match Prim2SF f with
  | S754_zero _ | S754_finite _ _ _ => true
  | _ => false
  end.

(** The integer part of a finite float, towards zero. *)
Definition float_trunc (f : float) : Z :=
  match Prim2SF f with
  | S754_finite s m e =>
      let v := if (0 <=? e)%Z then (Zpos m * 2 ^ e)%Z else (Zpos m / 2 ^ (- e))%Z in
      if s then (- v)%Z else v
  | _ => 0%Z
  end.

(** The C cast of a finite double to [int64]; out of range it is
    x86-64's "integer indefinite" value. *)
Definition float_to_int64 (f : float) : Z :=
  let t := float_trunc f in
  if ((int64_min <=? t) && (t <=? int64_max))%Z then t else int64_min.

(** [s.fillna(0)] *)
Definition fillna0 (c : column) : column :=
  match c with
  | ColFloat xs => ColFloat (map (fun f => if is_nan f then 0%float else f) xs)
  | _ => c
  end.

(** Equality of cells as [drop_duplicates] sees it. *)
Definition float_same (f g : float) : bool :=
  PrimFloat.eqb f g || (is_nan f && is_nan g).

Definition ostr_eqb (a b : option string) : bool :=
  match a, b with
  | Some x, Some y => String.eqb x y
  | None, None => true
  | _, _ => false
  end.

(** [True] at the first occurrence of each value. *)
Fixpoint first_occurrence {A} (eqb : A -> A -> bool) (seen : list A) (l : list A) : list bool :=
  match l with
  | [] => []
  | x :: t =>
      if existsb (eqb x) seen then false :: first_occurrence eqb seen t
      else true :: first_occurrence eqb (x :: seen) t
  end.

(** A numeric cell, of an [int64] or of a [float64] column. *)
Inductive num :=
| IntCell (z : Z)
| FloatCell (f : float).

(** The cells of an [int64] column. *)
Fixpoint all_int (cells : list num) : option (list Z) :=
  match cells with
  | [] => Some []
  | IntCell z :: rest => option_map (cons z) (all_int rest)
  | FloatCell _ :: _ => None
  end.

(** *** Results and the file system *)

Record artifact := Artifact { name : string; type : string; path : string }.

Record result (Sm : Type) := Result {
  success : bool;
  errors : list string;
  artifacts : list artifact;
  summary : option Sm   (* [None] is the empty mapping *)
}.
Arguments Result {Sm}.
Arguments success {Sm}.
Arguments errors {Sm}.
Arguments artifacts {Sm}.
Arguments summary {Sm}.

Definition initial_result {Sm} : result Sm := Result false [] [] None.

Definition set_errors {Sm} (es : list string) (r : result Sm) : result Sm :=
  Result (success r) es (artifacts r) (summary r).
Definition add_error {Sm} (e : string) (r : result Sm) : result Sm :=
  Result (success r) (errors r ++ [e]) (artifacts r) (summary r).
Definition add_artifact {Sm} (a : artifact) (r : result Sm) : result Sm :=
  Result (success r) (errors r) (artifacts r ++ [a]) (summary r).
Definition set_summary {Sm} (s : Sm) (r : result Sm) : result Sm :=
  Result (success r) (errors r) (artifacts r) (Some s).
Definition set_success {Sm} (r : result Sm) : result Sm :=
  Result true (errors r) (artifacts r) (summary r).

(** What is on disk under a path: a directory, an image, or a CSV file
    with its content. *)
Inductive entry (C : Type) :=
| Dir
| Png
| CsvFile (content : C).
Arguments Dir {C}.
Arguments Png {C}.
Arguments CsvFile {C} content.

Definition fs (C : Type) := list (string * entry C).

(** [os.path.join(dir, file)] for a relative file name *)
Definition path_join (dir file : string) : string :=
  match rev (chars dir) with
  | [] => file
  | c :: _ => if Ascii.eqb c "/"%char then (dir ++ file)%string
              else (dir ++ "/" ++ file)%string
  end.

End Pandas.

(** ** The channel pipeline ([channels.py]) *)

Module Channels.
Import Py Pandas.
Local Open Scope py_scope.

(** What the libraries and the operating system do for this pipeline. *)
Record env := Env {
  (** [pd.read_csv(path)] *)
  read_csv : string -> outcome frame;
  (** [pd.to_numeric(col, errors='coerce')] on a text column: an [int64]
      or a [float64] column *)
  to_numeric_text : list (option string) -> list Z + list float;
  (** [str(x)] of a float *)
  float_repr : float -> string;
  (** what [os.makedirs(dir, exist_ok=True)] raises, if anything *)
  makedirs_error : string -> option exn;
  (** what drawing the chart saved under a path from a table, and saving
      it, raises *)
  savefig_error : string -> frame -> option exn;
  (** what writing the CSV file raises *)
  to_csv_error : string -> option exn
}.

Record summary := Summary {
  total_traffic : Z;
  channel_breakdown : list (string * Z);
  target_breakdown : list (string * Z);
  top_channel : string;
  top_target : option string
}.

Definition state : Type := result summary * fs frame.

Definition default_required : list string :=
  ["Target"; "Direct"; "Referral"; "Organic Search"; "Paid Search";
   "Organic Social"; "Paid Social"; "Email"; "Display Ads"].

Definition default_numeric : list string :=
  ["Direct"; "Referral"; "Organic Search"; "Paid Search";
   "Organic Social"; "Paid Social"; "Email"; "Display Ads"].

Inductive dtype := DString | DInt64.

(** [{} if config is None else config] *)
Definition config_dict (config : option dict) : dict :=
  match config with None => [] | Some c => c end.

(** [set(config.get('required_columns', [...]))] *)
Definition required_columns (config : option dict) : outcome pyset :=
  py_set (cfg_get (config_dict config) "required_columns" (CfgList default_required)).

(** [set(config.get('numeric_columns', [...]))] *)
Definition numeric_columns (config : option dict) : outcome pyset :=
  py_set (cfg_get (config_dict config) "numeric_columns" (CfgList default_numeric)).

(** The table [clean_df] computes, column by column: the cleaned cells of
    a numeric column of the input, before the rows are selected. *)
Definition int64_cells (c : column) : list Z :=
  match c with
  | ColInt xs => xs
  | ColFloat xs => map (fun f => if is_nan f then 0%Z else float_to_int64 f) xs
  | ColObj _ => []
  end.

(** The mask that applies [m2] to the rows [m1] keeps. *)
Fixpoint mask_then (m1 m2 : list bool) : list bool :=
  match m1 with
  | [] => []
  | false :: t => false :: mask_then t m2
  | true :: t =>
      match m2 with
      | [] => []
      | b :: m2' => b :: mask_then t m2'
      end
  end.

(** The cleaned [Target] cells. *)
Definition clean_targets (ts : list (option string)) : list (option string) :=
  map (option_map lower) (map (option_map strip) ts).

(** The rows [clean_df] keeps, from the cleaned [Target] cells: present,
    not empty, first of their value. *)
Definition kept_rows (ts : list (option string)) : list bool :=
  let m1 := map (fun x => match x with Some _ => true | None => false end) ts in
  let ts1 := mask_filter m1 ts in
  let m2 := map (fun x => negb (ostr_eqb x (Some ""))) ts1 in
  let ts2 := mask_filter m2 ts1 in
  mask_then (mask_then m1 m2) (first_occurrence ostr_eqb [] ts2).

(** The column [clean_df] gives for a name, from the input table and
    its raw [Target] cells. *)
Definition cleaned_column (df : frame) (numeric_cols : pyset)
  (ts : list (option string)) (n : string) : column :=
  let keep := kept_rows (clean_targets ts) in
  if String.eqb n "Target" then ColObj (mask_filter keep (clean_targets ts))
  else match dict_get df n with
       | Some c =>
           if mem n numeric_cols then ColInt (mask_filter keep (int64_cells c))
           else col_filter keep c
       | None => ColInt []
       end.

Section Pipeline.

Variable w : env.
Variable o : set_order.

Definition validate_columns (df : frame) (required_cols : pyset) (error_msg : string) : bool :=
  match set_diff required_cols (columns df) with
  | [] => true
  | _ :: _ => false
  end.

(** The loop over [numeric_cols] of [validate_df_structure]. *)
Fixpoint check_numeric (df : frame) (cols : list string) (errors : list string)
  : outcome (list string) :=
  match cols with
  | [] => Returned errors
  | col :: rest =>
      obind (getcol df col) (fun c =>
      if negb (is_numeric_dtype c)
      then check_numeric df rest (errors ++ [(col ++ " column must contain only numbers.")%string])
      else check_numeric df rest errors)
  end.

Definition validate_df_structure (df : frame) (required_cols numeric_cols : pyset)
  : outcome (bool * list string) :=
  if negb (validate_columns df required_cols "file is missing required columns.") then
    let missing := set_diff required_cols (columns df) in
    Returned (false, [("Missing columns: " ++ join ", " (iter o missing))%string])
  else if negb (issubset numeric_cols required_cols) then
    Returned (false, ["Numeric columns not in required columns."])
  else
    obind (check_numeric df (iter o numeric_cols) []) (fun errors =>
    Returned (match errors with [] => true | _ => false end, errors)).

(** [col.str]: only for text columns *)
Definition str_accessor (c : column) : outcome (list (option string)) :=
  match c with
  | ColObj xs => Returned xs
  | _ => Raised (Exn AttributeError "Can only use .str accessor with string values!")
  end.

(** [pd.to_numeric(col, errors='coerce')] *)
Definition to_numeric (c : column) : column :=
  match c with
  | ColObj xs =>
      match to_numeric_text w xs with
      | inl zs => ColInt zs
      | inr fs => ColFloat fs
      end
  | _ => c
  end.

(** The loop [for col in numeric_cols: cleaned_df[col] = ...]. *)
Fixpoint clean_numeric_cols (df : frame) (cols : list string) : outcome frame :=
  match cols with
  | [] => Returned df
  | col :: rest =>
      obind (getcol df col) (fun c =>
      clean_numeric_cols (setcol df col (fillna0 (to_numeric c))) rest)
  end.

(** [col.notna()] *)
Definition notna_mask (c : column) : list bool :=
  match c with
  | ColInt xs => map (fun _ => true) xs
  | ColFloat xs => map (fun f => negb (is_nan f)) xs
  | ColObj xs => map (fun x => match x with Some _ => true | None => false end) xs
  end.

(** [col != ''] *)
Definition ne_empty_mask (c : column) : list bool :=
  match c with
  | ColInt xs => map (fun _ => true) xs
  | ColFloat xs => map (fun _ => true) xs
  | ColObj xs => map (fun x => negb (ostr_eqb x (Some ""))) xs
  end.

(** [~col.duplicated()] *)
Definition first_mask (c : column) : list bool :=
  match c with
  | ColInt xs => first_occurrence Z.eqb [] xs
  | ColFloat xs => first_occurrence float_same [] xs
  | ColObj xs => first_occurrence ostr_eqb [] xs
  end.

(** [col.astype(dtype)].  A text column never reaches the [int64] cast
    here: every column cast to [int64] has been through [to_numeric]. *)
Definition cast (d : dtype) (c : column) : outcome column :=
  match d, c with
  | DString, ColObj _ => Returned c
  | DString, ColInt xs => Returned (ColObj (map (fun z => Some (str_Z z)) xs))
  | DString, ColFloat xs => Returned (ColObj (map (fun f => Some (float_repr w f)) xs))
  | DInt64, ColInt _ => Returned c
  | DInt64, ColFloat xs =>
      if forallb is_finite xs then Returned (ColInt (map float_to_int64 xs))
      else Raised (Exn ValueError "Cannot convert non-finite values (NA or inf) to integer")
  | DInt64, ColObj _ => Raised (Exn ValueError "invalid literal for int()")
  end.

Fixpoint cast_columns (df : frame) (dtypes : list (string * dtype)) : outcome frame :=
  match df with
  | [] => Returned []
  | (n, c) :: rest =>
      obind (match dict_get dtypes n with
             | Some d => cast d c
             | None => Returned c
             end) (fun c' =>
      obind (cast_columns rest dtypes) (fun rest' => Returned ((n, c') :: rest')))
  end.

(** [df.astype({...})]: every key must be a column. *)
Definition astype (df : frame) (dtypes : list (string * dtype)) : outcome frame :=
  if forallb (fun kd => mem (fst kd) (columns df)) dtypes then cast_columns df dtypes
  else Raised (Exn KeyError "Only a column name can be used for the key in a dtype mappings argument.").

(** [{'Target': 'string', **{col: 'int64' for col in numeric_cols}}] *)
Definition dtype_dict (numeric_cols : pyset) : list (string * dtype) :=
  fold_left (fun d col => dict_set d col DInt64) (iter o numeric_cols) [("Target", DString)].

Definition clean_df (raw_df : frame) (required_cols numeric_cols : pyset)
  : outcome (option frame) :=
  obind (select raw_df (iter o required_cols)) (fun cleaned_df =>
  obind (getcol cleaned_df "Target") (fun t =>
  obind (str_accessor t) (fun ts =>
  let stripped := map (option_map strip) ts in
  let cleaned_df := setcol cleaned_df "Target" (ColObj (map (option_map lower) stripped)) in
  obind (clean_numeric_cols cleaned_df (iter o numeric_cols)) (fun cleaned_df =>
  obind (getcol cleaned_df "Target") (fun t =>
  let cleaned_df := frame_filter (notna_mask t) cleaned_df in
  obind (getcol cleaned_df "Target") (fun t =>
  let cleaned_df := frame_filter (ne_empty_mask t) cleaned_df in
  obind (getcol cleaned_df "Target") (fun t =>
  let cleaned_df := frame_filter (first_mask t) cleaned_df in
  obind (astype cleaned_df (dtype_dict numeric_cols)) (fun final =>
  Returned (Some final))))))))).

(** *** Effects *)

(** [os.makedirs(dir, exist_ok=True)] *)
Definition makedirs (dir : string) : M state unit :=
  check (makedirs_error w dir) ;;;
  st <- get ;;
  match dict_get (snd st) dir with
  | Some Dir => ret tt
  | Some _ => raise (Exn OSError ("File exists: '" ++ dir ++ "'")%string)
  | None => modify (fun st => (fst st, dict_set (snd st) dir Dir))
  end.

(** Drawing a chart and [fig.savefig(path)], then recording the artifact. *)
Definition save_chart (output_dir file : string) (data : frame) : M state unit :=
  let chart_path := path_join output_dir file in
  check (savefig_error w chart_path data) ;;;
  modify (fun st => (fst st, dict_set (snd st) chart_path Png)) ;;;
  modify (fun st => (add_artifact (Artifact file "chart" chart_path) (fst st), snd st)).

(** [clean_data.to_csv(path, index=False)], then recording the artifact. *)
Definition save_csv (output_dir file : string) (data : frame) : M state unit :=
  let csv_path := path_join output_dir file in
  check (to_csv_error w csv_path) ;;;
  modify (fun st => (fst st, dict_set (snd st) csv_path (CsvFile data))) ;;;
  modify (fun st => (add_artifact (Artifact file "csv" csv_path) (fst st), snd st)).

(** *** Summary statistics *)

(** [int(clean_data[col].sum())].  After [clean_df] every numeric column
    is [int64]; the other branches are not reached. *)
Definition col_sum (c : column) : outcome Z :=
  match c with
  | ColInt xs => Returned (sum64 xs)
  | _ => Raised (Exn TypeError "sum of a column that is not int64")
  end.

Fixpoint channel_totals_loop (clean_data : frame) (cols : list string)
  (channel_totals : list (string * Z)) : outcome (list (string * Z)) :=
  match cols with
  | [] => Returned channel_totals
  | col :: rest =>
      obind (getcol clean_data col) (fun c =>
      obind (col_sum c) (fun v =>
      channel_totals_loop clean_data rest (dict_set channel_totals col v)))
  end.

(** The integer cells of the named columns, one list per column. *)
Fixpoint numeric_cells (clean_data : frame) (cols : list string) : outcome (list (list Z)) :=
  match cols with
  | [] => Returned []
  | col :: rest =>
      obind (getcol clean_data col) (fun c =>
      match c with
      | ColInt xs => obind (numeric_cells clean_data rest) (fun r => Returned (xs :: r))
      | _ => Raised (Exn TypeError "sum of a column that is not int64")
      end)
  end.

(** [row[list(numeric_cols)].sum()] for row [i]: a sum of Python integers. *)
Definition row_sum (cells : list (list Z)) (i : nat) : Z :=
  sumZ (map (fun xs => nth i xs 0%Z) cells).

(** The loop over [clean_data.iterrows()]. *)
Fixpoint target_totals_loop (targets : list (option string)) (cells : list (list Z))
  (i : nat) (target_totals : list (string * Z)) : outcome (list (string * Z)) :=
  match targets with
  | [] => Returned target_totals
  | Some t :: rest =>
      target_totals_loop rest cells (S i) (dict_set target_totals t (row_sum cells i))
  | None :: _ => Raised (Exn TypeError "unhashable missing Target")
  end.

Definition build_summary (clean_data : frame) (numeric_cols : pyset) : outcome summary :=
  obind (channel_totals_loop clean_data (iter o numeric_cols) []) (fun channel_totals =>
  obind (getcol clean_data "Target") (fun t =>
  obind (str_accessor t) (fun targets =>
  obind (numeric_cells clean_data (iter o numeric_cols)) (fun cells =>
  obind (target_totals_loop targets cells 0 []) (fun target_totals =>
  obind (max_key channel_totals) (fun top =>
  obind (match target_totals with
         | [] => Returned None
         | _ => obind (max_key target_totals) (fun t => Returned (Some t))
         end) (fun top_t =>
  Returned (Summary (sumZ (map snd channel_totals)) channel_totals target_totals
              top top_t)))))))).

(** *** The entry point *)

(** The body of the [try] block. *)
Definition analysis_body (input_file output_dir : string)
  (required_cols numeric_cols : pyset) : M state unit :=
  df <- lift (read_csv w input_file) ;;
  v <- lift (validate_df_structure df required_cols numeric_cols) ;;
  if negb (fst v) then
    modify (fun st => (set_errors (snd v) (fst st), snd st))
  else
    cd <- lift (clean_df df required_cols numeric_cols) ;;
    match cd with
    | None => modify (fun st => (add_error "Failed to clean data" (fst st), snd st))
    | Some clean_data =>
        makedirs output_dir ;;;
        save_chart output_dir "traffic_by_channel.png" clean_data ;;;
        save_chart output_dir "channel_mix_by_target.png" clean_data ;;;
        save_chart output_dir "channel_comparison.png" clean_data ;;;
        sm <- lift (build_summary clean_data numeric_cols) ;;
        modify (fun st => (set_summary sm (fst st), snd st)) ;;;
        save_csv output_dir "channel_analysis.csv" clean_data ;;;
        modify (fun st => (set_success (fst st), snd st))
    end.

Definition run_analysis (input_file output_dir : string) (config : option dict)
  (disk : fs frame) : outcome (result summary) * fs frame :=
  let results := initial_result in
  match required_columns config with
  | Raised e => (Raised e, disk)
  | Returned required_cols =>
  match numeric_columns config with
  | Raised e => (Raised e, disk)
  | Returned numeric_cols =>
      let r := try_except
                 (analysis_body input_file output_dir required_cols numeric_cols)
                 (fun e => modify (fun st =>
                    (add_error ("Analysis error: " ++ str_exn e)%string (fst st), snd st)))
                 (results, disk) in
      (Returned (fst (snd r)), snd (snd r))
  end
  end.

End Pipeline.

End Channels.

(** ** The time-series pipeline ([helium.py]) *)

Module Helium.
Import Py Pandas.
Local Open Scope py_scope.

(** A calendar day (a pandas [Timestamp] at midnight). *)
Record date := Date { year : Z; month : Z; day : Z }.

Definition date_eqb (a b : date) : bool :=
  ((year a =? year b) && (month a =? month b) && (day a =? day b))%Z.

(** [a <= b] *)
Definition date_leb (a b : date) : bool :=
  ((year a <? year b)
   || ((year a =? year b)
       && ((month a <? month b) || ((month a =? month b) && (day a <=? day b)))))%Z.

Definition is_leap (y : Z) : bool :=
  (((y mod 4 =? 0) && negb (y mod 100 =? 0)) || (y mod 400 =? 0))%Z.

Definition days_in_month (y m : Z) : Z :=
  (if (m =? 2) then (if is_leap y then 29 else 28)
   else if (m =? 4) || (m =? 6) || (m =? 9) || (m =? 11) then 30
   else 31)%Z.

(** [d - pd.DateOffset(years=1)]: the same day a year before, the 29th of
    February becoming the 28th. *)
Definition minus_one_year (d : date) : date :=
  let y := (year d - 1)%Z in
  Date y (month d) (Z.min (day d) (days_in_month y (month d))).

(** Months counted from year 0. *)
Definition month_index (d : date) : Z := (year d * 12 + (month d - 1))%Z.

(** The last day of the month of index [k] (the label of a ['ME'] bin). *)
Definition month_end (k : Z) : date :=
  let y := (k / 12)%Z in
  let m := (k mod 12 + 1)%Z in
  Date y m (days_in_month y m).

(** [d.strftime('%Y-%m-%d')] *)
Definition strftime (d : date) : string :=
  (pad 4 (str_Z (year d)) ++ "-" ++ pad 2 (str_Z (month d)) ++ "-" ++ pad 2 (str_Z (day d)))%string.

(** The date-indexed table: metric names as columns, one row per date. *)
Record pivot := Pivot {
  metric_names : list string;
  pivot_rows : list (date * list (option Z))
}.

(** The month-end table. *)
Record monthly := Monthly {
  monthly_names : list string;
  monthly_rows : list (date * list num)
}.

Record env := Env {
  (** [pd.read_csv(path)] *)
  read_csv : string -> outcome frame;
  (** [pd.to_datetime] on one column label; [None] when it raises *)
  to_datetime : string -> option date;
  (** the reshaping of a table that holds value columns other than
      [int64] (the validator types only the YYYY-MM-DD columns) *)
  reshape_untyped : frame -> outcome (option (date * date) * monthly);
  (** what slicing and resampling an empty date index raises, if anything *)
  empty_index_error : option exn;
  (** [int(col.sum())] of a [float64] column *)
  float_total : list num -> outcome Z;
  (** [float(col.mean())] *)
  mean : list num -> float;
  makedirs_error : string -> option exn;
  savefig_error : string -> monthly -> option exn;
  to_csv_error : string -> option exn
}.

Record summary := Summary {
  total_organic_traffic : Z;
  total_paid_traffic : Z;
  avg_monthly_organic : float;
  avg_monthly_paid : float;
  date_range_start : string;
  date_range_end : string
}.

Definition state : Type := result summary * fs monthly.

Definition required_metrics : list string :=
  ["organic traffic"; "organic keywords"; "organic traffic cost";
   "paid traffic"; "paid keywords"; "paid traffic cost"].

Definition dropping_cols : list string :=
  ["Target"; "Target Type"; "Database"; "Summary"].

(** [re.match(r'^\d{4}-\d{2}-\d{2}$', col)]: ten characters, or the ten
    followed by one final newline, which [$] lets through. *)
Definition is_date_label (col : string) : bool :=
  match chars col with
  | [y1; y2; y3; y4; d1; m1; m2; d2; a1; a2] =>
      isdigit y1 && isdigit y2 && isdigit y3 && isdigit y4
      && Ascii.eqb d1 "-" && isdigit m1 && isdigit m2
      && Ascii.eqb d2 "-" && isdigit a1 && isdigit a2
  | [y1; y2; y3; y4; d1; m1; m2; d2; a1; a2; nl] =>
      isdigit y1 && isdigit y2 && isdigit y3 && isdigit y4
      && Ascii.eqb d1 "-" && isdigit m1 && isdigit m2
      && Ascii.eqb d2 "-" && isdigit a1 && isdigit a2
      && Ascii.eqb nl "010"
  | _ => false
  end.

Section Pipeline.

Variable w : env.
Variable o : set_order.

Definition omem (x : option string) (l : list (option string)) : bool :=
  existsb (ostr_eqb x) l.

(** The date-column checks at the end of [validate_df_structure]. *)
Fixpoint non_integer_cols (df : frame) (cols : list string) : outcome (list string) :=
  match cols with
  | [] => Returned []
  | col :: rest =>
      obind (getcol df col) (fun c =>
      obind (non_integer_cols df rest) (fun r =>
      Returned (if negb (is_integer_dtype c) then col :: r else r)))
  end.

(** The strings of a set that may hold a missing value, which [join]
    refuses. *)
Fixpoint all_strings (l : list (option string)) : outcome (list string) :=
  match l with
  | [] => Returned []
  | Some s :: t => obind (all_strings t) (fun r => Returned (s :: r))
  | None :: _ => Raised (Exn TypeError "sequence item: expected str instance, float found")
  end.

Definition validate_df_structure (df : frame) : outcome (bool * list string) :=
  let error_messages := [] in
  let error_messages :=
    if negb (nrows df =? 6)%nat
    then error_messages ++ [("File must have exactly 6 rows, but it has " ++ str_nat (nrows df) ++ ".")%string]
    else error_messages in
  let error_messages :=
    if negb (mem "Metric" (columns df))
    then error_messages ++ ["File is missing the required 'Metric' column."]
    else error_messages in
  let date_columns := filter is_date_label (columns df) in
  let error_messages :=
    if (List.length date_columns <? 3)%nat
    then error_messages ++ [("File must have at least 3 date columns in format 'YYYY-MM-DD', but found "
                             ++ str_nat (List.length date_columns) ++ ".")%string]
    else error_messages in
  match error_messages with
  | _ :: _ => Returned (false, error_messages)
  | [] =>
    obind (getcol df "Metric") (fun metric =>
    match metric with
    | ColObj cells =>
        let metric_values_in_file := map (option_map lower) cells in
        let required := map Some required_metrics in
        if negb (forallb (fun x => omem x required) metric_values_in_file
                 && forallb (fun x => omem x metric_values_in_file) required)
        then
          let missing := filter (fun m => negb (omem (Some m) metric_values_in_file)) required_metrics in
          let extra := filter (fun x => negb (omem x required)) metric_values_in_file in
          let error_messages :=
            match missing with
            | [] => error_messages
            | _ => error_messages ++ [("Missing required metrics: " ++ join ", " (iter o missing))%string]
            end in
          match extra with
          | [] => Returned (false, error_messages)
          | _ =>
              obind (all_strings extra) (fun extra_strings =>
              Returned (false, error_messages
                                 ++ [("Invalid metrics found: " ++ join ", " (iter o extra_strings))%string]))
          end
        else
          obind (non_integer_cols df date_columns) (fun non_integer_date_cols =>
          match non_integer_date_cols with
          | [] => Returned (true, [])
          | _ => Returned (false, error_messages
                             ++ [("Non-integer values in date columns: "
                                  ++ join ", " non_integer_date_cols)%string])
          end)
    | _ => Returned (false, error_messages ++ ["'Metric' column must contain text/string data."])
    end)
  end.

(** [(col != 0).any()] *)
Definition any_nonzero (c : column) : bool :=
  match c with
  | ColInt xs => existsb (fun z => negb (z =? 0)%Z) xs
  | ColFloat xs => existsb (fun f => negb (PrimFloat.eqb f 0%float)) xs
  | ColObj xs => existsb (fun _ => true) xs
  end.

(** [col.isna().all()] *)
Definition all_missing (c : column) : bool :=
  match c with
  | ColInt xs => match xs with [] => true | _ => false end
  | ColFloat xs => forallb is_nan xs
  | ColObj xs => forallb (fun x => match x with None => true | Some _ => false end) xs
  end.

(** [df.drop([col for col in dropping_cols if col in df.columns], axis=1)] *)
Definition drop_columns (df : frame) (names : list string) : frame :=
  filter (fun nc => negb (mem (fst nc) names)) df.

(** [cleaned_df.loc[:, (cleaned_df != 0).any()]] *)
Definition keep_nonzero (df : frame) : frame :=
  filter (fun nc => any_nonzero (snd nc)) df.

(** [cleaned_df.dropna(axis=1, how='all')] *)
Definition drop_all_missing (df : frame) : frame :=
  filter (fun nc => negb (all_missing (snd nc))) df.

(** The cleaning steps of [run_analysis] before the melt.  The cast
    [cleaned_df['Metric'].astype('string')] leaves the validated text
    column as it is. *)
Definition clean_columns (df : frame) : frame :=
  drop_all_missing (keep_nonzero (drop_columns df dropping_cols)).

Record melted_row := Melted { m_metric : option string; m_date : string; m_value : Z }.

(** The value columns of the melt when all of them are [int64]. *)
Fixpoint int_value_columns (df : frame) : option (list (string * list Z)) :=
  match df with
  | [] => Some []
  | (n, c) :: rest =>
      if String.eqb n "Metric" then int_value_columns rest
      else match c, int_value_columns rest with
           | ColInt xs, Some r => Some ((n, xs) :: r)
           | _, _ => None
           end
  end.

(** [df.melt(id_vars='Metric', var_name='Date', value_name='Value')] *)
Definition melt (metric : list (option string)) (value_cols : list (string * list Z))
  : list melted_row :=
  flat_map (fun nc => map (fun mv => Melted (fst mv) (fst nc) (snd mv))
                          (combine metric (snd nc))) value_cols.

Record dated_row := Dated { d_metric : option string; d_date : date; d_value : Z }.

(** [melted_df['Date'] = pd.to_datetime(melted_df['Date'])] *)
Fixpoint parse_dates (rows : list melted_row) : outcome (list dated_row) :=
  match rows with
  | [] => Returned []
  | r :: rest =>
      match to_datetime w (m_date r) with
      | None => Raised (Exn ValueError ("Unknown datetime string format, unable to parse: " ++ m_date r)%string)
      | Some d => obind (parse_dates rest) (fun rs =>
                  Returned (Dated (m_metric r) d (m_value r) :: rs))
      end
  end.

(** [aggfunc='first']: the first value of a (date, metric) group. *)
Fixpoint first_value (rows : list dated_row) (d : date) (m : string) : option Z :=
  match rows with
  | [] => None
  | r :: rest =>
      if date_eqb (d_date r) d && ostr_eqb (d_metric r) (Some m) then Some (d_value r)
      else first_value rest d m
  end.

Fixpoint present_metrics (rows : list dated_row) : list string :=
  match rows with
  | [] => []
  | r :: rest =>
      match d_metric r with
      | Some m => m :: present_metrics rest
      | None => present_metrics rest
      end
  end.

(** [melted_df.pivot_table(values='Value', index='Date', columns='Metric',
    aggfunc='first')]; rows without a metric label form no group. *)
Definition pivot_table (rows : list dated_row) : pivot :=
  let grouped := filter (fun r => match d_metric r with Some _ => true | None => false end) rows in
  let dates := sort_uniq date_leb date_eqb (map d_date grouped) in
  let names := sort_uniq String.leb String.eqb (present_metrics rows) in
  Pivot names (map (fun d => (d, map (first_value rows d) names)) dates).

(** The melt, the date parsing and the pivot. *)
Definition pivoted (labels : list (option string)) (value_cols : list (string * list Z))
  : outcome pivot :=
  obind (parse_dates (melt labels value_cols)) (fun melted_df =>
  Returned (pivot_table melted_df)).

(** [pivoted_df.index.max()] of a sorted index *)
Definition index_max (p : pivot) : option date :=
  match rev (pivot_rows p) with
  | [] => None
  | (d, _) :: _ => Some d
  end.

(** [pivoted_df.loc[start_date:end_date]] *)
Definition loc_range (p : pivot) (start_date end_date : date) : pivot :=
  Pivot (metric_names p)
        (filter (fun r => date_leb start_date (fst r) && date_leb (fst r) end_date)
                (pivot_rows p)).

(** A sum of [int64] cells that skips the missing ones. *)
Definition sum_present (cells : list (option Z)) : Z :=
  sum64 (flat_map (fun c => match c with Some z => [z] | None => [] end) cells).

(** The bins of [resample('ME')]: every month from the first to the last
    date of the index. *)
Definition month_bins (rows : list (date * list (option Z))) : list Z :=
  match rows, rev rows with
  | (first, _) :: _, (last, _) :: _ =>
      map (fun k => (month_index first + Z.of_nat k)%Z)
          (seq 0 (Z.to_nat (month_index last - month_index first + 1)))
  | _, _ => []
  end.

(** [filtered_df.resample('ME').sum()] *)
Definition resample_month_end (p : pivot) : monthly :=
  Monthly (metric_names p)
    (map (fun k =>
            let in_bin := filter (fun r => (month_index (fst r) =? k)%Z) (pivot_rows p) in
            (month_end k,
             map (fun j => IntCell (sum_present (map (fun r => nth j (snd r) None) in_bin)))
                 (seq 0 (List.length (metric_names p)))))
         (month_bins (pivot_rows p))).

(** [df_monthly[name]] *)
Definition monthly_col (t : monthly) (name : string) : outcome (list num) :=
  let fix find (names : list string) (j : nat) : outcome nat :=
    match names with
    | [] => Raised (Exn KeyError ("'" ++ name ++ "'")%string)
    | n :: rest => if String.eqb n name then Returned j else find rest (S j)
    end in
  obind (find (monthly_names t) 0) (fun j =>
  Returned (map (fun r => nth j (snd r) (IntCell 0)) (monthly_rows t))).

(** From the cleaned table to the window and the monthly table; an empty
    date index has no window ([NaT]) and an empty monthly table. *)
Definition reshape (cleaned_df : frame) : outcome (option (date * date) * monthly) :=
  obind (getcol cleaned_df "Metric") (fun metric =>
  match metric, int_value_columns cleaned_df with
  | ColObj labels, Some value_cols =>
      obind (pivoted labels value_cols) (fun pivoted_df =>
      match index_max pivoted_df with
      | None =>
          match empty_index_error w with
          | Some e => Raised e
          | None => Returned (None, Monthly (metric_names pivoted_df) [])
          end
      | Some end_date =>
          let start_date := minus_one_year end_date in
          let filtered_df := loc_range pivoted_df start_date end_date in
          Returned (Some (start_date, end_date), resample_month_end filtered_df)
      end)
  | _, _ => reshape_untyped w cleaned_df
  end).

(** *** Effects *)

Definition makedirs (dir : string) : M state unit :=
  check (makedirs_error w dir) ;;;
  st <- get ;;
  match dict_get (snd st) dir with
  | Some Dir => ret tt
  | Some _ => raise (Exn OSError ("File exists: '" ++ dir ++ "'")%string)
  | None => modify (fun st => (fst st, dict_set (snd st) dir Dir))
  end.

(** A plotting helper, [fig.savefig(path)] and the artifact record; the
    helper reads the named columns first. *)
Definition save_chart (output_dir file : string) (needs : list string) (data : monthly)
  : M state unit :=
  lift (fold_right (fun n acc => obind (monthly_col data n) (fun _ => acc)) (Returned tt) needs) ;;;
  let chart_path := path_join output_dir file in
  check (savefig_error w chart_path data) ;;;
  modify (fun st => (fst st, dict_set (snd st) chart_path Png)) ;;;
  modify (fun st => (add_artifact (Artifact file "chart" chart_path) (fst st), snd st)).

Definition save_csv (output_dir file : string) (data : monthly) : M state unit :=
  let csv_path := path_join output_dir file in
  check (to_csv_error w csv_path) ;;;
  modify (fun st => (fst st, dict_set (snd st) csv_path (CsvFile data))) ;;;
  modify (fun st => (add_artifact (Artifact file "csv" csv_path) (fst st), snd st)).

(** [int(col.sum())] *)
Definition total (cells : list num) : outcome Z :=
  match all_int cells with
  | Some zs => Returned (sum64 zs)
  | None => float_total w cells
  end.

Definition build_summary (window : option (date * date)) (df_monthly : monthly)
  : outcome summary :=
  obind (monthly_col df_monthly "Organic Traffic") (fun organic =>
  obind (total organic) (fun organic_total =>
  obind (monthly_col df_monthly "Paid Traffic") (fun paid =>
  obind (total paid) (fun paid_total =>
  match window with
  | Some (start_date, end_date) =>
      Returned (Summary organic_total paid_total (mean w organic) (mean w paid)
                        (strftime start_date) (strftime end_date))
  | None => Raised (Exn ValueError "NaTType does not support strftime")
  end)))).

(** The body of the [try] block. *)
Definition analysis_body (input_file output_dir : string) : M state unit :=
  df <- lift (read_csv w input_file) ;;
  v <- lift (validate_df_structure df) ;;
  if negb (fst v) then
    modify (fun st => (set_errors (snd v) (fst st), snd st))
  else
    r <- lift (reshape (clean_columns df)) ;;
    let window := fst r in
    let df_monthly := snd r in
    makedirs output_dir ;;;
    save_chart output_dir "organic_traffic_vs_keywords.png"
      ["Organic Traffic"; "Organic Keywords"] df_monthly ;;;
    save_chart output_dir "paid_metrics.png"
      ["Paid Traffic"; "Paid Traffic Cost"; "Paid Keywords"] df_monthly ;;;
    sm <- lift (build_summary window df_monthly) ;;
    modify (fun st => (set_summary sm (fst st), snd st)) ;;;
    save_csv output_dir "processed_monthly_data.csv" df_monthly ;;;
    modify (fun st => (set_success (fst st), snd st)).

Definition run_analysis (input_file output_dir : string) (config : option dict)
  (disk : fs monthly) : outcome (result summary) * fs monthly :=
  let results := initial_result in
  let r := try_except
             (analysis_body input_file output_dir)
             (fun e => modify (fun st =>
                (add_error ("Analysis error: " ++ str_exn e)%string (fst st), snd st)))
             (results, disk) in
  (Returned (fst (snd r)), snd (snd r)).

End Pipeline.

End Helium.

(** ** The keyword pipeline ([keywords.py]) *)

Module Keywords.
Import Py Pandas.
Local Open Scope py_scope.

(** A row of [clean_df]'s result; [YearMonth] counts months from year 0. *)
Record clean_row := CleanRow {
  cr_keyword : string;
  cr_month : Z;
  cr_traffic : Z;
  cr_volume : Z;
  cr_intent : string
}.

(** A row of [clean_data] once [Category] is added. *)
Record row := Row {
  Keyword : string;
  YearMonth : Z;
  Traffic : Z;
  SearchVolume : Z;
  Intent : string;
  Category : string
}.

Record env := Env {
  (** [pd.read_csv(path)] *)
  read_csv : string -> outcome frame;
  (** [pd.to_numeric(col, errors='coerce')] on a text column *)
  to_numeric_text : list (option string) -> list Z + list float;
  (** what [pd.to_datetime(col, errors='raise')] raises, if anything *)
  to_datetime_error : column -> option exn;
  (** [pd.to_datetime(col, errors='coerce').dt.to_period('M')]: the month
      of each cell, [None] for [NaT] *)
  year_month : column -> list (option Z);
  (** the sum of a group of [float64] cells *)
  float_sum : list num -> float;
  (** what compiling a regular expression raises, if anything *)
  regex_error : string -> option exn;
  (** [re.search(pattern, s, re.IGNORECASE)] finds a match *)
  regex_search : string -> string -> bool;
  (** [pd.Period(v, 'M')], [None] for [NaT] *)
  to_period : cfgval -> outcome (option Z);
  (** [str(v)] of a list or a dict *)
  repr : cfgval -> string;
  makedirs_error : string -> option exn;
  savefig_error : string -> list row -> option exn;
  to_csv_error : string -> option exn
}.

Record summary := Summary {
  total_keywords : nat;
  branded_traffic : Z;
  non_branded_traffic : Z;
  intent_breakdown : list (string * Z);
  date_range_start : string;
  date_range_end : string
}.

Definition state : Type := result summary * fs (list row).

Definition default_required : list string :=
  ["Keyword"; "Traffic"; "Search Volume"; "Timestamp"; "Keyword Intents"].

Definition default_intents : list string :=
  ["commercial"; "informational"; "transactional"; "navigational"].

Definition default_brands : list string := ["flavour blaster"; "flavourblaster"].

(** The table after the column-wise cleaning, one record per CSV row. *)
Record parsed_row := Parsed {
  p_keyword : option string;
  p_month : option Z;
  p_intents : option string;
  p_traffic : num;
  p_volume : num
}.

(** The rows that survive [dropna] and the empty-keyword filter. *)
Record cleaned_row := Cleaned {
  c_keyword : string;
  c_month : Z;
  c_intents : option string;
  c_traffic : num;
  c_volume : num
}.

(** A row of [reconciled_df]. *)
Record reconciled_row := Reconciled {
  r_keyword : string;
  r_month : Z;
  r_intents : string;
  r_traffic : num;
  r_volume : num
}.

(** The grouping key (Keyword, YearMonth, Keyword Intents). *)
Definition key : Type := string * Z * string.

Definition key_eqb (a b : key) : bool :=
  String.eqb (fst (fst a)) (fst (fst b))
  && (snd (fst a) =? snd (fst b))%Z
  && String.eqb (snd a) (snd b).

Definition key_leb (a b : key) : bool :=
  String.ltb (fst (fst a)) (fst (fst b))
  || (String.eqb (fst (fst a)) (fst (fst b))
      && ((snd (fst a) <? snd (fst b))%Z
          || ((snd (fst a) =? snd (fst b))%Z && String.leb (snd a) (snd b)))).

Definition num_ltb (a b : num) : bool :=
  match a, b with
  | IntCell x, IntCell y => (x <? y)%Z
  | FloatCell x, FloatCell y => PrimFloat.ltb x y
  | _, _ => false
  end.

Definition num_eqb (a b : num) : bool :=
  match a, b with
  | IntCell x, IntCell y => (x =? y)%Z
  | FloatCell x, FloatCell y => PrimFloat.eqb x y
  | _, _ => false
  end.

(** The key of a reconciled row. *)
Definition row_key (r : reconciled_row) : key := (r_keyword r, r_month r, r_intents r).

(** The intents of a row as the specification words them: the intents
    string split on commas, each part trimmed and lower-cased. *)
Definition intents_of (s : string) : list string :=
  map (fun part => lower (strip part)) (split "," s).

Definition num_to_int64 (c : num) : Z :=
  match c with
  | IntCell z => z
  | FloatCell f => float_to_int64 f
  end.


(** Python's [str(period)] for a monthly period: ["YYYY-MM"], or ["NaT"]. *)
Definition period_str (p : option Z) : string :=
  match p with
  | None => "NaT"
  | Some k => (pad 4 (str_Z (k / 12)) ++ "-" ++ pad 2 (str_Z (k mod 12 + 1)))%string
  end.

(** [{} if config is None else config] *)
Definition config_dict (config : option dict) : dict :=
  match config with None => [] | Some c => c end.

(** [set(config.get('required_columns', [...]))] *)
Definition required_columns (config : option dict) : outcome pyset :=
  py_set (cfg_get (config_dict config) "required_columns" (CfgList default_required)).

(** [set(config.get('valid_intents', [...]))] *)
Definition valid_intents_of (config : option dict) : outcome pyset :=
  py_set (cfg_get (config_dict config) "valid_intents" (CfgList default_intents)).

(** [sep.join(v)] of a configuration value *)
Definition py_join (sep : string) (v : cfgval) : outcome string :=
  match v with
  | CfgNone | CfgInt _ => Raised (Exn TypeError "can only join an iterable")
  | _ => obind (py_iter v) (fun parts => Returned (join sep parts))
  end.

Section Pipeline.

Variable w : env.
Variable o : set_order.

Definition validate_columns (df : frame) (required_cols : pyset) (error_msg : string) : bool :=
  match set_diff required_cols (columns df) with
  | [] => true
  | _ :: _ => false
  end.

Definition validate_df_structure (df : frame) (required_cols : pyset)
  : outcome (bool * list string) :=
  if negb (validate_columns df required_cols "file is missing required columns.") then
    let missing := set_diff required_cols (columns df) in
    Returned (false, [("Missing columns: " ++ join ", " (iter o missing))%string])
  else
    obind (getcol df "Traffic") (fun traffic =>
    let errors :=
      if negb (is_numeric_dtype traffic)
      then ["'Traffic' column must contain only numbers."] else [] in
    obind (getcol df "Search Volume") (fun volume =>
    let errors :=
      if negb (is_numeric_dtype volume)
      then errors ++ ["'Search Volume' column must contain only numbers."] else errors in
    obind (getcol df "Timestamp") (fun timestamp =>
    match to_datetime_error w timestamp with
    | None => Returned (match errors with [] => true | _ => false end, errors)
    | Some e =>
        match exn_kind e with
        | ValueError | TypeError =>
            Returned (false, errors ++ [("'Timestamp' column contains invalid dates: "
                                         ++ str_exn e)%string])
        | _ => Raised e
        end
    end))).

(** [col.str]: only for text columns *)
Definition str_accessor (c : column) : outcome (list (option string)) :=
  match c with
  | ColObj xs => Returned xs
  | _ => Raised (Exn AttributeError "Can only use .str accessor with string values!")
  end.

(** [pd.to_numeric(col, errors='coerce').fillna(0)] *)
Definition numeric_cells (c : column) : list num :=
  let fill := map (fun f => FloatCell (if is_nan f then 0%float else f)) in
  match c with
  | ColInt xs => map IntCell xs
  | ColFloat xs => fill xs
  | ColObj xs =>
      match to_numeric_text w xs with
      | inl zs => map IntCell zs
      | inr fs => fill fs
      end
  end.

(** The rows of a table given by its columns. *)
Fixpoint zip_rows (keywords : list (option string)) (months : list (option Z))
  (intents : list (option string)) (traffic volume : list num) : list parsed_row :=
  match keywords, months, intents, traffic, volume with
  | k :: ks, m :: ms, i :: is_, t :: ts, v :: vs =>
      Parsed k m i t v :: zip_rows ks ms is_ ts vs
  | _, _, _, _, _ => []
  end.

(** [dropna(subset=['Keyword', 'Timestamp'])], then [Keyword != ''] *)
Definition drop_invalid (rows : list parsed_row) : list cleaned_row :=
  flat_map (fun r =>
    match p_keyword r, p_month r with
    | Some k, Some m =>
        if String.eqb k "" then []
        else [Cleaned k m (p_intents r) (p_traffic r) (p_volume r)]
    | _, _ => []
    end) rows.

(** The group a row falls in; a row with a missing key cell is in none. *)
Definition key_of (r : cleaned_row) : option key :=
  match c_intents r with
  | Some i => Some (c_keyword r, c_month r, i)
  | None => None
  end.

Definition in_group (k : key) (r : cleaned_row) : bool :=
  match key_of r with
  | Some k' => key_eqb k' k
  | None => false
  end.

Definition group_keys (rows : list cleaned_row) : list key :=
  sort_uniq key_leb key_eqb
    (flat_map (fun r => match key_of r with Some k => [k] | None => [] end) rows).

(** ['sum'] over a group *)
Definition agg_sum (cells : list num) : num :=
  match all_int cells with
  | Some zs => IntCell (sum64 zs)
  | None => FloatCell (float_sum w cells)
  end.

(** ['max'] over a group *)
Definition agg_max (cells : list num) : num :=
  match cells with
  | [] => IntCell 0
  | c :: rest => fold_left (fun best x => if num_ltb best x then x else best) rest c
  end.

(** Descending by (Traffic, Search Volume). *)
Definition ranks_before (a b : reconciled_row) : bool :=
  num_ltb (r_traffic b) (r_traffic a)
  || (num_eqb (r_traffic a) (r_traffic b)
      && negb (num_ltb (r_volume a) (r_volume b))).

(** [groupby([...]).agg({'Traffic': 'sum', 'Search Volume': 'max'})]: one
    row per key, in key order. *)
Definition groupby_agg (rows : list cleaned_row) : list reconciled_row :=
  map (fun k =>
         let members := filter (in_group k) rows in
         Reconciled (fst (fst k)) (snd (fst k)) (snd k)
                    (agg_sum (map c_traffic members))
                    (agg_max (map c_volume members)))
      (group_keys rows).

(** The reconciliation of duplicates:
    [groupby(...).agg(...).sort_values(by=['Traffic', 'Search Volume'],
    ascending=False).reset_index()] *)
Definition reconcile (rows : list cleaned_row) : list reconciled_row :=
  sort_by ranks_before (groupby_agg rows).

(** [s.split(',')] *)
Definition split_intents (s : string) : list string := split "," s.

(** [assign(Intent=...str.split(',')).explode('Intent')] *)
Definition explode (rows : list reconciled_row) : list (reconciled_row * string) :=
  flat_map (fun r => map (fun part => (r, part)) (split_intents (r_intents r))) rows.

(** The intent processing of [clean_df]: explode, trim and lower-case,
    keep the valid intents. *)
Definition process_intents (rows : list reconciled_row) (valid_intents : pyset)
  : list (reconciled_row * string) :=
  let df_with_intents := explode rows in
  let df_with_intents := map (fun ri => (fst ri, lower (strip (snd ri)))) df_with_intents in
  filter (fun ri => mem (snd ri) valid_intents) df_with_intents.

Definition num_finite (c : num) : bool :=
  match c with
  | IntCell _ => true
  | FloatCell f => is_finite f
  end.

(** [col.astype('int64')] *)
Definition cast_int64 (cells : list num) : outcome (list Z) :=
  if forallb num_finite cells then Returned (map num_to_int64 cells)
  else Raised (Exn ValueError "Cannot convert non-finite values (NA or inf) to integer").

(** [clean_df] up to the reconciliation, on the selected columns. *)
Definition reconciled_of (cleaned_df : frame) : outcome (list reconciled_row) :=
  obind (getcol cleaned_df "Keyword") (fun kw =>
  obind (str_accessor kw) (fun kws =>
  let keywords := map (option_map lower) (map (option_map strip) kws) in
  obind (getcol cleaned_df "Traffic") (fun traffic =>
  obind (getcol cleaned_df "Search Volume") (fun volume =>
  obind (getcol cleaned_df "Timestamp") (fun timestamp =>
  obind (getcol cleaned_df "Keyword Intents") (fun intents_col =>
  (* a key column that is not text groups as well, but [.str] refuses it *)
  obind (str_accessor intents_col) (fun intents =>
  let parsed := zip_rows keywords (year_month w timestamp) intents
                         (numeric_cells traffic) (numeric_cells volume) in
  Returned (reconcile (drop_invalid parsed))))))))).

(** [clean_df] from the reconciled table on: the intents, then the final
    [astype]. *)
Definition finish_clean (reconciled_df : list reconciled_row) (valid_intents : pyset)
  : outcome (option (list clean_row)) :=
  let df_with_intents := process_intents reconciled_df valid_intents in
  obind (cast_int64 (map (fun ri => r_traffic (fst ri)) df_with_intents)) (fun traffic64 =>
  obind (cast_int64 (map (fun ri => r_volume (fst ri)) df_with_intents)) (fun volume64 =>
  Returned (Some
    (map (fun x => CleanRow (r_keyword (fst (fst x))) (r_month (fst (fst x)))
                            (fst (snd x)) (snd (snd x)) (snd (fst x)))
         (combine df_with_intents (combine traffic64 volume64)))))).

Definition clean_df (raw_df : frame) (required_cols valid_intents : pyset)
  : outcome (option (list clean_row)) :=
  obind (select raw_df (iter o required_cols)) (fun cleaned_df =>
  obind (reconciled_of cleaned_df) (fun reconciled_df =>
  finish_clean reconciled_df valid_intents)).

(** *** After the cleaning *)

(** [str(v)] of a configuration value *)
Definition py_str (v : cfgval) : string :=
  match v with
  | CfgNone => "None"
  | CfgInt z => str_Z z
  | CfgStr s => s
  | _ => repr w v
  end.

(** [clean_data['YearMonth'].max()], [NaT] for an empty column *)
Definition max_month (rows : list row) : option Z :=
  match rows with
  | [] => None
  | r :: rest => Some (fold_left Z.max (map YearMonth rest) (YearMonth r))
  end.

(** The window of months and the two strings of the summary's
    [date_range]. *)
Definition date_range (config : dict) (clean_data : list row)
  : outcome (option Z * option Z * (string * string)) :=
  if truthy (cfg_get config "date_range" CfgNone) then
    match cfg_get config "date_range" CfgNone with
    | CfgDict d =>
        let start_month := match dict_get d "start" with Some v => v | None => CfgNone end in
        let end_month := match dict_get d "end" with Some v => v | None => CfgNone end in
        obind (to_period w start_month) (fun lo =>
        obind (to_period w end_month) (fun hi =>
        Returned (lo, hi, (py_str start_month, py_str end_month))))
    | v => Raised (Exn AttributeError
                     ("'" ++ type_name v ++ "' object has no attribute 'get'")%string)
    end
  else
    let end_month := max_month clean_data in
    let start_month := option_map (fun e => (e - 5)%Z) end_month in
    Returned (start_month, end_month, (period_str start_month, period_str end_month)).

(** [clean_data[(YearMonth >= start) & (YearMonth <= end)]]; a comparison
    with [NaT] is false. *)
Definition in_window (lo hi : option Z) (r : row) : bool :=
  match lo, hi with
  | Some a, Some b => ((a <=? YearMonth r) && (YearMonth r <=? b))%Z
  | _, _ => false
  end.

Definition filter_window (lo hi : option Z) (clean_data : list row) : list row :=
  filter (in_window lo hi) clean_data.

(** [df.drop_duplicates(subset=...)]: the first row of each key. *)
Fixpoint drop_duplicates {K} (eqb : K -> K -> bool) (key_fn : row -> K)
  (seen : list K) (rows : list row) : list row :=
  match rows with
  | [] => []
  | r :: rest =>
      if existsb (eqb (key_fn r)) seen then drop_duplicates eqb key_fn seen rest
      else r :: drop_duplicates eqb key_fn (key_fn r :: seen) rest
  end.

(** [df.groupby(col)['Traffic'].sum()]: the labels in order, each with its
    [int64] sum. *)
Definition traffic_by (label : row -> string) (rows : list row) : list (string * Z) :=
  map (fun l => (l, sum64 (map Traffic (filter (fun r => String.eqb (label r) l) rows))))
      (sort_uniq String.leb String.eqb (map label rows)).

Definition pair_eqb (a b : string * Z) : bool :=
  String.eqb (fst a) (fst b) && (snd a =? snd b)%Z.

Definition category_totals (filtered_df : list row) : list (string * Z) :=
  traffic_by Category
    (drop_duplicates pair_eqb (fun r => (Keyword r, YearMonth r)) [] filtered_df).

Definition intent_totals (filtered_df : list row) : list (string * Z) :=
  traffic_by Intent
    (drop_duplicates key_eqb (fun r => (Keyword r, YearMonth r, Intent r)) [] filtered_df).

Definition build_summary (filtered_df : list row) (range : string * string) : summary :=
  Summary (List.length (sort_uniq String.leb String.eqb (map Keyword filtered_df)))
          (match dict_get (category_totals filtered_df) "branded" with Some v => v | None => 0%Z end)
          (match dict_get (category_totals filtered_df) "non-branded" with Some v => v | None => 0%Z end)
          (intent_totals filtered_df)
          (fst range) (snd range).

(** *** Effects *)

Definition makedirs (dir : string) : M state unit :=
  check (makedirs_error w dir) ;;;
  st <- get ;;
  match dict_get (snd st) dir with
  | Some Dir => ret tt
  | Some _ => raise (Exn OSError ("File exists: '" ++ dir ++ "'")%string)
  | None => modify (fun st => (fst st, dict_set (snd st) dir Dir))
  end.

(** Drawing a chart from tables computed from [filtered_df],
    [fig.savefig(path)] and the artifact record. *)
Definition save_chart (output_dir file : string) (data : list row) : M state unit :=
  let chart_path := path_join output_dir file in
  check (savefig_error w chart_path data) ;;;
  modify (fun st => (fst st, dict_set (snd st) chart_path Png)) ;;;
  modify (fun st => (add_artifact (Artifact file "chart" chart_path) (fst st), snd st)).

Definition save_csv (output_dir file : string) (data : list row) : M state unit :=
  let csv_path := path_join output_dir file in
  check (to_csv_error w csv_path) ;;;
  modify (fun st => (fst st, dict_set (snd st) csv_path (CsvFile data))) ;;;
  modify (fun st => (add_artifact (Artifact file "csv" csv_path) (fst st), snd st)).

(** The [Category] column: branded when the brand pattern is found. *)
Definition add_category (brand_pattern : string) (r : clean_row) : row :=
  Row (cr_keyword r) (cr_month r) (cr_traffic r) (cr_volume r) (cr_intent r)
      (if regex_search w brand_pattern (cr_keyword r) then "branded" else "non-branded").

(** The body of the [try] block. *)
Definition analysis_body (input_file output_dir : string) (config : dict)
  (required_cols valid_intents : pyset) (brand_keywords : cfgval) : M state unit :=
  df <- lift (read_csv w input_file) ;;
  v <- lift (validate_df_structure df required_cols) ;;
  if negb (fst v) then
    modify (fun st => (set_errors (snd v) (fst st), snd st))
  else
    cd <- lift (clean_df df required_cols valid_intents) ;;
    match cd with
    | None => modify (fun st => (add_error "Failed to clean data" (fst st), snd st))
    | Some cleaned =>
        brand_pattern <- lift (py_join "|" brand_keywords) ;;
        check (regex_error w brand_pattern) ;;;
        let clean_data := map (add_category brand_pattern) cleaned in
        makedirs output_dir ;;;
        range <- lift (date_range config clean_data) ;;
        let filtered_df := filter_window (fst (fst range)) (snd (fst range)) clean_data in
        save_chart output_dir "traffic_by_category.png" filtered_df ;;;
        save_chart output_dir "branded_split.png" filtered_df ;;;
        save_chart output_dir "intent_distribution.png" filtered_df ;;;
        modify (fun st => (set_summary (build_summary filtered_df (snd range)) (fst st), snd st)) ;;;
        save_csv output_dir "keyword_analysis.csv" filtered_df ;;;
        modify (fun st => (set_success (fst st), snd st))
    end.

Definition run_analysis (input_file output_dir : string) (config : option dict)
  (disk : fs (list row)) : outcome (result summary) * fs (list row) :=
  let results := initial_result in
  match required_columns config with
  | Raised e => (Raised e, disk)
  | Returned required_cols =>
  match valid_intents_of config with
  | Raised e => (Raised e, disk)
  | Returned valid_intents =>
      let config := config_dict config in
      let brand_keywords := cfg_get config "brand_keywords" (CfgList default_brands) in
      let r := try_except
                 (analysis_body input_file output_dir config
                                required_cols valid_intents brand_keywords)
                 (fun e => modify (fun st =>
                    (add_error ("Analysis error: " ++ str_exn e)%string (fst st), snd st)))
                 (results, disk) in
      (Returned (fst (snd r)), snd (snd r))
  end
  end.

End Pipeline.

End Keywords.

(** ** Sample environments and inputs

    Concrete library behaviour and data, on which the pipelines run by
    computation. *)

Module Samples.
Import Py Pandas.

Definition digit_value (c : ascii) : Z := (Z.of_nat (nat_of_ascii c) - 48)%Z.

(** ISO dates ["YYYY-MM-DD"] with a month from 1 to 12 and a day of that
    month. *)
Definition iso_date (s : string) : option Helium.date :=
  match chars s with
  | [y1; y2; y3; y4; _; m1; m2; _; d1; d2] =>
      if Helium.is_date_label s then
        let y := (digit_value y1 * 1000 + digit_value y2 * 100
                  + digit_value y3 * 10 + digit_value y4)%Z in
        let m := (digit_value m1 * 10 + digit_value m2)%Z in
        let d := (digit_value d1 * 10 + digit_value d2)%Z in
        if ((1 <=? m) && (m <=? 12) && (1 <=? d) && (d <=? Helium.days_in_month y m))%Z
        then Some (Helium.Date y m d) else None
      else None
  | _ => None
  end.

(** The month of an ISO date, counted from year 0. *)
Definition iso_month (s : option string) : option Z :=
  match s with
  | Some t => option_map Helium.month_index (iso_date t)
  | None => None
  end.

Fixpoint prefix_of (p l : list ascii) : bool :=
  match p, l with
  | [], _ => true
  | a :: p', b :: l' => Ascii.eqb a b && prefix_of p' l'
  | _ :: _, [] => false
  end.

Fixpoint infix_of (p l : list ascii) : bool :=
  prefix_of p l || match l with [] => false | _ :: t => infix_of p t end.

(** A pattern of literal alternatives, matched without regard to case. *)
Definition literal_search (pattern s : string) : bool :=
  existsb (fun alt => infix_of (chars (lower alt)) (chars (lower s))) (split "|" pattern).

(** A channel export: two spellings of one target, a missing target, a
    missing count. *)
Definition channel_frame : frame :=
  [("Target", ColObj [Some " Acme "; Some "beta"; None; Some "acme"]);
   ("Direct", ColInt [10; 20; 30; 40]%Z);
   ("Referral", ColFloat [1.5; nan; 3; 4]%float);
   ("Organic Search", ColInt [7; 7; 7; 7]%Z);
   ("Paid Search", ColInt [0; 1; 0; 1]%Z);
   ("Organic Social", ColInt [2; 2; 2; 2]%Z);
   ("Paid Social", ColInt [3; 3; 3; 3]%Z);
   ("Email", ColInt [4; 5; 6; 7]%Z);
   ("Display Ads", ColInt [0; 0; 0; 0]%Z);
   ("Notes", ColObj [Some "x"; None; None; Some "y"])].

(** A channel export with a negative count. *)
Definition negative_frame : frame :=
  [("Target", ColObj [Some "acme"]);
   ("Direct", ColInt [-5]%Z);
   ("Referral", ColInt [1]%Z);
   ("Organic Search", ColInt [1]%Z);
   ("Paid Search", ColInt [1]%Z);
   ("Organic Social", ColInt [1]%Z);
   ("Paid Social", ColInt [1]%Z);
   ("Email", ColInt [1]%Z);
   ("Display Ads", ColInt [1]%Z)].

Definition channel_env (df : frame) : Channels.env :=
  Channels.Env (fun _ => Returned df) (fun xs => inr (map (fun _ => nan) xs))
               (fun _ => "nan") (fun _ => None) (fun _ _ => None) (fun _ => None).

(** The cleaned sample table. *)
Definition channel_cleaned : frame :=
  Eval vm_compute in
    match Channels.clean_df (channel_env channel_frame) forward_order channel_frame
                            Channels.default_required Channels.default_numeric with
    | Returned (Some c) => c
    | _ => []
    end.

(** A channel export without the [Email] column. *)
Definition no_email_frame : frame :=
  filter (fun nc => negb (String.eqb (fst nc) "Email")) channel_frame.

(** The run of the channel pipeline on the sample table, with the default
    configuration and an empty disk. *)
Definition channel_run : outcome (result Channels.summary) * fs frame :=
  Eval vm_compute in
    Channels.run_analysis (channel_env channel_frame) forward_order
                          "channels.csv" "out" None [].

Definition channel_result : result Channels.summary :=
  match fst channel_run with
  | Returned r => r
  | Raised _ => initial_result
  end.

(** A time-series export: five date columns, one of them all zero, and a
    column the pipeline drops. *)
Definition helium_frame : frame :=
  [("Metric", ColObj [Some "Organic Traffic"; Some "Organic Keywords";
                      Some "Organic Traffic Cost"; Some "Paid Traffic";
                      Some "Paid Keywords"; Some "Paid Traffic Cost"]);
   ("Target", ColObj [Some "x"; Some "x"; Some "x"; Some "x"; Some "x"; Some "x"]);
   ("2024-01-15", ColInt [1; 2; 3; 4; 5; 6]%Z);
   ("2024-01-20", ColInt [1; 2; 3; 4; 5; 6]%Z);
   ("2024-03-10", ColInt [10; 20; 30; 40; 50; 60]%Z);
   ("2024-04-10", ColInt [0; 0; 0; 0; 0; 0]%Z);
   ("2022-04-10", ColInt [7; 0; 0; 0; 0; 0]%Z)].


Definition helium_env (df : frame) : Helium.env :=
  Helium.Env (fun _ => Returned df) iso_date
             (fun _ => Raised (Exn TypeError "unsupported operand"))
             None
             (fun _ => Raised (Exn ValueError "cannot convert float NaN to integer"))
             (fun _ => nan)
             (fun _ => None) (fun _ _ => None) (fun _ => None).

(** A keyword export: one keyword under two spellings in one month, an
    intent outside the vocabulary, a brand keyword, an old month. *)
Definition keyword_frame : frame :=
  [("Keyword", ColObj [Some " Foo "; Some "foo"; Some "bar";
                       Some "Flavour Blaster x"; Some "old"]);
   ("Traffic", ColInt [10; 5; 7; 3; 9]%Z);
   ("Search Volume", ColInt [100; 300; 50; 20; 1]%Z);
   ("Timestamp", ColObj [Some "2024-06-01"; Some "2024-06-15"; Some "2024-05-01";
                         Some "2024-01-01"; Some "2023-12-31"]);
   ("Keyword Intents", ColObj [Some "Commercial, informational";
                               Some "Commercial, informational";
                               Some "weird"; Some "Navigational"; Some "commercial"])].

(** Two duplicates of one (keyword, month, intents) key, and another row. *)
Definition duplicate_rows : list Keywords.cleaned_row :=
  [Keywords.Cleaned "foo" 24293 (Some "Commercial, informational") (IntCell 10) (IntCell 100);
   Keywords.Cleaned "bar" 24292 (Some "weird") (IntCell 7) (IntCell 50);
   Keywords.Cleaned "foo" 24293 (Some "Commercial, informational") (IntCell 5) (IntCell 300)].

(** Cleaned keyword rows of June 2024, January 2024 and December 2023. *)
Definition window_rows : list Keywords.row :=
  [Keywords.Row "foo" 24293 15 300 "commercial" "non-branded";
   Keywords.Row "flavour blaster x" 24288 3 20 "navigational" "branded";
   Keywords.Row "old" 24287 9 1 "commercial" "non-branded"].

Definition keyword_env (df : frame) : Keywords.env :=
  Keywords.Env (fun _ => Returned df) (fun xs => inr (map (fun _ => nan) xs))
               (fun _ => None)
               (fun c => match c with ColObj xs => map iso_month xs | _ => [] end)
               (fun _ => nan)
               (fun _ => None) literal_search
               (fun v => match v with
                         | CfgStr s => Returned (iso_month (Some (s ++ "-01")%string))
                         | _ => Returned None
                         end)
               (fun _ => "")
               (fun _ => None) (fun _ _ => None) (fun _ => None).

(** The same channel run under the other iteration order. *)
Definition channel_run_backward : outcome (result Channels.summary) * fs frame :=
  Eval vm_compute in
    Channels.run_analysis (channel_env channel_frame) backward_order
                          "channels.csv" "out" None [].

Definition channel_result_backward : result Channels.summary :=
  match fst channel_run_backward with
  | Returned r => r
  | Raised _ => initial_result
  end.

(** The run of the keyword pipeline on the sample table, with the default
    configuration and an empty disk. *)
Definition keyword_run : outcome (result Keywords.summary) * fs (list Keywords.row) :=
  Eval vm_compute in
    Keywords.run_analysis (keyword_env keyword_frame) forward_order
                          "keywords.csv" "out" None [].

Definition keyword_result : result Keywords.summary :=
  match fst keyword_run with
  | Returned r => r
  | Raised _ => initial_result
  end.

End Samples.

(** ** Further inputs and reference computations *)

Module Cases.
Import Py Pandas.

(** A channel export whose [Direct] and [Email] counts were read as text. *)
Definition text_counts_frame : frame :=
  [("Target", ColObj [Some "acme"; Some "beta"]);
   ("Direct", ColObj [Some "ten"; Some "20"]);
   ("Referral", ColInt [1; 2]%Z);
   ("Organic Search", ColInt [3; 4]%Z);
   ("Paid Search", ColInt [5; 6]%Z);
   ("Organic Social", ColInt [7; 8]%Z);
   ("Paid Social", ColInt [9; 10]%Z);
   ("Email", ColObj [Some "n/a"; None]);
   ("Display Ads", ColInt [0; 0]%Z)].

(** A configuration that counts a column it does not require. *)
Definition clicks_config : dict :=
  [("numeric_columns", CfgList ["Direct"; "Clicks"])].

(** A configuration that requires the channels but not [Target]. *)
Definition no_target_config : dict :=
  [("required_columns", CfgList ["Direct"; "Referral"]);
   ("numeric_columns", CfgList ["Direct"; "Referral"])].

(** A configuration without numeric columns. *)
Definition no_numeric_config : dict :=
  [("numeric_columns", CfgList [])].

(** The run of the time-series pipeline on the sample table, with an
    empty disk. *)
Definition helium_run : outcome (result Helium.summary) * fs Helium.monthly :=
  Eval vm_compute in
    Helium.run_analysis (Samples.helium_env Samples.helium_frame) forward_order
                        "helium.csv" "out" None [].

Definition helium_result : result Helium.summary :=
  match fst helium_run with
  | Returned r => r
  | Raised _ => initial_result
  end.

(** The sample time-series table with its metric labels in lower case. *)
Definition lowercase_frame : frame :=
  map (fun nc => if String.eqb (fst nc) "Metric"
                 then (fst nc, match snd nc with
                               | ColObj xs => ColObj (map (option_map lower) xs)
                               | c => c
                               end)
                 else nc) Samples.helium_frame.

(** A configuration whose brand keywords are a number. *)
Definition brand_number_config : dict := [("brand_keywords", CfgInt 5)].


(** The cleaned sample keyword table. *)
Definition keyword_cleaned : list Keywords.clean_row :=
  Eval vm_compute in
    match Keywords.clean_df (Samples.keyword_env Samples.keyword_frame) forward_order
                            Samples.keyword_frame
                            Keywords.default_required Keywords.default_intents with
    | Returned (Some c) => c
    | _ => []
    end.

(** What [pd.read_csv] raises on a path that does not exist. *)
Definition missing_file : exn :=
  Exn OSError "[Errno 2] No such file or directory: 'missing.csv'".

(** A channel environment in which no file can be read. *)
Definition unreadable_env : Channels.env :=
  Channels.Env (fun _ => Raised missing_file) (fun xs => inr (map (fun _ => nan) xs))
               (fun _ => "nan") (fun _ => None) (fun _ _ => None) (fun _ => None).

End Cases.

(** ** What the time-series summary is expected to total *)

Module Expected.
Import Py Pandas Helium.

(** The cell of a value column in the row of a metric label: the first
    row of the table that carries the label; 0 when there is none. *)
Fixpoint labelled_cell (labels : list (option string)) (name : string) (xs : list Z) : Z :=
  match labels, xs with
  | l :: ls, x :: xs' =>
      if ostr_eqb l (Some name) then x else labelled_cell ls name xs'
  | _, _ => 0%Z
  end.

(** The number in a cell of the pivoted table, 0 for a missing cell. *)
Definition cell_value (c : option Z) : Z :=
  match c with Some z => z | None => 0%Z end.

(** The date that a column label parses to. *)
Definition column_date (w : env) (c : string) : date :=
  match to_datetime w c with Some d => d | None => Date 0 0 0 end.

(** The value columns that the cleaning keeps: the [int64] columns other
    than [Metric] that are not dropped and hold a non-zero cell. *)
Definition kept_value_columns (df : frame) : list (string * list Z) :=
  flat_map (fun nc =>
              match snd nc with
              | ColInt xs =>
                  if negb (String.eqb (fst nc) "Metric")
                     && negb (mem (fst nc) dropping_cols)
                     && any_nonzero (ColInt xs)
                  then [(fst nc, xs)] else []
              | _ => []
              end) df.

(** The sum of a metric over the kept value columns dated from
    [start_date] to [end_date]. *)
Definition window_total (w : env) (df : frame) (name : string)
  (start_date end_date : date) : Z :=
  match dict_get df "Metric" with
  | Some (ColObj labels) =>
      sumZ (map (fun nc => labelled_cell labels name (snd nc))
                (filter (fun nc => match to_datetime w (fst nc) with
                                   | Some d => date_leb start_date d && date_leb d end_date
                                   | None => false
                                   end)
                        (kept_value_columns df)))
  | _ => 0%Z
  end.

End Expected.

(** * Properties *)

(** ** Facts about the Python-level operations *)

Module PyFacts.
Import Py.

Lemma chars_of_chars (l : list ascii) : chars (of_chars l) = l.
Proof. apply list_ascii_of_string_of_list_ascii. Qed.

Lemma of_chars_chars (s : string) : of_chars (chars s) = s.
Proof. apply string_of_list_ascii_of_string. Qed.

Lemma isspace_lower_char (c : ascii) : isspace (lower_char c) = isspace c.
Proof. destruct c as [[] [] [] [] [] [] [] []]; reflexivity. Qed.

Lemma lower_char_idem (c : ascii) : lower_char (lower_char c) = lower_char c.
Proof. destruct c as [[] [] [] [] [] [] [] []]; reflexivity. Qed.

Lemma dropwhile_idem {A} (p : A -> bool) (l : list A) :
  dropwhile p (dropwhile p l) = dropwhile p l.
Proof.
  induction l as [|x t IH]; simpl; auto.
  destruct (p x) eqn:E; auto. simpl. now rewrite E.
Qed.

Lemma dropwhile_snoc {A} (p : A -> bool) (l : list A) (c : A) :
  p c = false -> dropwhile p (l ++ [c]) = dropwhile p l ++ [c].
Proof.
  intros Hc. induction l as [|x t IH]; simpl.
  - now rewrite Hc.
  - destruct (p x); auto.
Qed.

Lemma dropwhile_map {A} (p : A -> bool) (f : A -> A) (l : list A) :
  (forall x, p (f x) = p x) ->
  dropwhile p (map f l) = map f (dropwhile p l).
Proof.
  intros Hf. induction l as [|x t IH]; simpl; auto.
  rewrite Hf. destruct (p x); auto.
Qed.

Lemma dropwhile_head {A} (p : A -> bool) (l : list A) :
  dropwhile p l = [] \/ exists x t, dropwhile p l = x :: t /\ p x = false.
Proof.
  induction l as [|x t IH]; simpl; auto.
  destruct (p x) eqn:E; auto. right. now exists x, t.
Qed.

Lemma rstrip_chars_idem (l : list ascii) :
  rstrip_chars (rstrip_chars l) = rstrip_chars l.
Proof.
  unfold rstrip_chars. now rewrite rev_involutive, dropwhile_idem.
Qed.

(** Stripping the right end leaves a non-blank first character in place. *)
Lemma rstrip_chars_cons (c : ascii) (t : list ascii) :
  isspace c = false -> exists t', rstrip_chars (c :: t) = c :: t'.
Proof.
  intros Hc. unfold rstrip_chars. simpl.
  rewrite dropwhile_snoc by assumption.
  rewrite rev_app_distr. simpl. eauto.
Qed.

Lemma strip_chars_idem (l : list ascii) :
  rstrip_chars (lstrip_chars (rstrip_chars (lstrip_chars l)))
  = rstrip_chars (lstrip_chars l).
Proof.
  unfold lstrip_chars at 2.
  destruct (dropwhile_head isspace l) as [E | (x & t & E & Hx)].
  - unfold lstrip_chars. rewrite E. reflexivity.
  - unfold lstrip_chars at 2. rewrite E.
    destruct (rstrip_chars_cons x t Hx) as (t' & Et).
    assert (Hl : lstrip_chars (rstrip_chars (x :: t)) = rstrip_chars (x :: t)).
    { rewrite Et. unfold lstrip_chars. simpl. now rewrite Hx. }
    rewrite Hl. apply rstrip_chars_idem.
Qed.

(** [s.strip()] is trimmed. *)
Lemma strip_idem (s : string) : strip (strip s) = strip s.
Proof.
  unfold strip. rewrite chars_of_chars. now rewrite strip_chars_idem.
Qed.

(** [s.lower()] is lower-cased. *)
Lemma lower_idem (s : string) : lower (lower s) = lower s.
Proof.
  unfold lower. rewrite chars_of_chars, map_map.
  f_equal. apply map_ext. intros. apply lower_char_idem.
Qed.

(** Lower-casing keeps a string trimmed. *)
Lemma strip_lower (s : string) : strip (lower s) = lower (strip s).
Proof.
  unfold strip, lower. rewrite !chars_of_chars. f_equal.
  unfold rstrip_chars, lstrip_chars.
  rewrite dropwhile_map by apply isspace_lower_char.
  rewrite <- map_rev.
  rewrite dropwhile_map by apply isspace_lower_char.
  now rewrite map_rev.
Qed.

Lemma cleaned_text_trimmed (s : string) :
  strip (lower (strip s)) = lower (strip s).
Proof. now rewrite strip_lower, strip_idem. Qed.

(** *** Membership and sets *)

Lemma mem_In (x : string) (l : list string) : mem x l = true <-> In x l.
Proof.
  unfold mem. rewrite existsb_exists. split.
  - intros (y & Hy & E). apply String.eqb_eq in E. now subst.
  - intros H. exists x. split; auto. apply String.eqb_refl.
Qed.

Lemma mem_false (x : string) (l : list string) : mem x l = false <-> ~ In x l.
Proof.
  rewrite <- mem_In. destruct (mem x l); split; intros; congruence.
Qed.

Lemma dedup_In (x : string) (l : list string) : In x (dedup l) <-> In x l.
Proof.
  induction l as [|y t IH]; simpl; [tauto|].
  destruct (mem y t) eqn:E.
  - rewrite IH. apply mem_In in E. split; auto. intros [->|]; auto.
  - simpl. rewrite IH. tauto.
Qed.

Lemma dedup_NoDup (l : list string) : NoDup (dedup l).
Proof.
  induction l as [|y t IH]; simpl; [constructor|].
  destruct (mem y t) eqn:E; auto.
  constructor; auto. rewrite dedup_In. now apply mem_false.
Qed.

Lemma iter_In (o : set_order) (s : pyset) (x : string) : In x (iter o s) <-> In x s.
Proof.
  rewrite <- (dedup_In x s). split; apply Permutation_in.
  - apply iter_perm.
  - apply Permutation_sym, iter_perm.
Qed.

Lemma iter_NoDup (o : set_order) (s : pyset) : NoDup (iter o s).
Proof.
  eapply Permutation_NoDup.
  - apply Permutation_sym, iter_perm.
  - apply dedup_NoDup.
Qed.

(** Two interpreters enumerate the same elements. *)
Lemma iter_Permutation (o1 o2 : set_order) (s : pyset) :
  Permutation (iter o1 s) (iter o2 s).
Proof.
  eapply Permutation_trans; [apply iter_perm|]. apply Permutation_sym, iter_perm.
Qed.

Lemma iter_nil (o : set_order) : iter o [] = [].
Proof. apply Permutation_nil. apply Permutation_sym. exact (iter_perm o []). Qed.

Lemma set_diff_In (a b : pyset) (x : string) :
  In x (set_diff a b) <-> In x a /\ ~ In x b.
Proof.
  unfold set_diff. rewrite filter_In, negb_true_iff, mem_false. tauto.
Qed.

Lemma issubset_spec (a b : pyset) :
  issubset a b = true <-> forall x, In x a -> In x b.
Proof.
  unfold issubset. rewrite forallb_forall. split; intros H x Hx.
  - now apply mem_In, H.
  - now apply mem_In, H.
Qed.

(** *** Joining *)

Lemma substring_of_refl (s : string) : substring_of s s.
Proof.
  exists ""%string, ""%string. simpl.
  induction s; simpl; congruence.
Qed.

Lemma string_app_assoc (a b c : string) : ((a ++ b) ++ c = a ++ (b ++ c))%string.
Proof. induction a; simpl; congruence. Qed.

Lemma substring_of_prefixed (p x s : string) :
  substring_of x s -> substring_of x (p ++ s)%string.
Proof.
  intros (a & b & ->). exists (p ++ a)%string, b.
  now rewrite string_app_assoc.
Qed.

Lemma substring_of_suffixed (x s q : string) :
  substring_of x s -> substring_of x (s ++ q)%string.
Proof.
  intros (a & b & ->). exists a, (b ++ q)%string.
  now rewrite !string_app_assoc.
Qed.

(** Every part can be read in the joined string. *)
Lemma join_mentions (sep : string) (parts : list string) (x : string) :
  In x parts -> substring_of x (join sep parts).
Proof.
  induction parts as [|p rest IH]; simpl; [tauto|].
  intros [->|Hin].
  - destruct rest; [apply substring_of_refl|].
    apply substring_of_suffixed, substring_of_refl.
  - destruct rest as [|q rest']; [destruct Hin|].
    apply substring_of_prefixed, substring_of_prefixed. auto.
Qed.

(** *** Dictionaries *)

Lemma dict_get_set {V} (d : list (string * V)) (k k' : string) (v : V) :
  dict_get (dict_set d k v) k' = if String.eqb k' k then Some v else dict_get d k'.
Proof.
  induction d as [|[k0 v0] t IH]; simpl.
  - destruct (String.eqb k' k); auto.
  - destruct (String.eqb k k0) eqn:E; simpl.
    + apply String.eqb_eq in E. subst k0. destruct (String.eqb k' k); auto.
    + destruct (String.eqb k' k0) eqn:E'; auto.
      apply String.eqb_eq in E'. subst k0.
      rewrite String.eqb_sym in E. now rewrite E.
Qed.

Lemma dict_get_set_same {V} (d : list (string * V)) (k : string) (v : V) :
  dict_get (dict_set d k v) k = Some v.
Proof. rewrite dict_get_set. now rewrite String.eqb_refl. Qed.

Lemma dict_get_In {V} (d : list (string * V)) (k : string) (v : V) :
  dict_get d k = Some v -> In (k, v) d.
Proof.
  induction d as [|[k0 v0] t IH]; simpl; [discriminate|].
  destruct (String.eqb k k0) eqn:E.
  - apply String.eqb_eq in E. intros [= ->]. subst. auto.
  - auto.
Qed.

Lemma dict_get_None {V} (d : list (string * V)) (k : string) :
  dict_get d k = None <-> ~ In k (map fst d).
Proof.
  induction d as [|[k0 v0] t IH]; simpl; [tauto|].
  destruct (String.eqb k k0) eqn:E.
  - apply String.eqb_eq in E. subst. split; [discriminate|]. intros H. exfalso. auto.
  - apply String.eqb_neq in E. rewrite IH. split; intros H; [intros [?|?]|]; auto.
Qed.

Lemma dict_get_NoDup {V} (d : list (string * V)) (k : string) (v : V) :
  NoDup (map fst d) -> In (k, v) d -> dict_get d k = Some v.
Proof.
  induction d as [|[k0 v0] t IH]; simpl; [tauto|].
  intros Hnd [E|Hin].
  - inversion E; subst. now rewrite String.eqb_refl.
  - inversion Hnd; subst.
    destruct (String.eqb k k0) eqn:E.
    + apply String.eqb_eq in E. subst. exfalso. apply H1.
      change k0 with (fst (k0, v)). now apply in_map.
    + auto.
Qed.

(** *** The first maximal key *)

Lemma max_from_spec (l : list (string * Z)) (best : string) (bv : Z) :
  let r := max_from best bv l in
  (r = best \/ In r (map fst l)) /\
  exists rv, (r = best /\ rv = bv \/ In (r, rv) l) /\
             (bv <= rv)%Z /\ forall k v, In (k, v) l -> (v <= rv)%Z.
Proof.
  revert best bv. induction l as [|[k v] t IH]; intros best bv; simpl.
  - split; auto. exists bv. split; auto. split; [lia|]. intros ? ? [].
  - destruct (bv <? v)%Z eqn:E.
    + apply Z.ltb_lt in E. destruct (IH k v) as [H1 (rv & H2 & H3 & H4)].
      split.
      * destruct H1 as [->|H1]; auto.
      * exists rv. split; [|split].
        -- destruct H2 as [[-> ->]|]; auto.
        -- lia.
        -- intros k' v' [Heq|Hin].
           ++ inversion Heq; subst. lia.
           ++ exact (H4 _ _ Hin).
    + apply Z.ltb_ge in E. destruct (IH best bv) as [H1 (rv & H2 & H3 & H4)].
      split.
      * destruct H1; auto.
      * exists rv. split; [|split]; auto.
        -- destruct H2 as [[-> ->]|]; auto.
        -- intros k' v' [Heq|Hin].
           ++ inversion Heq; subst. lia.
           ++ exact (H4 _ _ Hin).
Qed.

(** [max(d, key=d.get)] returns a key of [d] whose value no other value
    exceeds. *)
Lemma max_key_spec (d : list (string * Z)) (top : string) :
  max_key d = Returned top ->
  exists tv, In (top, tv) d /\ forall k v, In (k, v) d -> (v <= tv)%Z.
Proof.
  destruct d as [|[k v] t]; simpl; [discriminate|].
  intros [= <-].
  destruct (max_from_spec t k v) as [_ (rv & H2 & H3 & H4)].
  exists rv. split.
  - destruct H2 as [[-> ->]|]; auto.
  - intros k' v' [Heq|Hin].
    + inversion Heq; subst. lia.
    + exact (H4 _ _ Hin).
Qed.

(** *** 64-bit sums *)

Lemma wrap64_small (z : Z) : in_int64 z -> wrap64 z = z.
Proof.
  unfold in_int64, int64_min, int64_max, wrap64. intros H.
  rewrite Z.mod_small; lia.
Qed.

Lemma wrap64_add_l (a b : Z) : wrap64 (wrap64 a + b) = wrap64 (a + b).
Proof.
  unfold wrap64.
  replace ((a + 2 ^ 63) mod 2 ^ 64 - 2 ^ 63 + b + 2 ^ 63)%Z
    with ((a + 2 ^ 63) mod 2 ^ 64 + b)%Z by lia.
  replace (a + b + 2 ^ 63)%Z with ((a + 2 ^ 63) + b)%Z by lia.
  now rewrite Zplus_mod_idemp_l.
Qed.

Lemma wrap64_range (z : Z) : in_int64 (wrap64 z).
Proof.
  unfold in_int64, int64_min, int64_max, wrap64.
  pose proof (Z.mod_pos_bound (z + 2 ^ 63) (2 ^ 64) ltac:(lia)). lia.
Qed.

Lemma fold_wrap64 (xs : list Z) (a : Z) :
  fold_left (fun a x => wrap64 (a + x)) xs (wrap64 a) = wrap64 (fold_left Z.add xs a).
Proof.
  revert a. induction xs as [|x t IH]; intros a; simpl; auto.
  rewrite wrap64_add_l. apply IH.
Qed.

(** numpy's sum is the exact sum, wrapped. *)
Lemma sum64_wrap (xs : list Z) : sum64 xs = wrap64 (sumZ xs).
Proof.
  unfold sum64, sumZ. rewrite <- fold_wrap64. reflexivity.
Qed.

Lemma sum64_exact (xs : list Z) : in_int64 (sumZ xs) -> sum64 xs = sumZ xs.
Proof. intros H. rewrite sum64_wrap. now apply wrap64_small. Qed.

(** *** Sorting and distinct values *)

Lemma insert_by_perm {A} (leb : A -> A -> bool) (x : A) (l : list A) :
  Permutation (insert_by leb x l) (x :: l).
Proof.
  induction l as [|y t IH]; simpl; auto.
  destruct (leb x y); auto.
  eapply Permutation_trans; [apply perm_skip, IH|]. apply perm_swap.
Qed.

Lemma sort_by_perm {A} (leb : A -> A -> bool) (l : list A) :
  Permutation (sort_by leb l) l.
Proof.
  induction l as [|x t IH]; simpl; auto.
  eapply Permutation_trans; [apply insert_by_perm|]. now apply perm_skip.
Qed.

Section Uniq.
Context {A : Type} (eqb : A -> A -> bool).
Hypothesis eqb_spec : forall x y, eqb x y = true <-> x = y.

Lemma uniq_In (x : A) (l : list A) : In x (uniq eqb l) <-> In x l.
Proof.
  induction l as [|y t IH]; simpl; [tauto|].
  rewrite filter_In, IH, negb_true_iff. split.
  - intros [?|[? _]]; auto.
  - intros [?|?]; auto.
    destruct (eqb x y) eqn:E.
    + left. symmetry. now apply eqb_spec.
    + auto.
Qed.

Lemma uniq_NoDup (l : list A) : NoDup (uniq eqb l).
Proof.
  induction l as [|y t IH]; simpl; [constructor|].
  constructor.
  - rewrite filter_In, negb_true_iff. intros [_ E].
    assert (eqb y y = true) by now apply eqb_spec. congruence.
  - now apply NoDup_filter.
Qed.

Lemma sort_uniq_In (leb : A -> A -> bool) (x : A) (l : list A) :
  In x (sort_uniq leb eqb l) <-> In x l.
Proof.
  unfold sort_uniq. rewrite <- (uniq_In x l). split; apply Permutation_in.
  - apply sort_by_perm.
  - apply Permutation_sym, sort_by_perm.
Qed.

Lemma sort_uniq_NoDup (leb : A -> A -> bool) (l : list A) :
  NoDup (sort_uniq leb eqb l).
Proof.
  unfold sort_uniq. eapply Permutation_NoDup.
  - apply Permutation_sym, sort_by_perm.
  - apply uniq_NoDup.
Qed.

End Uniq.

End PyFacts.

(** ** Facts about tables *)

Module PandasFacts.
Import Py Pandas PyFacts.

Lemma getcol_Returned (df : frame) (k : string) (c : column) :
  getcol df k = Returned c <-> dict_get df k = Some c.
Proof.
  unfold getcol. destruct (dict_get df k); split; intros H; inversion H; auto.
Qed.

Lemma getcol_Raised (df : frame) (k : string) (e : exn) :
  getcol df k = Raised e -> dict_get df k = None.
Proof. unfold getcol. destruct (dict_get df k); [discriminate|auto]. Qed.

(** A table given by its column names and a column for each. *)
Lemma dict_get_named {V} (f : string -> V) (names : list string) (k : string) :
  dict_get (map (fun n => (n, f n)) names) k = if mem k names then Some (f k) else None.
Proof.
  induction names as [|n t IH]; simpl; auto.
  destruct (String.eqb k n) eqn:E; simpl.
  - apply String.eqb_eq in E. now subst.
  - apply IH.
Qed.

Lemma named_ext {V} (f g : string -> V) (names : list string) :
  (forall n, In n names -> f n = g n) ->
  map (fun n => (n, f n)) names = map (fun n => (n, g n)) names.
Proof.
  intros H. apply map_ext_in. intros n Hn. now rewrite H.
Qed.

Lemma select_named (df : frame) (names : list string) (r : frame) :
  select df names = Returned r ->
  r = map (fun n => (n, match dict_get df n with Some c => c | None => ColInt [] end)) names
  /\ forall n, In n names -> In n (columns df).
Proof.
  revert r. induction names as [|n t IH]; simpl; intros r H.
  - inversion H. split; auto. intros ? [].
  - unfold getcol in H. destruct (dict_get df n) eqn:E; simpl in H; [|discriminate].
    destruct (select df t) eqn:Et; simpl in H; [|discriminate].
    inversion H; subst. destruct (IH _ eq_refl) as [-> Hin].
    split; auto. intros m [<-|Hm]; auto.
    apply dict_get_In in E. unfold columns.
    change n with (fst (n, c)). now apply in_map.
Qed.

Lemma select_total (df : frame) (names : list string) :
  (forall n, In n names -> In n (columns df)) ->
  exists r, select df names = Returned r.
Proof.
  induction names as [|n t IH]; simpl; intros H; eauto.
  destruct (dict_get df n) eqn:E.
  - unfold getcol. rewrite E. simpl.
    destruct IH as (r & ->); auto. simpl. eauto.
  - apply dict_get_None in E. exfalso. apply E. apply H. auto.
Qed.

Lemma setcol_named (f : string -> column) (names : list string) (k : string) (c : column) :
  NoDup names -> In k names ->
  setcol (map (fun n => (n, f n)) names) k c
  = map (fun n => (n, if String.eqb n k then c else f n)) names.
Proof.
  unfold setcol. induction names as [|n t IH]; simpl; intros Hnd Hin; [tauto|].
  inversion Hnd; subst.
  destruct (String.eqb k n) eqn:E.
  - apply String.eqb_eq in E. subst n. rewrite String.eqb_refl. f_equal.
    apply named_ext. intros m Hm.
    destruct (String.eqb m k) eqn:E'; auto.
    apply String.eqb_eq in E'. subst. contradiction.
  - rewrite String.eqb_sym, E. f_equal. apply IH; auto.
    destruct Hin as [->|]; auto. rewrite String.eqb_refl in E. discriminate.
Qed.

Lemma frame_filter_named (m : list bool) (f : string -> column) (names : list string) :
  frame_filter m (map (fun n => (n, f n)) names)
  = map (fun n => (n, col_filter m (f n))) names.
Proof. unfold frame_filter. now rewrite map_map. Qed.

Lemma columns_named (f : string -> column) (names : list string) :
  columns (map (fun n => (n, f n)) names) = names.
Proof. unfold columns. rewrite map_map. simpl. apply map_id. Qed.

Lemma mask_filter_map {A B} (g : A -> B) (m : list bool) (l : list A) :
  mask_filter m (map g l) = map g (mask_filter m l).
Proof.
  revert l. induction m as [|b m IH]; intros [|x l]; simpl; auto.
  destruct b; simpl; now rewrite IH.
Qed.

Lemma mask_filter_In {A} (m : list bool) (l : list A) (x : A) :
  In x (mask_filter m l) -> In x l.
Proof.
  revert l. induction m as [|b m IH]; intros [|y l]; simpl; try tauto.
  destruct b; simpl; intros H; [destruct H|]; auto.
Qed.

Lemma mask_filter_nil {A} (m : list bool) : mask_filter m (@nil A) = [].
Proof. destruct m; reflexivity. Qed.

End PandasFacts.
(** ** The channel pipeline *)

Module ChannelsFacts.
Import Py Pandas PyFacts PandasFacts Channels.

Section Cleaning.

Variable w : env.
Variable o : set_order.

Lemma check_numeric_grows (df : frame) (cols : list string) (errs errs' : list string) :
  check_numeric df cols errs = Returned errs' ->
  errs' = [] ->
  errs = [] /\
  forall col, In col cols ->
    exists c, dict_get df col = Some c /\ is_numeric_dtype c = true.
Proof.
  revert errs. induction cols as [|col rest IH]; simpl; intros errs H Hnil.
  - inversion H; subst. split; auto. intros ? [].
  - unfold getcol in H. destruct (dict_get df col) eqn:E; simpl in H; [|discriminate].
    destruct (is_numeric_dtype c) eqn:En; simpl in H.
    + destruct (IH _ H Hnil) as [-> Hall]. split; auto.
      intros col' [<-|Hin]; eauto.
    + destruct (IH _ H Hnil) as [Habs _]. destruct errs; discriminate.
Qed.

(** What a passed validation says about the table. *)
Lemma validate_true (df : frame) (required_cols numeric_cols : pyset) (errs : list string) :
  validate_df_structure o df required_cols numeric_cols = Returned (true, errs) ->
  errs = [] /\
  (forall n, In n required_cols -> In n (columns df)) /\
  (forall n, In n numeric_cols -> In n required_cols) /\
  (forall n, In n numeric_cols ->
     exists c, dict_get df n = Some c /\ is_numeric_dtype c = true).
Proof.
  unfold validate_df_structure, validate_columns.
  destruct (set_diff required_cols (columns df)) eqn:Ed; simpl; [|discriminate].
  destruct (issubset numeric_cols required_cols) eqn:Es; simpl; [|discriminate].
  destruct (check_numeric df (iter o numeric_cols) []) eqn:Ec; simpl; [|discriminate].
  intros H. inversion H; subst. destruct errs; [|discriminate].
  destruct (check_numeric_grows _ _ _ _ Ec eq_refl) as [_ Hall].
  split; auto. split; [|split].
  - intros n Hn. destruct (in_dec string_dec n (columns df)) as [|Hno]; auto.
    assert (In n (set_diff required_cols (columns df))) by now apply set_diff_In.
    rewrite Ed in H0. destruct H0.
  - now apply issubset_spec.
  - intros n Hn. apply Hall. now apply iter_In.
Qed.

Lemma clean_numeric_cols_named (f : string -> column) (names cols : list string) (r : frame) :
  NoDup names -> NoDup cols -> (forall c, In c cols -> In c names) ->
  clean_numeric_cols w (map (fun n => (n, f n)) names) cols = Returned r ->
  r = map (fun n => (n, if mem n cols then fillna0 (to_numeric w (f n)) else f n)) names.
Proof.
  intros Hnames. revert f r. induction cols as [|col rest IH]; simpl; intros f r Hnd Hsub H.
  - inversion H. reflexivity.
  - inversion Hnd as [|? ? Hnotin Hrest]; subst.
    unfold getcol in H. rewrite dict_get_named in H.
    assert (Hcol : In col names) by auto.
    pose proof Hcol as Hmem. apply mem_In in Hmem. rewrite Hmem in H. simpl in H.
    rewrite setcol_named in H by auto.
    apply IH in H; auto. subst r. apply named_ext. intros n Hn.
    destruct (String.eqb n col) eqn:E; simpl; auto.
    apply String.eqb_eq in E. subst n.
    apply mem_false in Hnotin. now rewrite Hnotin.
Qed.

Lemma mask_filter_then {A} (m1 m2 : list bool) (l : list A) :
  mask_filter m2 (mask_filter m1 l) = mask_filter (mask_then m1 m2) l.
Proof.
  revert m2 l. induction m1 as [|b m1 IH]; intros m2 l; simpl.
  - now rewrite mask_filter_nil.
  - destruct l as [|x l].
    + destruct b; [destruct m2|]; simpl; now rewrite ?mask_filter_nil.
    + destruct b; simpl.
      * destruct m2 as [|b2 m2]; simpl; auto. destruct b2; now rewrite IH.
      * apply IH.
Qed.

Lemma col_filter_then (m1 m2 : list bool) (c : column) :
  col_filter m2 (col_filter m1 c) = col_filter (mask_then m1 m2) c.
Proof. destruct c; simpl; now rewrite mask_filter_then. Qed.

Lemma mask_filter_pred {A} (p : A -> bool) (l : list A) :
  mask_filter (map p l) l = filter p l.
Proof.
  induction l as [|x t IH]; simpl; auto. destruct (p x); now rewrite IH.
Qed.

Lemma ostr_eqb_eq (a b : option string) : ostr_eqb a b = true <-> a = b.
Proof.
  destruct a, b; simpl; split; intros H; try discriminate; auto.
  - apply String.eqb_eq in H. now subst.
  - inversion H. apply String.eqb_refl.
Qed.

(** The first occurrences are distinct values, none of them seen before. *)
Lemma first_occurrence_NoDup (seen l : list (option string)) :
  NoDup (mask_filter (first_occurrence ostr_eqb seen l) l) /\
  forall x, In x (mask_filter (first_occurrence ostr_eqb seen l) l) -> ~ In x seen.
Proof.
  revert seen. induction l as [|x t IH]; intros seen; simpl.
  - split; [constructor|]. intros ? [].
  - destruct (existsb (ostr_eqb x) seen) eqn:E; simpl.
    + apply IH.
    + destruct (IH (x :: seen)) as [Hnd Hnot]. split.
      * constructor; auto. intros Hin. apply (Hnot _ Hin). now left.
      * intros y [<-|Hy].
        -- intros Hin. assert (existsb (ostr_eqb x) seen = true); [|congruence].
           apply existsb_exists. exists x. split; auto. now apply ostr_eqb_eq.
        -- intros Hin. apply (Hnot _ Hy). now right.
Qed.

Lemma all_present (l : list (option string)) :
  (forall x, In x l -> x <> None) -> exists ts, l = map Some ts.
Proof.
  induction l as [|x t IH]; intros H.
  - now exists [].
  - destruct IH as (ts & ->); [intros; apply H; now right|].
    destruct x as [s|]; [|exfalso; apply (H None); [now left|reflexivity]].
    now exists (s :: ts).
Qed.

(** The kept [Target] cells: present, not empty, distinct, and each a
    cell of the column. *)
Lemma kept_targets (l : list (option string)) :
  exists targets,
    mask_filter (kept_rows l) l = map Some targets /\
    NoDup targets /\
    forall t, In t targets -> t <> ""%string /\ In (Some t) l.
Proof.
  unfold kept_rows. rewrite <- !mask_filter_then, !mask_filter_pred.
  set (l1 := filter (fun x => match x with Some _ => true | None => false end) l).
  set (l2 := filter (fun x => negb (ostr_eqb x (Some ""%string))) l1).
  destruct (first_occurrence_NoDup [] l2) as [Hnd _].
  set (l3 := mask_filter (first_occurrence ostr_eqb [] l2) l2) in *.
  assert (Hin : forall x, In x l3 -> In x l /\ x <> None /\ x <> Some ""%string).
  { intros x Hx. apply mask_filter_In in Hx. unfold l2 in Hx.
    apply filter_In in Hx. destruct Hx as [Hx1 Hx2]. unfold l1 in Hx1.
    apply filter_In in Hx1. destruct Hx1 as [Hx0 Hx1].
    split; auto. split.
    - destruct x; [discriminate|discriminate].
    - intros ->. simpl in Hx2. discriminate. }
  destruct (all_present l3) as (targets & E); [intros x Hx; now apply Hin|].
  exists targets. split; auto. split.
  - rewrite E in Hnd. eapply NoDup_map_inv. exact Hnd.
  - intros t Ht. assert (Hx : In (Some t) l3) by (rewrite E; now apply in_map).
    destruct (Hin _ Hx) as (H1 & _ & H3). split; auto. congruence.
Qed.

Lemma dtype_dict_get (cols : list string) (d : list (string * dtype)) (n : string) :
  dict_get (fold_left (fun d col => dict_set d col DInt64) cols d) n
  = if mem n cols then Some DInt64 else dict_get d n.
Proof.
  revert d. induction cols as [|c rest IH]; intros d; simpl; auto.
  rewrite IH, dict_get_set.
  destruct (mem n rest); simpl.
  - now rewrite orb_true_r.
  - now rewrite orb_false_r.
Qed.

Lemma dtype_dict_keys (cols : list string) (d : list (string * dtype)) (k : string) :
  In k (map fst (fold_left (fun d col => dict_set d col DInt64) cols d)) ->
  In k cols \/ In k (map fst d).
Proof.
  intros H.
  destruct (dict_get (fold_left (fun d col => dict_set d col DInt64) cols d) k) eqn:E.
  - rewrite dtype_dict_get in E. destruct (mem k cols) eqn:Em.
    + left. now apply mem_In.
    + right. destruct (dict_get d k) eqn:Ed; [|discriminate].
      apply dict_get_In in Ed. change k with (fst (k, d1)). now apply in_map.
  - apply dict_get_None in E. contradiction.
Qed.

Lemma cast_columns_named (f : string -> column) (names : list string)
  (dtypes : list (string * dtype)) (r : frame) :
  cast_columns w (map (fun n => (n, f n)) names) dtypes = Returned r ->
  exists g, r = map (fun n => (n, g n)) names /\
    forall n, In n names ->
      match dict_get dtypes n with
      | Some d => cast w d (f n) = Returned (g n)
      | None => g n = f n
      end.
Proof.
  intros H.
  exists (fun n => match dict_get dtypes n with
                   | Some d => match cast w d (f n) with
                               | Returned c => c
                               | Raised _ => f n
                               end
                   | None => f n
                   end).
  revert r H. induction names as [|n t IH]; simpl; intros r H.
  - inversion H. split; auto. intros ? [].
  - destruct (dict_get dtypes n) eqn:Ed.
    + destruct (cast w d (f n)) eqn:Ec; simpl in H; [|discriminate].
      destruct (cast_columns w (map (fun n => (n, f n)) t) dtypes) eqn:Er;
        simpl in H; [|discriminate].
      inversion H; subst. destruct (IH _ eq_refl) as [-> Hall].
      split; auto. intros m [<-|Hm]; [now rewrite Ed, Ec | exact (Hall m Hm)].
    + simpl in H.
      destruct (cast_columns w (map (fun n => (n, f n)) t) dtypes) eqn:Er;
        simpl in H; [|discriminate].
      inversion H; subst. destruct (IH _ eq_refl) as [-> Hall].
      split; auto. intros m [<-|Hm]; [now rewrite Ed | exact (Hall m Hm)].
Qed.

Lemma float_to_int64_zero : float_to_int64 0%float = 0%Z.
Proof. reflexivity. Qed.

Lemma cast_int64_cleaned (keep : list bool) (c c' : column) :
  is_numeric_dtype c = true ->
  cast w DInt64 (col_filter keep (fillna0 (to_numeric w c))) = Returned c' ->
  c' = ColInt (mask_filter keep (int64_cells c)).
Proof.
  destruct c as [xs|xs|xs]; simpl; intros Hn H; try discriminate.
  - now inversion H.
  - destruct (forallb is_finite _); inversion H. f_equal.
    rewrite <- (mask_filter_map float_to_int64), map_map.
    f_equal. apply map_ext. intros f. destruct (is_nan f); auto.
Qed.

Lemma mem_iter (s : pyset) (n : string) : mem n (iter o s) = mem n s.
Proof.
  destruct (mem n s) eqn:E.
  - apply mem_In, iter_In, mem_In. exact E.
  - apply mem_false. intros H. apply iter_In in H. apply mem_In in H. congruence.
Qed.

Lemma getcol_named (f : string -> column) (names : list string) (k : string) :
  In k names -> getcol (map (fun n => (n, f n)) names) k = Returned (f k).
Proof.
  intros H. unfold getcol. rewrite dict_get_named.
  apply mem_In in H. now rewrite H.
Qed.

(** [clean_df], column by column: on a validated table its result is the
    required columns in iteration order, each cleaned on its own and cut
    to the kept rows. *)
Lemma clean_df_columns (df : frame) (required_cols numeric_cols : pyset)
  (errs : list string) (cleaned : frame) :
  validate_df_structure o df required_cols numeric_cols = Returned (true, errs) ->
  clean_df w o df required_cols numeric_cols = Returned (Some cleaned) ->
  exists ts,
    dict_get df "Target" = Some (ColObj ts) /\
    In "Target" required_cols /\ ~ In "Target" numeric_cols /\
    cleaned = map (fun n => (n, cleaned_column df numeric_cols ts n)) (iter o required_cols).
Proof.
  intros Hv Hc. destruct (validate_true _ _ _ _ Hv) as (_ & Hreq & Hsub & Hnum).
  unfold clean_df in Hc.
  destruct (select df (iter o required_cols)) as [sel|] eqn:Es; simpl in Hc; [|discriminate].
  apply select_named in Es. destruct Es as [-> _].
  pose proof (iter_NoDup o required_cols) as Hnd.
  remember (iter o required_cols) as names eqn:Enames.
  unfold getcol at 1 in Hc. rewrite dict_get_named in Hc.
  destruct (mem "Target" names) eqn:Et; simpl in Hc; [|discriminate].
  apply mem_In in Et.
  destruct (dict_get df "Target") as [[?|?|ts]|] eqn:Hdf; simpl in Hc; try discriminate.
  assert (Hnot : ~ In "Target" numeric_cols).
  { intros Hin. destruct (Hnum _ Hin) as (c & Hc1 & Hc2).
    rewrite Hdf in Hc1. inversion Hc1; subst. discriminate. }
  exists ts. split; auto. split; [rewrite Enames in Et; now apply iter_In in Et|].
  split; auto.
  rewrite setcol_named in Hc by auto.
  match type of Hc with
  | obind (clean_numeric_cols _ (map ?F _) _) _ = _ =>
      pose (g1 := fun n : string => snd (F n));
      change (map F names) with (map (fun n => (n, g1 n)) names) in Hc;
      assert (Eg1 : forall n, g1 n = snd (F n)) by reflexivity;
      clearbody g1
  end.
  simpl in Eg1.
  destruct (clean_numeric_cols w (map (fun n => (n, g1 n)) names) (iter o numeric_cols))
    as [F2|] eqn:Eloop; simpl in Hc; [|discriminate].
  apply clean_numeric_cols_named in Eloop; auto; [|apply iter_NoDup|].
  2:{ intros c Hin. rewrite Enames. apply iter_In. apply Hsub. now apply iter_In in Hin. }
  subst F2.
  match type of Hc with
  | obind (getcol (map ?F _) _) _ = _ =>
      pose (g2 := fun n : string => snd (F n));
      change (map F names) with (map (fun n => (n, g2 n)) names) in Hc;
      assert (Eg2 : forall n, g2 n = snd (F n)) by reflexivity;
      clearbody g2
  end.
  simpl in Eg2.
  assert (Hg2T : g2 "Target" = ColObj (clean_targets ts)).
  { rewrite Eg2, mem_iter. apply mem_false in Hnot. rewrite Hnot.
    rewrite Eg1. simpl. reflexivity. }
  rewrite getcol_named in Hc by auto. simpl in Hc.
  rewrite frame_filter_named in Hc.
  rewrite getcol_named in Hc by auto. simpl in Hc.
  rewrite frame_filter_named in Hc.
  rewrite getcol_named in Hc by auto. simpl in Hc.
  rewrite frame_filter_named in Hc.
  rewrite !Hg2T in Hc. simpl in Hc.
  destruct (astype _ _ _) as [final|] eqn:Ea; simpl in Hc; [|discriminate].
  inversion Hc; subst final. clear Hc.
  unfold astype in Ea. destruct (forallb _ _) in Ea; [|discriminate].
  apply cast_columns_named in Ea. destruct Ea as (g & -> & Hg).
  apply named_ext. intros n Hn. specialize (Hg n Hn).
  unfold dtype_dict in Hg. rewrite dtype_dict_get, mem_iter in Hg. simpl in Hg.
  unfold cleaned_column.
  set (m1 := map (fun x : option string => match x with Some _ => true | None => false end)
                 (clean_targets ts)) in *.
  fold (kept_rows (clean_targets ts)).
  assert (Hkeep : forall c,
             col_filter (first_occurrence ostr_eqb []
                           (mask_filter (map (fun x => negb (ostr_eqb x (Some "")))
                                             (mask_filter m1 (clean_targets ts)))
                                        (mask_filter m1 (clean_targets ts))))
               (col_filter (map (fun x => negb (ostr_eqb x (Some "")))
                                (mask_filter m1 (clean_targets ts)))
                  (col_filter m1 c))
             = col_filter (kept_rows (clean_targets ts)) c).
  { intros c. rewrite (col_filter_then m1), col_filter_then. reflexivity. }
  rewrite Hkeep in Hg.
  destruct (String.eqb n "Target") eqn:En.
  - apply String.eqb_eq in En. subst n.
    apply mem_false in Hnot. rewrite Hnot in Hg.
    rewrite Hg2T in Hg. simpl in Hg. now inversion Hg.
  - assert (Hin : In n (columns df)).
    { apply Hreq. rewrite Enames in Hn. now apply iter_In in Hn. }
    destruct (dict_get df n) as [c|] eqn:Edf.
    2:{ apply dict_get_None in Edf. contradiction. }
    assert (Hg1n : g1 n = c) by (rewrite Eg1, En, Edf; reflexivity).
    destruct (mem n numeric_cols) eqn:Em.
    + rewrite Eg2, mem_iter, Em, Hg1n in Hg.
      apply cast_int64_cleaned in Hg; auto.
      apply mem_In in Em. destruct (Hnum _ Em) as (c0 & Hc0 & Hc1). congruence.
    + rewrite Eg2, mem_iter, Em, Hg1n in Hg. exact Hg.
Qed.

Lemma clean_targets_shape (ts : list (option string)) (t : string) :
  In (Some t) (clean_targets ts) -> lower t = t /\ strip t = t.
Proof.
  unfold clean_targets. rewrite map_map. intros H.
  apply in_map_iff in H. destruct H as ([s|] & E & _); simpl in E; [|discriminate].
  inversion E; subst. split; [apply lower_idem|apply cleaned_text_trimmed].
Qed.

End Cleaning.

End ChannelsFacts.

(** ** The channel pipeline: the claims *)

Module ChannelsClaims.
Import Py Pandas PyFacts PandasFacts Channels ChannelsFacts.




End ChannelsClaims.

Module ChannelsRun.
Import Py Pandas PyFacts PandasFacts Channels ChannelsFacts.

Ltac inner_case H :=
  match type of H with
  | context [match ?x with _ => _ end] =>
      lazymatch x with
      | context [match _ with _ => _ end] => fail
      | _ => destruct x eqn:?; simpl in H
      end
  end.

Section Run.

Variable w : env.
Variable o : set_order.

Lemma validate_missing (df : frame) (required_cols numeric_cols : pyset) :
  (exists c, In c required_cols /\ ~ In c (columns df)) ->
  validate_df_structure o df required_cols numeric_cols
  = Returned (false, [("Missing columns: "
                       ++ join ", " (iter o (set_diff required_cols (columns df))))%string]).
Proof.
  intros (c & Hc & Hn). unfold validate_df_structure, validate_columns.
  destruct (set_diff required_cols (columns df)) eqn:E; simpl; auto.
  assert (In c (set_diff required_cols (columns df))) by now apply set_diff_In.
  rewrite E in H. destruct H.
Qed.

(** What a successful run went through. *)
Lemma run_success (input_file output_dir : string) (config : option dict)
  (disk disk' : fs frame) (r : result summary) :
  run_analysis w o input_file output_dir config disk = (Returned r, disk') ->
  success r = true ->
  exists required_cols numeric_cols df clean_data sm,
    required_columns config = Returned required_cols /\
    numeric_columns config = Returned numeric_cols /\
    read_csv w input_file = Returned df /\
    validate_df_structure o df required_cols numeric_cols = Returned (true, []) /\
    clean_df w o df required_cols numeric_cols = Returned (Some clean_data) /\
    build_summary o clean_data numeric_cols = Returned sm /\
    Pandas.summary r = Some sm /\ errors r = [] /\
    dict_get disk' (path_join output_dir "channel_analysis.csv") = Some (CsvFile clean_data).
Proof.
  unfold run_analysis. intros H Hs.
  destruct (required_columns config) as [required_cols|] eqn:Er; [|discriminate].
  destruct (numeric_columns config) as [numeric_cols|] eqn:En; [|discriminate].
  exists required_cols, numeric_cols.
  unfold try_except, analysis_body, bind, lift in H.
  destruct (read_csv w input_file) as [df|] eqn:Ed; simpl in H;
    [|inversion H; subst; discriminate].
  destruct (validate_df_structure o df required_cols numeric_cols) as [[ok errs]|] eqn:Ev;
    simpl in H; [|inversion H; subst; discriminate].
  destruct ok; simpl in H; [|inversion H; subst; discriminate].
  destruct (validate_true o _ _ _ _ Ev) as (-> & _).
  destruct (clean_df w o df required_cols numeric_cols) as [[clean_data|]|] eqn:Ec;
    simpl in H; try (inversion H; subst; discriminate).
  exists df, clean_data.
  unfold makedirs, save_chart, save_csv, check, bind, get, modify, ret, raise, lift in H.
  simpl in H.
  repeat (inner_case H; try (inversion H; subst; discriminate)).
  all: inversion H; subst; simpl in *.
  all: eexists; repeat split;
    first [reflexivity | eassumption | apply dict_get_set_same].
Qed.

Lemma dict_set_In {V} (d : list (string * V)) (k k' : string) (v v' : V) :
  In (k, v) (dict_set d k' v') -> (k, v) = (k', v') \/ In (k, v) d.
Proof.
  induction d as [|[k0 v0] t IH]; simpl.
  - intros [H|H]; [left; now symmetry|destruct H].
  - destruct (String.eqb k' k0) eqn:E; simpl.
    + apply String.eqb_eq in E. subst k0. intros [H|H]; auto.
    + intros [H|H]; auto. destruct (IH H); auto.
Qed.

Lemma channel_totals_loop_get (clean_data : frame) (cols : list string)
  (acc totals : list (string * Z)) (k : string) :
  channel_totals_loop clean_data cols acc = Returned totals ->
  ~ In k cols -> dict_get totals k = dict_get acc k.
Proof.
  revert acc. induction cols as [|col rest IH]; simpl; intros acc H Hk.
  - now inversion H.
  - destruct (getcol clean_data col) as [c|]; simpl in H; [|discriminate].
    destruct (col_sum c) as [v|]; simpl in H; [|discriminate].
    rewrite (IH _ H) by tauto. rewrite dict_get_set.
    destruct (String.eqb k col) eqn:E; auto.
    apply String.eqb_eq in E. subst. tauto.
Qed.

Lemma channel_totals_loop_spec (clean_data : frame) (cols : list string)
  (acc totals : list (string * Z)) :
  channel_totals_loop clean_data cols acc = Returned totals ->
  (forall k, In k cols ->
     exists xs, getcol clean_data k = Returned (ColInt xs)
                /\ dict_get totals k = Some (sum64 xs)) /\
  (forall k v, In (k, v) totals ->
     In (k, v) acc \/
     (In k cols /\ exists xs, getcol clean_data k = Returned (ColInt xs) /\ v = sum64 xs)).
Proof.
  revert acc. induction cols as [|col rest IH]; simpl; intros acc H.
  - inversion H; subst. split; [intros ? []|auto].
  - destruct (getcol clean_data col) as [c|] eqn:Ec; simpl in H; [|discriminate].
    destruct c as [xs|?|?]; simpl in H; try discriminate.
    destruct (IH _ H) as [H1 H2]. split.
    + intros k [<-|Hk]; auto.
      exists xs. split; auto.
      destruct (in_dec string_dec col rest) as [Hin|Hout].
      * destruct (H1 _ Hin) as (ys & Hy & Hd). congruence.
      * rewrite (channel_totals_loop_get _ _ _ _ _ H Hout).
        apply dict_get_set_same.
    + intros k v Hin. destruct (H2 _ _ Hin) as [Hacc|(Hk & xs' & Hx & ->)].
      * apply dict_set_In in Hacc. destruct Hacc as [Heq|]; auto.
        inversion Heq; subst. right. split; auto. eauto.
      * right. split; auto. eauto.
Qed.

(** C2: on a channel CSV that lacks a required column, [run_analysis]
    returns [success = false] with one error string that names every
    missing column, no artifact, and leaves the disk as it was: neither
    the output directory nor any file is created. *)
Theorem missing_columns_reported (input_file output_dir : string) (config : option dict)
  (disk : fs frame) (df : frame) (required_cols numeric_cols : pyset) :
  required_columns config = Returned required_cols ->
  numeric_columns config = Returned numeric_cols ->
  read_csv w input_file = Returned df ->
  (exists c, In c required_cols /\ ~ In c (columns df)) ->
  exists msg,
    run_analysis w o input_file output_dir config disk
    = (Returned (Result false [msg] [] None), disk) /\
    forall c, In c required_cols -> ~ In c (columns df) -> substring_of c msg.
Proof.
  intros Hr Hn Hd Hmiss. eexists. split.
  - unfold run_analysis. rewrite Hr, Hn.
    unfold try_except, analysis_body, bind, lift. rewrite Hd. simpl.
    rewrite (validate_missing _ _ _ Hmiss). simpl. reflexivity.
  - intros c Hc Hnc.
    apply (substring_of_prefixed "Missing columns: " c
             (join ", " (iter o (set_diff required_cols (columns df))))).
    apply join_mentions. apply iter_In. now apply set_diff_In.
Qed.

(** C7: after a successful channel run, [top_channel] names a numeric
    column whose [int64] sum over the cleaned table (the one written as
    the processed CSV) is at least the sum of every numeric column. *)
Theorem top_channel_has_largest_total (input_file output_dir : string)
  (config : option dict) (disk disk' : fs frame) (r : result summary) :
  run_analysis w o input_file output_dir config disk = (Returned r, disk') ->
  success r = true ->
  exists numeric_cols clean_data sm top_cells,
    numeric_columns config = Returned numeric_cols /\
    dict_get disk' (path_join output_dir "channel_analysis.csv") = Some (CsvFile clean_data) /\
    Pandas.summary r = Some sm /\
    In (top_channel sm) numeric_cols /\
    getcol clean_data (top_channel sm) = Returned (ColInt top_cells) /\
    forall col cells,
      In col numeric_cols -> getcol clean_data col = Returned (ColInt cells) ->
      (sum64 cells <= sum64 top_cells)%Z.
Proof.
  intros H Hs.
  destruct (run_success _ _ _ _ _ _ H Hs)
    as (req & num & df & clean & sm & Hr & Hn & Hd & Hv & Hc & Hb & Hsm & _ & Hcsv).
  unfold build_summary in Hb.
  destruct (channel_totals_loop clean (iter o num) []) as [totals|] eqn:Et;
    simpl in Hb; [|discriminate].
  unfold obind in Hb.
  repeat (inner_case Hb; try discriminate).
  all: inversion Hb; subst; clear Hb; simpl.
  all: destruct (channel_totals_loop_spec _ _ _ _ Et) as [Hget Hmem].
  all: match goal with
       | Et' : channel_totals_loop _ _ _ = Returned ?tot,
         Hm : max_key ?tot = Returned ?top |- _ =>
           destruct (max_key_spec _ _ Hm) as (tv & Htop & Hmax);
           destruct (Hmem _ _ Htop) as [[]|(Hin & xs & Hx & ->)];
           exists num, clean; eexists; exists xs;
           repeat split; eauto; [now apply iter_In in Hin|];
           intros col cells Hcol Hcells;
           destruct (Hget col) as (ys & Hy & Hg); [now apply iter_In|];
           assert (ys = cells) by congruence; subst ys;
           apply (Hmax col); now apply dict_get_In
       end.
Qed.

End Run.

(** The check of [missing_columns_reported] on a table without [Email]. *)
Lemma missing_columns_reported_witness :
  required_columns None = Returned default_required /\
  numeric_columns None = Returned default_numeric /\
  read_csv (Samples.channel_env Samples.no_email_frame) "channels.csv"
  = Returned Samples.no_email_frame /\
  (exists c, In c default_required /\ ~ In c (columns Samples.no_email_frame)) /\
  exists msg,
    run_analysis (Samples.channel_env Samples.no_email_frame) forward_order
                 "channels.csv" "out" None []
    = (Returned (Result false [msg] [] None), []) /\
    forall c, In c default_required -> ~ In c (columns Samples.no_email_frame) ->
              substring_of c msg.
Proof.
  assert (Hm : exists c, In c default_required /\ ~ In c (columns Samples.no_email_frame)).
  { exists "Email"%string. split; [simpl; tauto|].
    simpl. intros H. repeat (destruct H as [H|H]; [discriminate|]). exact H. }
  split; [reflexivity|]. split; [reflexivity|]. split; [reflexivity|].
  split; [exact Hm|].
  apply (missing_columns_reported (Samples.channel_env Samples.no_email_frame)
           forward_order "channels.csv" "out" None [] Samples.no_email_frame
           default_required default_numeric); [reflexivity|reflexivity|reflexivity|exact Hm].
Defined.

(** The check of [top_channel_has_largest_total] on the sample run. *)
Lemma top_channel_has_largest_total_witness :
  run_analysis (Samples.channel_env Samples.channel_frame) forward_order
               "channels.csv" "out" None []
  = (Returned Samples.channel_result, snd Samples.channel_run) /\
  success Samples.channel_result = true /\
  exists numeric_cols clean_data sm top_cells,
    numeric_columns None = Returned numeric_cols /\
    dict_get (snd Samples.channel_run) (path_join "out" "channel_analysis.csv")
    = Some (CsvFile clean_data) /\
    Pandas.summary Samples.channel_result = Some sm /\
    In (top_channel sm) numeric_cols /\
    getcol clean_data (top_channel sm) = Returned (ColInt top_cells) /\
    forall col cells,
      In col numeric_cols -> getcol clean_data col = Returned (ColInt cells) ->
      (sum64 cells <= sum64 top_cells)%Z.
Proof.
  split; [reflexivity|]. split; [reflexivity|].
  apply (top_channel_has_largest_total (Samples.channel_env Samples.channel_frame)
           forward_order "channels.csv" "out" None [] (snd Samples.channel_run)
           Samples.channel_result); reflexivity.
Defined.

End ChannelsRun.

(** ** The time-series pipeline *)

Module HeliumFacts.
Import Py Pandas PyFacts PandasFacts Helium.

Lemma date_eqb_eq (a b : date) : date_eqb a b = true <-> a = b.
Proof.
  unfold date_eqb. destruct a as [y m d], b as [y' m' d']; simpl.
  rewrite !andb_true_iff, !Z.eqb_eq. split.
  - intros [[-> ->] ->]. reflexivity.
  - intros H. inversion H. auto.
Qed.

Lemma filter_absorb {A} (p q : A -> bool) (l : list A) :
  (forall x, In x l -> p x = true -> q x = true) ->
  filter p (filter q l) = filter p l.
Proof.
  induction l as [|x t IH]; simpl; intros H; auto.
  destruct (q x) eqn:Eq; simpl.
  - destruct (p x); rewrite IH; auto.
  - destruct (p x) eqn:Ep.
    + rewrite H in Eq; auto. discriminate.
    + apply IH. auto.
Qed.

Lemma filter_swap {A} (p q : A -> bool) (l : list A) :
  filter p (filter q l) = filter q (filter p l).
Proof.
  induction l as [|x t IH]; simpl; auto.
  destruct (q x) eqn:Eq, (p x) eqn:Ep; simpl; rewrite ?Eq, ?Ep, IH; auto.
Qed.

(** A column of the table by its name, when names do not repeat. *)
Lemma column_unique (df : frame) (c : string) (col col' : column) :
  NoDup (columns df) -> In (c, col) df -> In (c, col') df -> col = col'.
Proof.
  intros Hnd H1 H2.
  apply (dict_get_NoDup df c col Hnd) in H1.
  apply (dict_get_NoDup df c col' Hnd) in H2. congruence.
Qed.

(** [clean_columns] as one selection of columns. *)
Lemma clean_columns_In (df : frame) (c : string) (col : column) :
  In (c, col) (clean_columns df) <->
  In (c, col) df /\ mem c dropping_cols = false
  /\ any_nonzero col = true /\ all_missing col = false.
Proof.
  unfold clean_columns, drop_all_missing, keep_nonzero, drop_columns.
  rewrite !filter_In. simpl fst. simpl snd.
  rewrite !negb_true_iff. tauto.
Qed.

Section Reshape.

Variable w : env.

Lemma parse_dates_source (rows : list melted_row) (parsed : list dated_row) :
  parse_dates w rows = Returned parsed ->
  forall r, In r parsed ->
    exists m, In m rows /\ to_datetime w (m_date m) = Some (d_date r).
Proof.
  revert parsed. induction rows as [|m rest IH]; simpl; intros parsed H r Hr.
  - inversion H; subst. destruct Hr.
  - destruct (to_datetime w (m_date m)) as [d|] eqn:Ed; [|discriminate].
    destruct (parse_dates w rest) as [ps|] eqn:Ep; simpl in H; [|discriminate].
    inversion H; subst. destruct Hr as [<-|Hr].
    + exists m. simpl. auto.
    + destruct (IH _ eq_refl _ Hr) as (m' & Hm & Hd). exists m'. auto.
Qed.

Lemma melt_source (labels : list (option string)) (value_cols : list (string * list Z))
  (m : melted_row) :
  In m (melt labels value_cols) -> In (m_date m) (map fst value_cols).
Proof.
  unfold melt. rewrite in_flat_map. intros ((n & xs) & Hin & Hm).
  apply in_map_iff in Hm. destruct Hm as (mv & <- & _). simpl.
  change n with (fst (n, xs)). now apply in_map.
Qed.

Lemma int_value_columns_names (df : frame) (value_cols : list (string * list Z)) :
  int_value_columns df = Some value_cols ->
  forall n, In n (map fst value_cols) -> In n (columns df).
Proof.
  revert value_cols. induction df as [|[n c] rest IH]; simpl; intros v H m Hm.
  - inversion H; subst. destruct Hm.
  - destruct (String.eqb n "Metric").
    + right. eapply IH; eauto.
    + destruct c; try discriminate.
      destruct (int_value_columns rest) as [r|]; [|discriminate].
      inversion H; subst. destruct Hm as [<-|Hm]; auto.
      right. eapply IH; eauto.
Qed.

(** The dates of the pivot's index are dates of value columns. *)
Lemma pivot_index_source (labels : list (option string))
  (value_cols : list (string * list Z)) (p : pivot) (d : date) :
  pivoted w labels value_cols = Returned p ->
  In d (map fst (pivot_rows p)) ->
  exists n, In n (map fst value_cols) /\ to_datetime w n = Some d.
Proof.
  unfold pivoted. destruct (parse_dates w (melt labels value_cols)) as [rows|] eqn:Ep;
    simpl; [|discriminate].
  intros H Hd. inversion H; subst. clear H. unfold pivot_table in Hd. simpl in Hd.
  rewrite map_map in Hd. simpl in Hd. rewrite map_id in Hd.
  apply (sort_uniq_In date_eqb date_eqb_eq) in Hd.
  apply in_map_iff in Hd. destruct Hd as (r & <- & Hr).
  apply filter_In in Hr. destruct Hr as [Hr _].
  destruct (parse_dates_source _ _ Ep _ Hr) as (m & Hm & Hdate).
  exists (m_date m). split; auto. eapply melt_source; eauto.
Qed.

End Reshape.

End HeliumFacts.

Module HeliumClaims.
Import Py Pandas PyFacts PandasFacts Helium HeliumFacts.




Lemma filter_all {A} (q : A -> bool) (l : list A) :
  (forall x, In x l -> q x = true) -> filter q l = l.
Proof.
  induction l as [|x t IH]; simpl; intros H; auto.
  rewrite H by auto. f_equal. apply IH. auto.
Qed.

Lemma clean_columns_drop (df : frame) (c : string) :
  clean_columns (drop_columns df [c])
  = filter (fun nc => negb (mem (fst nc) [c])) (clean_columns df).
Proof.
  unfold clean_columns, drop_all_missing, keep_nonzero, drop_columns.
  rewrite (filter_swap _ (fun nc => negb (mem (fst nc) [c])) df).
  rewrite (filter_swap _ (fun nc => negb (mem (fst nc) [c]))).
  rewrite (filter_swap _ (fun nc => negb (mem (fst nc) [c]))).
  reflexivity.
Qed.

(** C10: a date column of the time-series table whose values are all 0,
    or all missing, is not among the columns that are melted: the cleaned
    table, and with it the date window and the monthly table computed
    from it, are those of the input without that column, and the date of
    the column is not in the index of the pivoted table unless another
    kept column carries the same date. *)
Theorem zero_date_column_dropped (w : env) (df : frame) (c : string) (col : column) :
  NoDup (columns df) ->
  In (c, col) df ->
  is_date_label c = true ->
  any_nonzero col = false \/ all_missing col = true ->
  ~ In c (columns (clean_columns df)) /\
  clean_columns df = clean_columns (drop_columns df [c]) /\
  reshape w (clean_columns df) = reshape w (clean_columns (drop_columns df [c])) /\
  forall labels value_cols p d,
    int_value_columns (clean_columns df) = Some value_cols ->
    pivoted w labels value_cols = Returned p ->
    to_datetime w c = Some d ->
    (forall c', In c' (columns (clean_columns df)) -> to_datetime w c' <> Some d) ->
    ~ In d (map fst (pivot_rows p)).
Proof.
  intros Hnd Hin Hlabel Hzero.
  assert (Hout : ~ In c (columns (clean_columns df))).
  { unfold columns. intros H. apply in_map_iff in H.
    destruct H as ((c' & col') & E & H). simpl in E. subst c'.
    apply clean_columns_In in H. destruct H as (H1 & _ & H3 & H4).
    assert (col = col') by (eapply column_unique; eauto). subst col'.
    destruct Hzero; congruence. }
  assert (Heq : clean_columns df = clean_columns (drop_columns df [c])).
  { rewrite clean_columns_drop. symmetry. apply filter_all.
    intros [c' col'] Hx. simpl. rewrite orb_false_r. apply negb_true_iff.
    apply String.eqb_neq. intros ->. apply Hout. unfold columns.
    change c with (fst (c, col')). now apply in_map. }
  split; auto. split; auto. split; [now rewrite <- Heq|].
  intros labels value_cols p d Hv Hp Hd Hother Hidx.
  destruct (pivot_index_source w _ _ _ _ Hp Hidx) as (n & Hn & Hdn).
  apply (Hother n); auto. eapply int_value_columns_names; eauto.
Qed.

(** The check of [zero_date_column_dropped] on the sample table, whose
    column 2024-04-10 is all zero. *)
Lemma zero_date_column_dropped_witness :
  NoDup (columns Samples.helium_frame) /\
  In ("2024-04-10"%string, ColInt [0; 0; 0; 0; 0; 0]%Z) Samples.helium_frame /\
  is_date_label "2024-04-10" = true /\
  (any_nonzero (ColInt [0; 0; 0; 0; 0; 0]%Z) = false
   \/ all_missing (ColInt [0; 0; 0; 0; 0; 0]%Z) = true) /\
  (~ In "2024-04-10"%string (columns (clean_columns Samples.helium_frame)) /\
   clean_columns Samples.helium_frame
   = clean_columns (drop_columns Samples.helium_frame ["2024-04-10"%string]) /\
   reshape (Samples.helium_env Samples.helium_frame) (clean_columns Samples.helium_frame)
   = reshape (Samples.helium_env Samples.helium_frame)
             (clean_columns (drop_columns Samples.helium_frame ["2024-04-10"%string])) /\
   forall labels value_cols p d,
     int_value_columns (clean_columns Samples.helium_frame) = Some value_cols ->
     pivoted (Samples.helium_env Samples.helium_frame) labels value_cols = Returned p ->
     to_datetime (Samples.helium_env Samples.helium_frame) "2024-04-10" = Some d ->
     (forall c', In c' (columns (clean_columns Samples.helium_frame)) ->
                 to_datetime (Samples.helium_env Samples.helium_frame) c' <> Some d) ->
     ~ In d (map fst (pivot_rows p))).
Proof.
  assert (Hnd : NoDup (columns Samples.helium_frame)).
  { simpl. repeat constructor; simpl; intros H;
      repeat (destruct H as [H|H]; [discriminate|]); exact H. }
  assert (Hin : In ("2024-04-10"%string, ColInt [0; 0; 0; 0; 0; 0]%Z) Samples.helium_frame).
  { simpl. tauto. }
  split; [exact Hnd|]. split; [exact Hin|]. split; [reflexivity|].
  split; [left; reflexivity|].
  apply (zero_date_column_dropped (Samples.helium_env Samples.helium_frame)
           Samples.helium_frame "2024-04-10" (ColInt [0; 0; 0; 0; 0; 0]%Z) Hnd Hin);
    [reflexivity|left; reflexivity].
Defined.

(** The time-series entry point reports every failure in band: it returns
    a result for every input, and a result that is not a success carries
    an error. *)
Lemma filter_negb_nil {A} (p : A -> bool) (l : list A) :
  filter (fun x => negb (p x)) l = [] -> forallb p l = true.
Proof.
  induction l as [|x t IH]; simpl; auto.
  destruct (p x); simpl; [auto|discriminate].
Qed.

Lemma forallb_map_some {A B} (f : A -> B) (p : B -> bool) (l : list A) :
  forallb p (map f l) = forallb (fun x => p (f x)) l.
Proof. induction l as [|x t IH]; simpl; congruence. Qed.

Lemma validate_false_has_error (o : set_order) (df : frame) (errs : list string) :
  validate_df_structure o df = Returned (false, errs) -> errs <> [].
Proof.
  unfold validate_df_structure.
  set (e1 := if negb (nrows df =? 6)%nat then _ else _).
  set (e2 := if negb (mem "Metric" (columns df)) then _ else _).
  set (e3 := if (List.length (filter is_date_label (columns df)) <? 3)%nat then _ else _).
  destruct e3 as [|m rest] eqn:E3.
  - unfold obind.
    repeat match goal with
           | |- context [match ?x with _ => _ end] =>
               lazymatch x with
               | context [match _ with _ => _ end] => fail
               | _ => destruct x eqn:?
               end
           end; simpl; intros H; inversion H; subst; try discriminate;
      try (intros Habs; apply app_eq_nil in Habs; destruct Habs; discriminate).
    + exfalso.
      match goal with
      | Hb : negb (_ && _) = true,
        H1 : filter _ (map (option_map lower) _) = [],
        H2 : filter _ required_metrics = [] |- _ =>
          apply filter_negb_nil in H1; apply filter_negb_nil in H2;
          rewrite H1, forallb_map_some, H2 in Hb; discriminate
      end.
  - intros H. inversion H. discriminate.
Qed.

Lemma helium_reports_in_band (w : env) (o : set_order) (input_file output_dir : string)
  (config : option dict) (disk : fs monthly) :
  exists r disk',
    run_analysis w o input_file output_dir config disk = (Returned r, disk') /\
    (success r = false -> errors r <> []).
Proof.
  unfold run_analysis. do 2 eexists. split; [reflexivity|].
  unfold try_except, analysis_body, bind, lift.
  destruct (read_csv w input_file) as [df|]; simpl; [|discriminate].
  destruct (validate_df_structure o df) as [[ok errs]|] eqn:Ev; simpl; [|discriminate].
  destruct ok; simpl.
  - unfold makedirs, save_chart, save_csv, check, bind, get, modify, ret, raise, lift.
    simpl.
    repeat match goal with
           | |- context [match ?x with _ => _ end] =>
               lazymatch x with
               | context [match _ with _ => _ end] => fail
               | _ => destruct x eqn:?; simpl
               end
           end; discriminate.
  - intros _. eapply validate_false_has_error; eauto.
Qed.

End HeliumClaims.

(** ** The keyword pipeline *)

Module KeywordsFacts.
Import Py Pandas PyFacts PandasFacts Keywords.

Lemma key_eqb_eq (a b : key) : key_eqb a b = true <-> a = b.
Proof.
  destruct a as [[k m] i], b as [[k' m'] i']. unfold key_eqb. simpl.
  rewrite !andb_true_iff, !String.eqb_eq, Z.eqb_eq. split.
  - intros [[-> ->] ->]. reflexivity.
  - intros H. inversion H. auto.
Qed.

Lemma Permutation_filter_same {A} (p : A -> bool) (l l' : list A) :
  Permutation l l' -> Permutation (filter p l) (filter p l').
Proof.
  induction 1; simpl.
  - constructor.
  - destruct (p x); auto.
  - destruct (p x), (p y); auto. apply perm_swap.
  - eapply Permutation_trans; eauto.
Qed.

Lemma filter_none {A} (p : A -> bool) (l : list A) :
  (forall x, In x l -> p x = false) -> filter p l = [].
Proof.
  induction l as [|x t IH]; simpl; intros H; auto.
  rewrite H by auto. apply IH. auto.
Qed.


Lemma all_int_cells (zs : list Z) : all_int (map IntCell zs) = Some zs.
Proof. induction zs as [|z t IH]; simpl; auto. now rewrite IH. Qed.

Lemma fold_max_spec (vs : list Z) (v : Z) :
  let m := fold_left Z.max vs v in
  (m = v \/ In m vs) /\ (v <= m)%Z /\ forall x, In x vs -> (x <= m)%Z.
Proof.
  revert v. induction vs as [|y t IH]; intros v; simpl.
  - split; auto. split; [lia|]. intros ? [].
  - destruct (IH (Z.max v y)) as (H1 & H2 & H3). split; [|split].
    + destruct H1 as [H1|H1]; auto.
      rewrite H1. destruct (Z.max_spec v y) as [[_ ->]|[_ ->]]; auto.
    + lia.
    + intros x [<-|Hx]; auto. lia.
Qed.

Lemma agg_max_ints (vs : list Z) (v : Z) :
  agg_max (map IntCell (v :: vs)) = IntCell (fold_left Z.max vs v).
Proof.
  unfold agg_max. simpl. revert v. induction vs as [|y t IH]; intros v; simpl; auto.
  destruct (v <? y)%Z eqn:E.
  - apply Z.ltb_lt in E. rewrite IH. f_equal. f_equal. lia.
  - apply Z.ltb_ge in E. rewrite IH. f_equal. f_equal. lia.
Qed.

Section Reconcile.

Variable w : env.

Lemma group_keys_In (rows : list cleaned_row) (k : key) :
  In k (group_keys rows) <-> exists r, In r rows /\ key_of r = Some k.
Proof.
  unfold group_keys. rewrite (sort_uniq_In key_eqb key_eqb_eq).
  rewrite in_flat_map. split.
  - intros (r & Hr & Hk). exists r. split; auto.
    destruct (key_of r); [|destruct Hk]. destruct Hk as [->|[]]. reflexivity.
  - intros (r & Hr & Hk). exists r. split; auto. rewrite Hk. now left.
Qed.


(** The intent processing, row by row. *)
Lemma process_intents_rows (rows : list reconciled_row) (valid_intents : pyset) :
  process_intents rows valid_intents
  = flat_map (fun r => map (fun i => (r, i))
                           (filter (fun i => mem i valid_intents) (intents_of (r_intents r))))
             rows.
Proof.
  unfold process_intents, explode.
  induction rows as [|r rest IH]; simpl; auto.
  rewrite map_app, filter_app, IH. f_equal.
  unfold intents_of, split_intents.
  induction (split "," (r_intents r)) as [|p ps IHp]; simpl; auto.
  destruct (mem (lower (strip p)) valid_intents); simpl; now rewrite IHp.
Qed.


Lemma map_flat_map {A B C} (h : B -> C) (f : A -> list B) (l : list A) :
  map h (flat_map f l) = flat_map (fun x => map h (f x)) l.
Proof. induction l as [|x t IH]; simpl; auto. now rewrite map_app, IH. Qed.

Lemma process_intents_source (rows : list reconciled_row) (valid_intents : pyset)
  (ri : reconciled_row * string) :
  In ri (process_intents rows valid_intents) -> In (fst ri) rows.
Proof.
  rewrite process_intents_rows, in_flat_map. intros (r & Hr & Hi).
  apply in_map_iff in Hi. destruct Hi as (i & <- & _). exact Hr.
Qed.


End Reconcile.

Lemma max_month_spec (rows : list row) (m : Z) :
  max_month rows = Some m ->
  (exists r, In r rows /\ YearMonth r = m) /\ forall r, In r rows -> (YearMonth r <= m)%Z.
Proof.
  destruct rows as [|r rest]; simpl; [discriminate|]. intros [= <-].
  destruct (fold_max_spec (map YearMonth rest) (YearMonth r)) as (H1 & H2 & H3).
  split.
  - destruct H1 as [H1|H1].
    + exists r. auto.
    + apply in_map_iff in H1. destruct H1 as (r' & E & Hr'). exists r'. auto.
  - intros r' [<-|Hr']; auto. apply H3. now apply in_map.
Qed.

End KeywordsFacts.

Module KeywordsClaims.
Import Py Pandas PyFacts PandasFacts Keywords KeywordsFacts.



(** Traffic 10 and 5 reconcile to 15, search volumes 100 and 300 to 300. *)
Example reconcile_ten_and_five :
  reconcile (Samples.keyword_env []) Samples.duplicate_rows
  = [Reconciled "foo" 24293 "Commercial, informational" (IntCell 15) (IntCell 300);
     Reconciled "bar" 24292 "weird" (IntCell 7) (IntCell 50)].
Proof. reflexivity. Qed.

Ltac inner_case H :=
  match type of H with
  | context [match ?x with _ => _ end] =>
      lazymatch x with
      | context [match _ with _ => _ end] => fail
      | _ => destruct x eqn:?; simpl in H
      end
  end.

Lemma validate_true_no_error (w : env) (o : set_order) (df : frame)
  (required_cols : pyset) (errs : list string) :
  validate_df_structure w o df required_cols = Returned (true, errs) ->
  errs = [] /\ set_diff required_cols (columns df) = [].
Proof.
  unfold validate_df_structure, validate_columns, obind.
  destruct (set_diff required_cols (columns df)); simpl; [|discriminate].
  intros H. repeat (inner_case H; try discriminate).
  all: inversion H; subst; auto; try discriminate.
  all: match goal with
       | Hl : _ = _ :: _ |- _ => try (rewrite Hl in *; discriminate)
       end.
Qed.

(** What a successful keyword run went through. *)
Lemma keyword_run_success (w : env) (o : set_order) (input_file output_dir : string)
  (config : option dict) (disk disk' : fs (list row)) (r : result summary) :
  run_analysis w o input_file output_dir config disk = (Returned r, disk') ->
  success r = true ->
  exists required_cols valid_intents df cleaned brand_pattern range,
    required_columns config = Returned required_cols /\
    valid_intents_of config = Returned valid_intents /\
    read_csv w input_file = Returned df /\
    validate_df_structure w o df required_cols = Returned (true, []) /\
    clean_df w o df required_cols valid_intents = Returned (Some cleaned) /\
    date_range w (config_dict config) (map (add_category w brand_pattern) cleaned)
    = Returned range /\
    errors r = [] /\
    dict_get disk' (path_join output_dir "keyword_analysis.csv")
    = Some (CsvFile (filter_window (fst (fst range)) (snd (fst range))
                                   (map (add_category w brand_pattern) cleaned))).
Proof.
  unfold run_analysis. intros H Hs.
  destruct (required_columns config) as [required_cols|] eqn:Er; [|discriminate].
  destruct (valid_intents_of config) as [valid_intents|] eqn:En; [|discriminate].
  exists required_cols, valid_intents.
  unfold try_except, analysis_body, bind, lift in H.
  destruct (read_csv w input_file) as [df|] eqn:Ed; simpl in H;
    [|inversion H; subst; discriminate].
  destruct (validate_df_structure w o df required_cols) as [[ok errs]|] eqn:Ev;
    simpl in H; [|inversion H; subst; discriminate].
  destruct ok; simpl in H; [|inversion H; subst; discriminate].
  destruct (validate_true_no_error _ _ _ _ _ Ev) as (-> & _).
  destruct (clean_df w o df required_cols valid_intents) as [[cleaned|]|] eqn:Ec;
    simpl in H; try (inversion H; subst; discriminate).
  exists df, cleaned.
  destruct (py_join "|" _) as [brand_pattern|] eqn:Ej; simpl in H;
    [|inversion H; subst; discriminate].
  exists brand_pattern.
  unfold makedirs, save_chart, save_csv, check, bind, get, modify, ret, raise, lift in H.
  simpl in H.
  destruct (regex_error w brand_pattern) eqn:Ere; simpl in H;
    [inversion H; subst; discriminate|].
  destruct (makedirs_error w output_dir) eqn:Em; simpl in H;
    [inversion H; subst; discriminate|].
  destruct (dict_get disk output_dir) as [[| |]|] eqn:Edir; simpl in H;
    try (inversion H; subst; discriminate).
  all: destruct (date_range w (config_dict config) (map (add_category w brand_pattern) cleaned))
    as [range|] eqn:Edr; simpl in H; [|inversion H; subst; discriminate].
  all: exists range.
  all: repeat (inner_case H; try (inversion H; subst; discriminate)).
  all: inversion H; subst; simpl in *.
  all: repeat split; first [reflexivity | eassumption | apply dict_get_set_same].
Qed.



(** C6: when [config] gives no [date_range], the window runs from five
    months before the latest [YearMonth] of the cleaned data to that
    latest month, and the rows kept are exactly the rows whose [YearMonth]
    lies in this closed interval. *)
Theorem default_window (w : env) (config : dict) (clean_data : list row) :
  truthy (cfg_get config "date_range" CfgNone) = false ->
  exists lo hi strs,
    date_range w config clean_data = Returned (lo, hi, strs) /\
    (forall latest,
       (exists r, In r clean_data /\ YearMonth r = latest) ->
       (forall r, In r clean_data -> (YearMonth r <= latest)%Z) ->
       lo = Some (latest - 5)%Z /\ hi = Some latest /\
       filter_window lo hi clean_data
       = filter (fun r => ((latest - 5 <=? YearMonth r) && (YearMonth r <=? latest))%Z)
                clean_data /\
       forall r, In r (filter_window lo hi clean_data) <->
                 In r clean_data /\ (latest - 5 <= YearMonth r <= latest)%Z) /\
    (clean_data = [] -> filter_window lo hi clean_data = []).
Proof.
  intros Hno. unfold date_range. rewrite Hno.
  do 3 eexists. split; [reflexivity|]. split.
  - intros latest (r0 & Hr0 & Hy0) Hmax.
    destruct (max_month clean_data) as [m|] eqn:Em.
    + destruct (max_month_spec _ _ Em) as ((r1 & Hr1 & Hy1) & Hle).
      assert (Hm : m = latest).
      { pose proof (Hmax _ Hr1). pose proof (Hle _ Hr0). lia. }
      rewrite Hm. simpl. split; auto. split; auto. split; [reflexivity|].
      intros r. unfold filter_window. rewrite filter_In. unfold in_window.
      rewrite andb_true_iff, !Z.leb_le. tauto.
    + destruct clean_data; [destruct Hr0|discriminate].
  - intros ->. reflexivity.
Qed.

(** The check of [default_window] on rows of three months, without a
    configured range. *)
Lemma default_window_witness :
  truthy (cfg_get [] "date_range" CfgNone) = false /\
  exists lo hi strs,
    date_range (Samples.keyword_env []) [] Samples.window_rows = Returned (lo, hi, strs) /\
    (forall latest,
       (exists r, In r Samples.window_rows /\ YearMonth r = latest) ->
       (forall r, In r Samples.window_rows -> (YearMonth r <= latest)%Z) ->
       lo = Some (latest - 5)%Z /\ hi = Some latest /\
       filter_window lo hi Samples.window_rows
       = filter (fun r => ((latest - 5 <=? YearMonth r) && (YearMonth r <=? latest))%Z)
                Samples.window_rows /\
       forall r, In r (filter_window lo hi Samples.window_rows) <->
                 In r Samples.window_rows /\ (latest - 5 <= YearMonth r <= latest)%Z) /\
    (Samples.window_rows = [] -> filter_window lo hi Samples.window_rows = []).
Proof.
  split; [reflexivity|].
  apply (default_window (Samples.keyword_env []) [] Samples.window_rows). reflexivity.
Defined.

(** On the sample rows the window is January to June 2024: the row of
    December 2023 is left out. *)
Example default_window_sample :
  date_range (Samples.keyword_env []) [] Samples.window_rows
  = Returned (Some 24288%Z, Some 24293%Z, ("2024-01"%string, "2024-06"%string)) /\
  filter_window (Some 24288%Z) (Some 24293%Z) Samples.window_rows
  = firstn 2 Samples.window_rows.
Proof. split; reflexivity. Qed.

(** In a successful run without a configured range, the processed CSV
    holds exactly the rows of the cleaned data in the default window. *)
Lemma default_window_in_run (w : env) (o : set_order) (input_file output_dir : string)
  (config : option dict) (disk disk' : fs (list row)) (res : result summary) :
  truthy (cfg_get (config_dict config) "date_range" CfgNone) = false ->
  run_analysis w o input_file output_dir config disk = (Returned res, disk') ->
  success res = true ->
  exists clean_data,
    dict_get disk' (path_join output_dir "keyword_analysis.csv")
    = Some (CsvFile (filter (in_window (option_map (fun e => (e - 5)%Z) (max_month clean_data))
                                       (max_month clean_data)) clean_data)).
Proof.
  intros Hno Hrun Hs.
  destruct (keyword_run_success _ _ _ _ _ _ _ _ Hrun Hs)
    as (req & valid & df & cleaned & pat & range & _ & _ & _ & _ & _ & Hdr & _ & Hcsv).
  exists (map (add_category w pat) cleaned).
  unfold date_range in Hdr. rewrite Hno in Hdr. inversion Hdr; subst. exact Hcsv.
Qed.

End KeywordsClaims.

(** ** The iteration order of sets *)

Module SetOrderFacts.
Import Py Pandas PyFacts PandasFacts.

Lemma selected_lookup (o1 o2 : set_order) (df : frame) (required_cols : pyset)
  (s1 s2 : frame) :
  select df (iter o1 required_cols) = Returned s1 ->
  select df (iter o2 required_cols) = Returned s2 ->
  forall k, dict_get s1 k = dict_get s2 k.
Proof.
  intros H1 H2 k.
  apply select_named in H1. apply select_named in H2.
  destruct H1 as [-> _], H2 as [-> _].
  rewrite !dict_get_named, !ChannelsFacts.mem_iter. reflexivity.
Qed.

Section Keywords.
Import Keywords KeywordsClaims.

Variable w : env.

Lemma keyword_validate_order (o1 o2 : set_order) (df : frame) (required_cols : pyset) :
  set_diff required_cols (columns df) = [] ->
  validate_df_structure w o1 df required_cols = validate_df_structure w o2 df required_cols.
Proof.
  intros H. unfold validate_df_structure, validate_columns. now rewrite H.
Qed.

Lemma reconciled_of_lookup (s1 s2 : frame) :
  (forall k, dict_get s1 k = dict_get s2 k) ->
  reconciled_of w s1 = reconciled_of w s2.
Proof.
  intros H. unfold reconciled_of, getcol. now rewrite !H.
Qed.

Lemma keyword_clean_df_order (o1 o2 : set_order) (df : frame)
  (required_cols valid_intents : pyset) :
  set_diff required_cols (columns df) = [] ->
  clean_df w o1 df required_cols valid_intents
  = clean_df w o2 df required_cols valid_intents.
Proof.
  intros H.
  assert (Hall : forall o n, In n (iter o required_cols) -> In n (columns df)).
  { intros o n Hn. apply iter_In in Hn.
    destruct (in_dec string_dec n (columns df)) as [|Hno]; auto.
    assert (Hd : In n (set_diff required_cols (columns df))) by now apply set_diff_In.
    rewrite H in Hd. destruct Hd. }
  destruct (select_total df _ (Hall o1)) as (s1 & E1).
  destruct (select_total df _ (Hall o2)) as (s2 & E2).
  unfold clean_df. rewrite E1, E2. simpl.
  now rewrite (reconciled_of_lookup s1 s2 (selected_lookup _ _ _ _ _ _ E1 E2)).
Qed.

(** A successful keyword run does not depend on the iteration order. *)
Lemma keyword_run_order (o1 o2 : set_order) (input_file output_dir : string)
  (config : option dict) (disk disk' : fs (list row)) (r : result summary) :
  run_analysis w o1 input_file output_dir config disk = (Returned r, disk') ->
  success r = true ->
  run_analysis w o2 input_file output_dir config disk = (Returned r, disk').
Proof.
  intros Hrun Hs.
  destruct (keyword_run_success _ _ _ _ _ _ _ _ Hrun Hs)
    as (req & valid & df & cleaned & pat & range & Er & Ev & Ed & Hv & _).
  destruct (validate_true_no_error _ _ _ _ _ Hv) as [_ Hmiss].
  rewrite <- Hrun. unfold run_analysis. rewrite Er, Ev.
  unfold try_except, analysis_body, bind, lift. rewrite Ed. simpl.
  rewrite (keyword_validate_order o2 o1 df req Hmiss).
  rewrite (keyword_clean_df_order o2 o1 df req valid Hmiss).
  reflexivity.
Qed.

End Keywords.

End SetOrderFacts.

Module ChannelOrder.
Import Py Pandas PyFacts PandasFacts Channels ChannelsFacts ChannelsRun.

Lemma dict_set_keys {V} (d : list (string * V)) (k : string) (v : V) (x : string) :
  In x (map fst (dict_set d k v)) <-> x = k \/ In x (map fst d).
Proof.
  induction d as [|[k0 v0] t IH]; simpl.
  - split; intros [H|H]; auto.
  - destruct (String.eqb k k0) eqn:E; simpl.
    + apply String.eqb_eq in E. subst k0. intuition congruence.
    + rewrite IH. intuition congruence.
Qed.

Lemma dict_set_NoDup {V} (d : list (string * V)) (k : string) (v : V) :
  NoDup (map fst d) -> NoDup (map fst (dict_set d k v)).
Proof.
  induction d as [|[k0 v0] t IH]; simpl; intros Hnd.
  - constructor; auto.
  - inversion Hnd; subst. destruct (String.eqb k k0) eqn:E; simpl.
    + constructor; auto.
    + constructor; auto. rewrite dict_set_keys. intros [->|H]; auto.
      rewrite String.eqb_refl in E. discriminate.
Qed.

Lemma channel_totals_loop_NoDup (clean_data : frame) (cols : list string)
  (acc totals : list (string * Z)) :
  NoDup (map fst acc) ->
  channel_totals_loop clean_data cols acc = Returned totals ->
  NoDup (map fst totals).
Proof.
  revert acc. induction cols as [|col rest IH]; simpl; intros acc Hnd H.
  - inversion H; subst. exact Hnd.
  - destruct (getcol clean_data col) as [c|]; simpl in H; [|discriminate].
    destruct (col_sum c) as [v|]; simpl in H; [|discriminate].
    eapply IH; [|exact H]. now apply dict_set_NoDup.
Qed.

Lemma dict_get_iff_In {V} (d : list (string * V)) (k : string) (v : V) :
  NoDup (map fst d) -> (In (k, v) d <-> dict_get d k = Some v).
Proof.
  intros Hnd. split; [now apply dict_get_NoDup|apply dict_get_In].
Qed.

(** Two dictionaries with the same lookups hold the same entries. *)
Lemma lookup_Permutation {V} (d1 d2 : list (string * V)) :
  NoDup (map fst d1) -> NoDup (map fst d2) ->
  (forall k, dict_get d1 k = dict_get d2 k) ->
  Permutation d1 d2.
Proof.
  intros H1 H2 Hget. apply NoDup_Permutation.
  - eapply NoDup_map_inv; eauto.
  - eapply NoDup_map_inv; eauto.
  - intros [k v]. rewrite !dict_get_iff_In by assumption. now rewrite Hget.
Qed.

Lemma sumZ_from (l : list Z) (a : Z) : fold_left Z.add l a = (a + sumZ l)%Z.
Proof.
  unfold sumZ. revert a. induction l as [|x t IH]; intros a; simpl; [lia|].
  rewrite IH, (IH x). lia.
Qed.

Lemma sumZ_cons (x : Z) (l : list Z) : sumZ (x :: l) = (x + sumZ l)%Z.
Proof. unfold sumZ at 1. simpl. apply sumZ_from. Qed.

Lemma sumZ_Permutation (l l' : list Z) : Permutation l l' -> sumZ l = sumZ l'.
Proof.
  induction 1; auto.
  - rewrite !sumZ_cons. lia.
  - rewrite !sumZ_cons. lia.
  - congruence.
Qed.

Lemma numeric_cells_spec (clean_data : frame) (cols : list string) (cells : list (list Z)) :
  numeric_cells clean_data cols = Returned cells ->
  cells = map (fun c => match dict_get clean_data c with
                        | Some (ColInt xs) => xs
                        | _ => []
                        end) cols.
Proof.
  revert cells. induction cols as [|col rest IH]; simpl; intros cells H.
  - now inversion H.
  - unfold getcol in H. destruct (dict_get clean_data col) as [[xs| |]|];
      simpl in H; try discriminate.
    destruct (numeric_cells clean_data rest) as [r|]; simpl in H; [|discriminate].
    inversion H; subst. f_equal. now apply IH.
Qed.

Lemma target_totals_loop_ext (targets : list (option string)) (c1 c2 : list (list Z))
  (i : nat) (acc : list (string * Z)) :
  (forall j, row_sum c1 j = row_sum c2 j) ->
  target_totals_loop targets c1 i acc = target_totals_loop targets c2 i acc.
Proof.
  intros H. revert i acc. induction targets as [|[t|] rest IH]; intros i acc; simpl; auto.
  rewrite H. apply IH.
Qed.

Section Order.

Variable w : env.

(** The parts of a summary. *)
Lemma build_summary_parts (o : set_order) (clean_data : frame) (numeric_cols : pyset)
  (sm : summary) :
  build_summary o clean_data numeric_cols = Returned sm ->
  exists targets cells,
    channel_totals_loop clean_data (iter o numeric_cols) []
    = Returned (channel_breakdown sm) /\
    getcol clean_data "Target" = Returned (ColObj targets) /\
    numeric_cells clean_data (iter o numeric_cols) = Returned cells /\
    target_totals_loop targets cells 0 [] = Returned (target_breakdown sm) /\
    total_traffic sm = sumZ (map snd (channel_breakdown sm)) /\
    max_key (channel_breakdown sm) = Returned (top_channel sm) /\
    top_target sm = match target_breakdown sm with
                    | [] => None
                    | (k, v) :: t => Some (max_from k v t)
                    end.
Proof.
  unfold build_summary, obind. intros H.
  destruct (channel_totals_loop clean_data (iter o numeric_cols) []) as [tot|] eqn:Et;
    [|discriminate].
  destruct (getcol clean_data "Target") as [[?|?|targets]|] eqn:Eg; simpl in H;
    try discriminate.
  destruct (numeric_cells clean_data (iter o numeric_cols)) as [cells|] eqn:Ec;
    [|discriminate].
  destruct (target_totals_loop targets cells 0 []) as [tt|] eqn:Ett; [|discriminate].
  destruct (max_key tot) as [top|] eqn:Em; [|discriminate].
  exists targets, cells.
  destruct tt as [|[k v] t]; simpl in H; inversion H; subst; simpl; auto 10.
Qed.

(** Two successful channel runs that differ in the iteration order. *)
Lemma channel_runs_agree (o1 o2 : set_order) (input_file output_dir : string)
  (config : option dict) (disk d1 d2 : fs frame) (r1 r2 : result summary) :
  run_analysis w o1 input_file output_dir config disk = (Returned r1, d1) ->
  run_analysis w o2 input_file output_dir config disk = (Returned r2, d2) ->
  success r1 = true -> success r2 = true ->
  exists sm1 sm2 csv1 csv2,
    Pandas.summary r1 = Some sm1 /\ Pandas.summary r2 = Some sm2 /\
    dict_get d1 (path_join output_dir "channel_analysis.csv") = Some (CsvFile csv1) /\
    dict_get d2 (path_join output_dir "channel_analysis.csv") = Some (CsvFile csv2) /\
    Permutation csv1 csv2 /\
    (forall k, getcol csv1 k = getcol csv2 k) /\
    total_traffic sm1 = total_traffic sm2 /\
    Permutation (channel_breakdown sm1) (channel_breakdown sm2) /\
    (forall k, dict_get (channel_breakdown sm1) k = dict_get (channel_breakdown sm2) k) /\
    target_breakdown sm1 = target_breakdown sm2 /\
    top_target sm1 = top_target sm2.
Proof.
  intros H1 H2 Hs1 Hs2.
  destruct (run_success _ _ _ _ _ _ _ _ H1 Hs1)
    as (req & num & df & c1 & sm1 & Er & En & Ed & Hv1 & Hc1 & Hb1 & Hsm1 & _ & Hcsv1).
  destruct (run_success _ _ _ _ _ _ _ _ H2 Hs2)
    as (req' & num' & df' & c2 & sm2 & Er' & En' & Ed' & Hv2 & Hc2 & Hb2 & Hsm2 & _ & Hcsv2).
  assert (req' = req) by congruence. assert (num' = num) by congruence.
  assert (df' = df) by congruence. subst req' num' df'.
  exists sm1, sm2, c1, c2.
  destruct (clean_df_columns _ _ _ _ _ _ _ Hv1 Hc1) as (ts & Hdf & _ & _ & E1).
  destruct (clean_df_columns _ _ _ _ _ _ _ Hv2 Hc2) as (ts' & Hdf' & _ & _ & E2).
  assert (ts' = ts) by congruence. subst ts'.
  assert (Hperm : Permutation c1 c2).
  { rewrite E1, E2. apply Permutation_map. apply iter_Permutation. }
  assert (Hget : forall k, getcol c1 k = getcol c2 k).
  { intros k. unfold getcol. rewrite E1, E2, !dict_get_named, !mem_iter. reflexivity. }
  destruct (build_summary_parts _ _ _ _ Hb1)
    as (t1 & cells1 & Ht1 & Hg1 & Hn1 & Htt1 & Htr1 & _ & Htop1).
  destruct (build_summary_parts _ _ _ _ Hb2)
    as (t2 & cells2 & Ht2 & Hg2 & Hn2 & Htt2 & Htr2 & _ & Htop2).
  assert (Hlook : forall k, dict_get (channel_breakdown sm1) k
                            = dict_get (channel_breakdown sm2) k).
  { intros k.
    destruct (channel_totals_loop_spec _ _ _ _ Ht1) as [Ha1 _].
    destruct (channel_totals_loop_spec _ _ _ _ Ht2) as [Ha2 _].
    destruct (in_dec string_dec k num) as [Hin|Hout].
    - destruct (Ha1 k) as (xs & Hx & ->); [now apply iter_In|].
      destruct (Ha2 k) as (ys & Hy & ->); [now apply iter_In|].
      rewrite Hget in Hx. congruence.
    - rewrite (channel_totals_loop_get _ _ _ _ k Ht1) by (now rewrite iter_In).
      rewrite (channel_totals_loop_get _ _ _ _ k Ht2) by (now rewrite iter_In).
      reflexivity. }
  assert (Hbreak : Permutation (channel_breakdown sm1) (channel_breakdown sm2)).
  { apply lookup_Permutation; auto.
    - eapply channel_totals_loop_NoDup; [|exact Ht1]. constructor.
    - eapply channel_totals_loop_NoDup; [|exact Ht2]. constructor. }
  assert (Htargets : t2 = t1) by (rewrite Hget in Hg1; congruence). subst t2.
  assert (Hrows : forall j, row_sum cells1 j = row_sum cells2 j).
  { intros j. unfold row_sum. apply sumZ_Permutation. apply Permutation_map.
    rewrite (numeric_cells_spec _ _ _ Hn1), (numeric_cells_spec _ _ _ Hn2).
    eapply Permutation_trans.
    - apply Permutation_map. apply (iter_Permutation o1 o2).
    - apply Permutation_refl'. apply map_ext. intros c.
      pose proof (Hget c) as Hc. unfold getcol in Hc.
      destruct (dict_get c1 c), (dict_get c2 c); inversion Hc; auto. }
  assert (Htb : target_breakdown sm1 = target_breakdown sm2).
  { rewrite (target_totals_loop_ext _ _ _ _ _ Hrows) in Htt1. congruence. }
  repeat split; auto.
  - rewrite Htr1, Htr2. apply sumZ_Permutation. now apply Permutation_map.
  - rewrite Htop1, Htop2, Htb. reflexivity.
Qed.

End Order.

End ChannelOrder.

Module RunClaims.
Import Py Pandas PyFacts PandasFacts.

Ltac inner_goal_case :=
  match goal with
  | |- context [match ?x with _ => _ end] =>
      lazymatch x with
      | context [match _ with _ => _ end] => fail
      | _ => destruct x eqn:?; simpl
      end
  end.

(** A validated time-series table is validated under every iteration
    order. *)
Lemma helium_validate_order (o1 o2 : set_order) (df : frame) (errs : list string) :
  Helium.validate_df_structure o1 df = Returned (true, errs) ->
  Helium.validate_df_structure o2 df = Returned (true, errs).
Proof.
  unfold Helium.validate_df_structure.
  set (e3 := if (List.length (filter Helium.is_date_label (columns df)) <? 3)%nat
             then _ else _).
  destruct e3; [|discriminate].
  unfold obind. destruct (getcol df "Metric") as [[?|?|cells]|]; auto.
  destruct (negb _); auto.
  repeat inner_goal_case; auto; try discriminate.
  all: intros H; inversion H.
Qed.

(** A successful time-series run does not depend on the iteration order. *)
Lemma helium_run_order (w : Helium.env) (o1 o2 : set_order)
  (input_file output_dir : string) (config : option dict)
  (disk disk' : fs Helium.monthly) (r : result Helium.summary) :
  Helium.run_analysis w o1 input_file output_dir config disk = (Returned r, disk') ->
  success r = true ->
  Helium.run_analysis w o2 input_file output_dir config disk = (Returned r, disk').
Proof.
  intros Hrun Hs. rewrite <- Hrun. revert Hrun.
  unfold Helium.run_analysis, try_except, Helium.analysis_body, bind, lift.
  destruct (Helium.read_csv w input_file) as [df|]; simpl; auto.
  destruct (Helium.validate_df_structure o1 df) as [[ok errs]|] eqn:Ev; simpl.
  - destruct ok; simpl.
    + now rewrite (helium_validate_order o1 o2 df errs Ev).
    + intros H. inversion H; subst. discriminate.
  - intros H. inversion H; subst. discriminate.
Qed.

(** C8 (amended): a successful run of the keyword pipeline, and of the
    time-series pipeline, is the same under every iteration order of the
    column sets: same result, same files.  Two successful runs of the
    channel pipeline under two iteration orders give the same
    [total_traffic], the same total for every channel, the same
    [target_breakdown] and [top_target], and processed tables with the
    same named columns holding the same cells; the order of the columns
    in the processed CSV and of the entries of [channel_breakdown] is the
    iteration order of the run. *)
Theorem runs_agree_up_to_set_order (o1 o2 : set_order) :
  (forall w input_file output_dir config disk disk' r,
     Keywords.run_analysis w o1 input_file output_dir config disk = (Returned r, disk') ->
     success r = true ->
     Keywords.run_analysis w o2 input_file output_dir config disk = (Returned r, disk')) /\
  (forall w input_file output_dir config disk disk' r,
     Helium.run_analysis w o1 input_file output_dir config disk = (Returned r, disk') ->
     success r = true ->
     Helium.run_analysis w o2 input_file output_dir config disk = (Returned r, disk')) /\
  (forall w input_file output_dir config disk d1 d2 r1 r2,
     Channels.run_analysis w o1 input_file output_dir config disk = (Returned r1, d1) ->
     Channels.run_analysis w o2 input_file output_dir config disk = (Returned r2, d2) ->
     success r1 = true -> success r2 = true ->
     exists sm1 sm2 csv1 csv2,
       Pandas.summary r1 = Some sm1 /\ Pandas.summary r2 = Some sm2 /\
       dict_get d1 (path_join output_dir "channel_analysis.csv") = Some (CsvFile csv1) /\
       dict_get d2 (path_join output_dir "channel_analysis.csv") = Some (CsvFile csv2) /\
       Permutation csv1 csv2 /\
       (forall k, getcol csv1 k = getcol csv2 k) /\
       Channels.total_traffic sm1 = Channels.total_traffic sm2 /\
       Permutation (Channels.channel_breakdown sm1) (Channels.channel_breakdown sm2) /\
       (forall k, dict_get (Channels.channel_breakdown sm1) k
                  = dict_get (Channels.channel_breakdown sm2) k) /\
       Channels.target_breakdown sm1 = Channels.target_breakdown sm2 /\
       Channels.top_target sm1 = Channels.top_target sm2).
Proof.
  split; [|split].
  - intros. eapply SetOrderFacts.keyword_run_order; eauto.
  - intros. eapply helium_run_order; eauto.
  - intros. eapply ChannelOrder.channel_runs_agree; eauto.
Qed.

(** The check of [runs_agree_up_to_set_order] on the sample channel runs
    under the two sample orders. *)
Lemma runs_agree_up_to_set_order_witness :
  Channels.run_analysis (Samples.channel_env Samples.channel_frame) forward_order
                        "channels.csv" "out" None []
  = (Returned Samples.channel_result, snd Samples.channel_run) /\
  Channels.run_analysis (Samples.channel_env Samples.channel_frame) backward_order
                        "channels.csv" "out" None []
  = (Returned Samples.channel_result_backward, snd Samples.channel_run_backward) /\
  success Samples.channel_result = true /\
  success Samples.channel_result_backward = true /\
  exists sm1 sm2 csv1 csv2,
    Pandas.summary Samples.channel_result = Some sm1 /\
    Pandas.summary Samples.channel_result_backward = Some sm2 /\
    dict_get (snd Samples.channel_run) (path_join "out" "channel_analysis.csv")
    = Some (CsvFile csv1) /\
    dict_get (snd Samples.channel_run_backward) (path_join "out" "channel_analysis.csv")
    = Some (CsvFile csv2) /\
    Permutation csv1 csv2 /\
    (forall k, getcol csv1 k = getcol csv2 k) /\
    Channels.total_traffic sm1 = Channels.total_traffic sm2 /\
    Permutation (Channels.channel_breakdown sm1) (Channels.channel_breakdown sm2) /\
    (forall k, dict_get (Channels.channel_breakdown sm1) k
               = dict_get (Channels.channel_breakdown sm2) k) /\
    Channels.target_breakdown sm1 = Channels.target_breakdown sm2 /\
    Channels.top_target sm1 = Channels.top_target sm2.
Proof.
  split; [reflexivity|]. split; [reflexivity|].
  split; [reflexivity|]. split; [reflexivity|].
  apply (proj2 (proj2 (runs_agree_up_to_set_order forward_order backward_order))
           (Samples.channel_env Samples.channel_frame) "channels.csv" "out" None []
           (snd Samples.channel_run) (snd Samples.channel_run_backward)
           Samples.channel_result Samples.channel_result_backward);
    reflexivity.
Defined.

(** C8 as stated fails: the same channel export, configuration and empty
    output directory, run under two iteration orders of the column sets,
    give processed CSVs that differ (in the order of their columns) and
    summaries that differ (in [top_channel], seven channels sharing the
    largest total). *)
Lemma channel_run_depends_on_set_order :
  exists r1 d1 r2 d2 csv1 csv2 sm1 sm2,
    Channels.run_analysis (Samples.channel_env Samples.negative_frame) forward_order
                          "channels.csv" "out" None [] = (Returned r1, d1) /\
    Channels.run_analysis (Samples.channel_env Samples.negative_frame) backward_order
                          "channels.csv" "out" None [] = (Returned r2, d2) /\
    success r1 = true /\ success r2 = true /\
    dict_get d1 (path_join "out" "channel_analysis.csv") = Some (CsvFile csv1) /\
    dict_get d2 (path_join "out" "channel_analysis.csv") = Some (CsvFile csv2) /\
    csv1 <> csv2 /\
    Pandas.summary r1 = Some sm1 /\ Pandas.summary r2 = Some sm2 /\
    Channels.top_channel sm1 = "Referral"%string /\
    Channels.top_channel sm2 = "Display Ads"%string /\
    sm1 <> sm2.
Proof.
  do 8 eexists.
  split; [vm_compute; reflexivity|]. split; [vm_compute; reflexivity|].
  split; [reflexivity|]. split; [reflexivity|].
  split; [reflexivity|]. split; [reflexivity|].
  split; [discriminate|].
  split; [reflexivity|]. split; [reflexivity|].
  split; [reflexivity|]. split; [reflexivity|]. discriminate.
Qed.

(** C1 fails on the code: the channel and the keyword entry points turn
    the column lists of [config] into sets before their [try] block, so a
    value that cannot be iterated makes [run_analysis] raise [TypeError]
    to its caller instead of returning a result. *)
Theorem run_analysis_raises_before_try (cw : Channels.env) (kw : Keywords.env)
  (o : set_order) (input_file output_dir : string)
  (cdisk : fs frame) (kdisk : fs (list Keywords.row)) :
  Channels.run_analysis cw o input_file output_dir
    (Some [("required_columns"%string, CfgInt 5)]) cdisk
  = (Raised (Exn TypeError "'int' object is not iterable"), cdisk) /\
  Channels.run_analysis cw o input_file output_dir
    (Some [("numeric_columns"%string, CfgNone)]) cdisk
  = (Raised (Exn TypeError "'NoneType' object is not iterable"), cdisk) /\
  Keywords.run_analysis kw o input_file output_dir
    (Some [("required_columns"%string, CfgInt 5)]) kdisk
  = (Raised (Exn TypeError "'int' object is not iterable"), kdisk) /\
  Keywords.run_analysis kw o input_file output_dir
    (Some [("valid_intents"%string, CfgNone)]) kdisk
  = (Raised (Exn TypeError "'NoneType' object is not iterable"), kdisk).
Proof. repeat split. Qed.

(** Once the column lists of [config] are iterable, the channel and the
    keyword entry points return. *)
Lemma channel_run_returns (w : Channels.env) (o : set_order)
  (input_file output_dir : string) (config : option dict) (disk : fs frame)
  (required_cols numeric_cols : pyset) :
  Channels.required_columns config = Returned required_cols ->
  Channels.numeric_columns config = Returned numeric_cols ->
  exists r disk',
    Channels.run_analysis w o input_file output_dir config disk = (Returned r, disk').
Proof.
  intros H1 H2. unfold Channels.run_analysis. rewrite H1, H2. eauto.
Qed.

Lemma keyword_run_returns (w : Keywords.env) (o : set_order)
  (input_file output_dir : string) (config : option dict) (disk : fs (list Keywords.row))
  (required_cols valid_intents : pyset) :
  Keywords.required_columns config = Returned required_cols ->
  Keywords.valid_intents_of config = Returned valid_intents ->
  exists r disk',
    Keywords.run_analysis w o input_file output_dir config disk = (Returned r, disk').
Proof.
  intros H1 H2. unfold Keywords.run_analysis. rewrite H1, H2. eauto.
Qed.

End RunClaims.

(** ** The channel cleaner returns *)

Module ChannelsReturns.
Import Py Pandas PyFacts PandasFacts Channels ChannelsFacts.

Section Returns.

Variable w : env.
Variable o : set_order.

Lemma clean_numeric_cols_total (f : string -> column) (names cols : list string) :
  NoDup names -> (forall c, In c cols -> In c names) ->
  exists r, clean_numeric_cols w (map (fun n => (n, f n)) names) cols = Returned r.
Proof.
  intros Hnd. revert f. induction cols as [|col rest IH]; simpl; intros f Hsub; eauto.
  rewrite getcol_named by auto. simpl.
  rewrite setcol_named by auto. apply IH. auto.
Qed.

Lemma cast_columns_total (f : string -> column) (names : list string)
  (dtypes : list (string * dtype)) :
  (forall n, In n names ->
     match dict_get dtypes n with
     | Some d => exists c, cast w d (f n) = Returned c
     | None => True
     end) ->
  exists r, cast_columns w (map (fun n => (n, f n)) names) dtypes = Returned r.
Proof.
  induction names as [|n t IH]; simpl; intros H; eauto.
  destruct IH as (r & Er); [intros; apply H; auto|].
  pose proof (H n (or_introl eq_refl)) as Hn.
  destruct (dict_get dtypes n).
  - destruct Hn as (c & ->). simpl. rewrite Er. simpl. eauto.
  - simpl. rewrite Er. simpl. eauto.
Qed.

Lemma forallb_mask_filter {A} (p : A -> bool) (m : list bool) (l : list A) :
  forallb p l = true -> forallb p (mask_filter m l) = true.
Proof.
  intros H. apply forallb_forall. intros x Hx.
  apply mask_filter_In in Hx. rewrite forallb_forall in H. auto.
Qed.

(** The cast of a cleaned numeric column to [int64] goes through when the
    input holds no infinity. *)
Lemma cast_int64_total (keep : list bool) (c : column) :
  is_numeric_dtype c = true ->
  (forall xs, c = ColFloat xs -> forallb (fun f => is_finite f || is_nan f) xs = true) ->
  exists c', cast w DInt64 (col_filter keep (fillna0 (to_numeric w c))) = Returned c'.
Proof.
  destruct c as [xs|xs|xs]; simpl; intros Hn Hfin; try discriminate; eauto.
  assert (H : forallb is_finite
                (mask_filter keep (map (fun f => if is_nan f then 0%float else f) xs)) = true).
  { apply forallb_mask_filter. apply forallb_forall. intros x Hx.
    apply in_map_iff in Hx. destruct Hx as (f & <- & Hf).
    specialize (Hfin xs eq_refl). rewrite forallb_forall in Hfin.
    specialize (Hfin f Hf). destruct (is_nan f); [reflexivity|].
    now rewrite orb_false_r in Hfin. }
  rewrite H. eauto.
Qed.

(** On a validated table with a text [Target] column among the required
    columns and no infinite count, [clean_df] returns a table. *)
Lemma clean_df_returns (df : frame) (required_cols numeric_cols : pyset)
  (errs : list string) (ts : list (option string)) :
  validate_df_structure o df required_cols numeric_cols = Returned (true, errs) ->
  In "Target"%string required_cols ->
  dict_get df "Target" = Some (ColObj ts) ->
  (forall col xs, In col numeric_cols -> dict_get df col = Some (ColFloat xs) ->
                  forallb (fun f => is_finite f || is_nan f) xs = true) ->
  exists cleaned, clean_df w o df required_cols numeric_cols = Returned (Some cleaned).
Proof.
  intros Hv HT Hdf Hfin.
  destruct (validate_true o _ _ _ _ Hv) as (_ & Hreq & Hsub & Hnum).
  assert (Hnot : ~ In "Target"%string numeric_cols).
  { intros Hin. destruct (Hnum _ Hin) as (c & Hc1 & Hc2).
    rewrite Hdf in Hc1. inversion Hc1; subst. discriminate. }
  pose proof (iter_NoDup o required_cols) as Hnd.
  assert (HTn : In "Target"%string (iter o required_cols)) by now apply iter_In.
  destruct (select_total df (iter o required_cols)) as (sel & Es).
  { intros n Hn. apply Hreq. now apply iter_In in Hn. }
  unfold clean_df. rewrite Es. simpl.
  apply select_named in Es. destruct Es as [-> _].
  rewrite getcol_named by auto. rewrite Hdf. simpl.
  rewrite setcol_named by auto.
  match goal with
  | |- context [clean_numeric_cols w (map ?F ?names) ?cols] =>
      pose (g1 := fun n : string => snd (F n));
      change (map F names) with (map (fun n => (n, g1 n)) names);
      assert (Eg1 : forall n, g1 n = snd (F n)) by reflexivity;
      clearbody g1
  end.
  simpl in Eg1.
  assert (Hcols : forall c, In c (iter o numeric_cols) -> In c (iter o required_cols)).
  { intros c Hc. apply iter_In. apply Hsub. now apply iter_In in Hc. }
  destruct (clean_numeric_cols_total g1 _ _ Hnd Hcols) as (F2 & E2).
  rewrite E2. simpl.
  apply clean_numeric_cols_named in E2; auto; [|apply iter_NoDup]. subst F2.
  match goal with
  | |- context [getcol (map ?F ?names) "Target"] =>
      pose (g2 := fun n : string => snd (F n));
      change (map F names) with (map (fun n => (n, g2 n)) names);
      assert (Eg2 : forall n, g2 n = snd (F n)) by reflexivity;
      clearbody g2
  end.
  simpl in Eg2.
  rewrite getcol_named by auto. simpl.
  rewrite frame_filter_named.
  rewrite getcol_named by auto. simpl.
  rewrite frame_filter_named.
  rewrite getcol_named by auto. simpl.
  rewrite frame_filter_named.
  unfold astype. rewrite columns_named.
  match goal with
  | |- context [forallb ?p (dtype_dict o numeric_cols)] =>
      assert (Hkeys : forallb p (dtype_dict o numeric_cols) = true)
  end.
  { apply forallb_forall. intros [k d] Hk. simpl. apply mem_In.
    assert (Hk' : In k (map fst (dtype_dict o numeric_cols))).
    { change k with (fst (k, d)). now apply in_map. }
    apply dtype_dict_keys in Hk'. destruct Hk' as [Hk'|Hk']; auto.
    simpl in Hk'. destruct Hk' as [<-|[]]. exact HTn. }
  rewrite Hkeys.
  match goal with
  | |- context [cast_columns w (map ?F ?names) ?dt] =>
      destruct (cast_columns_total (fun n => snd (F n)) names dt) as (final & Ef)
  end.
  - intros n Hn. simpl. unfold dtype_dict. rewrite dtype_dict_get, mem_iter. simpl.
    destruct (mem n numeric_cols) eqn:Em.
    + apply mem_In in Em. destruct (Hnum _ Em) as (c & Hc & Hdt).
      assert (n <> "Target"%string) by (intros ->; contradiction).
      assert (Hg : g2 n = fillna0 (to_numeric w c)).
      { rewrite Eg2, mem_iter. apply mem_In in Em. rewrite Em.
        rewrite Eg1. apply String.eqb_neq in H. now rewrite H, Hc. }
      rewrite Hg. rewrite !col_filter_then. apply cast_int64_total; auto.
      intros xs ->. eapply Hfin; eauto.
    + destruct (String.eqb n "Target") eqn:En; [|exact I].
      apply String.eqb_eq in En. subst n.
      assert (Hg : g2 "Target"%string = ColObj (clean_targets ts)).
      { rewrite Eg2, mem_iter, Em, Eg1. reflexivity. }
      rewrite Hg. simpl. eauto.
  - simpl in Ef. rewrite Ef. simpl. eauto.
Qed.

End Returns.

End ChannelsReturns.

(** * Further properties of the pipelines *)

Module ChannelsValidation.
Import Py Pandas PyFacts PandasFacts Channels ChannelsFacts.

Lemma set_diff_nil (a b : pyset) :
  (forall c, In c a -> In c b) -> set_diff a b = [].
Proof.
  intros H. destruct (set_diff a b) as [|x t] eqn:E; auto.
  assert (Hx : In x (set_diff a b)) by (rewrite E; now left).
  apply set_diff_In in Hx. destruct Hx as [Hx Hn]. exfalso. auto.
Qed.

Lemma check_numeric_spec (df : frame) (cols errs : list string) :
  (forall c, In c cols -> In c (columns df)) ->
  check_numeric df cols errs
  = Returned (errs ++ map (fun c => (c ++ " column must contain only numbers.")%string)
                          (filter (fun c => match dict_get df c with
                                            | Some col => negb (is_numeric_dtype col)
                                            | None => false
                                            end) cols)).
Proof.
  revert errs. induction cols as [|col rest IH]; intros errs Hin; simpl.
  - now rewrite app_nil_r.
  - unfold getcol. destruct (dict_get df col) as [c|] eqn:E; simpl.
    + destruct (is_numeric_dtype c); simpl.
      * apply IH. intros; apply Hin; now right.
      * rewrite IH by (intros; apply Hin; now right). now rewrite <- app_assoc.
    + apply dict_get_None in E. exfalso. apply E. apply Hin. now left.
Qed.

(** X1: on a table that holds every required column, with the numeric
    columns among the required ones, the validator answers with one
    message per numeric column whose dtype is not numeric, in the order
    the set of numeric columns is iterated, and accepts the table exactly
    when there is no such column. *)
Theorem numeric_errors_listed (o : set_order) (df : frame)
  (required_cols numeric_cols : pyset) :
  (forall c, In c required_cols -> In c (columns df)) ->
  (forall c, In c numeric_cols -> In c required_cols) ->
  let bad := filter (fun c => match dict_get df c with
                              | Some col => negb (is_numeric_dtype col)
                              | None => false
                              end) (iter o numeric_cols) in
  validate_df_structure o df required_cols numeric_cols
  = Returned (match bad with [] => true | _ => false end,
              map (fun c => (c ++ " column must contain only numbers.")%string) bad).
Proof.
  intros Hreq Hnum bad. unfold validate_df_structure, validate_columns.
  rewrite (set_diff_nil _ _ Hreq). simpl.
  pose proof Hnum as Hsub. apply issubset_spec in Hsub. rewrite Hsub. simpl.
  rewrite check_numeric_spec.
  - simpl. fold bad. destruct bad; reflexivity.
  - intros c Hc. apply Hreq, Hnum. now apply iter_In in Hc.
Qed.

(** The check of [numeric_errors_listed] on an export with two text
    columns among the channels. *)
Lemma numeric_errors_listed_witness :
  (forall c, In c default_required -> In c (columns Cases.text_counts_frame)) /\
  (forall c, In c default_numeric -> In c default_required) /\
  validate_df_structure forward_order Cases.text_counts_frame default_required default_numeric
  = Returned (false, ["Direct column must contain only numbers.";
                      "Email column must contain only numbers."]).
Proof.
  assert (H1 : forall c, In c default_required -> In c (columns Cases.text_counts_frame)).
  { intros c H. simpl in *. tauto. }
  assert (H2 : forall c, In c default_numeric -> In c default_required).
  { intros c H. simpl in *. tauto. }
  split; [exact H1|]. split; [exact H2|].
  exact (numeric_errors_listed forward_order Cases.text_counts_frame
           default_required default_numeric H1 H2).
Defined.

(** X2: when [config] counts a column that it does not require, on a
    table that holds every required column, the run stops at validation:
    it returns [success = false] with the one error "Numeric columns not
    in required columns.", no artifact, and the disk as it was. *)
Theorem numeric_outside_required_reported (w : env) (o : set_order)
  (input_file output_dir : string) (config : option dict) (disk : fs frame)
  (df : frame) (required_cols numeric_cols : pyset) :
  required_columns config = Returned required_cols ->
  numeric_columns config = Returned numeric_cols ->
  read_csv w input_file = Returned df ->
  (forall c, In c required_cols -> In c (columns df)) ->
  (exists c, In c numeric_cols /\ ~ In c required_cols) ->
  run_analysis w o input_file output_dir config disk
  = (Returned (Result false ["Numeric columns not in required columns."] [] None), disk).
Proof.
  intros Hr Hn Hd Hreq (c & Hc & Hnc).
  unfold run_analysis. rewrite Hr, Hn.
  unfold try_except, analysis_body, bind, lift. rewrite Hd. simpl.
  unfold validate_df_structure, validate_columns.
  rewrite (set_diff_nil _ _ Hreq). simpl.
  destruct (issubset numeric_cols required_cols) eqn:E.
  - exfalso. apply Hnc. exact (proj1 (issubset_spec _ _) E c Hc).
  - reflexivity.
Qed.

(** The check of [numeric_outside_required_reported] on the sample export,
    with a configuration that counts a column [Clicks]. *)
Lemma numeric_outside_required_reported_witness :
  required_columns (Some Cases.clicks_config) = Returned default_required /\
  numeric_columns (Some Cases.clicks_config) = Returned ["Direct"; "Clicks"] /\
  read_csv (Samples.channel_env Samples.channel_frame) "channels.csv"
  = Returned Samples.channel_frame /\
  (forall c, In c default_required -> In c (columns Samples.channel_frame)) /\
  (exists c, In c ["Direct"; "Clicks"] /\ ~ In c default_required) /\
  run_analysis (Samples.channel_env Samples.channel_frame) forward_order
               "channels.csv" "out" (Some Cases.clicks_config) []
  = (Returned (Result false ["Numeric columns not in required columns."] [] None), []).
Proof.
  assert (H1 : forall c, In c default_required -> In c (columns Samples.channel_frame)).
  { intros c H. simpl in *. tauto. }
  assert (H2 : exists c, In c ["Direct"; "Clicks"] /\ ~ In c default_required).
  { exists "Clicks". split; [simpl; tauto|].
    simpl. intros H. repeat (destruct H as [H|H]; [discriminate|]). exact H. }
  split; [reflexivity|]. split; [reflexivity|]. split; [reflexivity|].
  split; [exact H1|]. split; [exact H2|].
  exact (numeric_outside_required_reported (Samples.channel_env Samples.channel_frame)
           forward_order "channels.csv" "out" (Some Cases.clicks_config) []
           Samples.channel_frame default_required ["Direct"; "Clicks"]
           eq_refl eq_refl eq_refl H1 H2).
Defined.

End ChannelsValidation.

Module ChannelsEffects.
Import Py Pandas PyFacts PandasFacts Channels ChannelsFacts ChannelsRun.

Lemma append_inj_l (s a b : string) : (s ++ a)%string = (s ++ b)%string -> a = b.
Proof. induction s as [|c s IH]; simpl; intros H; [exact H|]. inversion H. auto. Qed.

Lemma length_append (s t : string) :
  String.length (s ++ t) = (String.length s + String.length t)%nat.
Proof. induction s as [|c s IH]; simpl; auto. Qed.

(** Two files of one directory have two paths. *)
Lemma path_join_inj (dir f1 f2 : string) :
  path_join dir f1 = path_join dir f2 -> f1 = f2.
Proof.
  unfold path_join. destruct (rev (chars dir)) as [|c t]; auto.
  destruct (Ascii.eqb c "/"); intros H; apply append_inj_l in H; auto.
  now inversion H.
Qed.

(** A file of a directory is not the directory. *)
Lemma path_join_not_dir (dir f : string) : f <> ""%string -> path_join dir f <> dir.
Proof.
  unfold path_join. intros Hf.
  destruct (rev (chars dir)) as [|c t] eqn:E.
  - destruct dir as [|a d]; [exact Hf|].
    unfold chars in E. simpl in E. destruct (rev (list_ascii_of_string d)); discriminate.
  - assert (Hlen : 0 < String.length f).
    { destruct f; [contradiction|simpl; lia]. }
    destruct (Ascii.eqb c "/"); intros H; apply (f_equal String.length) in H;
      rewrite !length_append in H; simpl in H; lia.
Qed.


Lemma path_eqb_false (dir f1 f2 : string) :
  f1 <> f2 -> String.eqb (path_join dir f1) (path_join dir f2) = false.
Proof. intros H. apply String.eqb_neq. intros E. now apply path_join_inj in E. Qed.

Lemma dir_eqb_false (dir f : string) :
  f <> ""%string -> String.eqb dir (path_join dir f) = false.
Proof.
  intros H. apply String.eqb_neq. intros E. symmetry in E. revert E.
  now apply path_join_not_dir.
Qed.

Ltac lookup :=
  repeat (rewrite dict_get_set;
          first [ rewrite String.eqb_refl
                | rewrite path_eqb_false by discriminate
                | rewrite dir_eqb_false by discriminate ]).

Section Effects.

Variable w : env.
Variable o : set_order.

(** The result and the disk of a successful run. *)
Lemma run_success_state (input_file output_dir : string) (config : option dict)
  (disk disk' : fs frame) (r : result summary) :
  run_analysis w o input_file output_dir config disk = (Returned r, disk') ->
  success r = true ->
  exists clean_data sm d0,
    r = Result true []
          [Artifact "traffic_by_channel.png" "chart"
                    (path_join output_dir "traffic_by_channel.png");
           Artifact "channel_mix_by_target.png" "chart"
                    (path_join output_dir "channel_mix_by_target.png");
           Artifact "channel_comparison.png" "chart"
                    (path_join output_dir "channel_comparison.png");
           Artifact "channel_analysis.csv" "csv"
                    (path_join output_dir "channel_analysis.csv")]
          (Some sm) /\
    (d0 = disk \/ d0 = dict_set disk output_dir Dir) /\
    dict_get d0 output_dir = Some Dir /\
    disk' = dict_set
              (dict_set
                 (dict_set
                    (dict_set d0 (path_join output_dir "traffic_by_channel.png") Png)
                    (path_join output_dir "channel_mix_by_target.png") Png)
                 (path_join output_dir "channel_comparison.png") Png)
              (path_join output_dir "channel_analysis.csv") (CsvFile clean_data).
Proof.
  unfold run_analysis. intros H Hs.
  destruct (required_columns config) as [required_cols|] eqn:Er; [|discriminate].
  destruct (numeric_columns config) as [numeric_cols|] eqn:En; [|discriminate].
  unfold try_except, analysis_body, bind, lift in H.
  destruct (read_csv w input_file) as [df|] eqn:Ed; simpl in H;
    [|inversion H; subst; discriminate].
  destruct (validate_df_structure o df required_cols numeric_cols) as [[ok errs]|] eqn:Ev;
    simpl in H; [|inversion H; subst; discriminate].
  destruct ok; simpl in H; [|inversion H; subst; discriminate].
  destruct (validate_true o _ _ _ _ Ev) as (-> & _).
  destruct (clean_df w o df required_cols numeric_cols) as [[clean_data|]|] eqn:Ec;
    simpl in H; try (inversion H; subst; discriminate).
  exists clean_data.
  unfold makedirs, save_chart, save_csv, check, bind, get, modify, ret, raise, lift in H.
  simpl in H.
  repeat (inner_case H; try (inversion H; subst; discriminate)).
  all: inversion H; subst; simpl in *.
  - eexists. exists disk. repeat split; auto.
  - eexists. exists (dict_set disk output_dir Dir). repeat split; auto.
    apply dict_get_set_same.
Qed.

(** X3: a successful channel run records exactly four artifacts, the
    three charts and the processed CSV in this order, each under the
    output directory; afterwards the output directory exists, each chart
    path holds an image and the CSV path holds a table; the result has a
    summary and no error. *)
Theorem success_leaves_four_artifacts (input_file output_dir : string)
  (config : option dict) (disk disk' : fs frame) (r : result summary) :
  run_analysis w o input_file output_dir config disk = (Returned r, disk') ->
  success r = true ->
  artifacts r
  = [Artifact "traffic_by_channel.png" "chart"
              (path_join output_dir "traffic_by_channel.png");
     Artifact "channel_mix_by_target.png" "chart"
              (path_join output_dir "channel_mix_by_target.png");
     Artifact "channel_comparison.png" "chart"
              (path_join output_dir "channel_comparison.png");
     Artifact "channel_analysis.csv" "csv"
              (path_join output_dir "channel_analysis.csv")] /\
  errors r = [] /\
  Pandas.summary r <> None /\
  dict_get disk' output_dir = Some Dir /\
  (forall a, In a (artifacts r) -> type a = "chart"%string ->
             dict_get disk' (path a) = Some Png) /\
  (exists table,
     dict_get disk' (path_join output_dir "channel_analysis.csv") = Some (CsvFile table)).
Proof.
  intros H Hs.
  destruct (run_success_state _ _ _ _ _ _ H Hs) as (cd & sm & d0 & -> & _ & Hdir & ->).
  simpl. split; [reflexivity|]. split; [reflexivity|]. split; [discriminate|].
  split; [|split].
  - lookup. exact Hdir.
  - intros a [<-|[<-|[<-|[<-|[]]]]] Ht; simpl in *; try discriminate;
      lookup; reflexivity.
  - exists cd. apply dict_get_set_same.
Qed.

Lemma channel_validation_failure_has_error (df : frame) (required_cols numeric_cols : pyset)
  (errs : list string) :
  validate_df_structure o df required_cols numeric_cols = Returned (false, errs) ->
  errs <> [].
Proof.
  unfold validate_df_structure.
  destruct (negb (validate_columns df required_cols _)); [intros [= <-]; discriminate|].
  destruct (negb (issubset numeric_cols required_cols)); [intros [= <-]; discriminate|].
  destruct (check_numeric df (iter o numeric_cols) []) as [[|e es]|]; simpl;
    intros H; inversion H. discriminate.
Qed.

(** A channel run that returns reports success exactly when it reports no
    error. *)
Lemma channel_success_iff_no_error (input_file output_dir : string)
  (config : option dict) (disk disk' : fs frame) (r : result summary) :
  run_analysis w o input_file output_dir config disk = (Returned r, disk') ->
  (success r = true <-> errors r = []).
Proof.
  unfold run_analysis. intros H.
  destruct (required_columns config) as [required_cols|] eqn:Er; [|discriminate].
  destruct (numeric_columns config) as [numeric_cols|] eqn:En; [|discriminate].
  unfold try_except, analysis_body, bind, lift in H.
  destruct (read_csv w input_file) as [df|] eqn:Ed; simpl in H;
    [|inversion H; subst; simpl; split; discriminate].
  destruct (validate_df_structure o df required_cols numeric_cols) as [[ok errs]|] eqn:Ev;
    simpl in H; [|inversion H; subst; simpl; split; discriminate].
  destruct ok; simpl in H.
  2:{ inversion H; subst; simpl. apply channel_validation_failure_has_error in Ev.
      split; [discriminate|contradiction]. }
  unfold makedirs, save_chart, save_csv, check, bind, get, modify, ret, raise, lift in H.
  simpl in H.
  repeat (inner_case H; try (inversion H; subst; simpl; split; discriminate)).
  all: inversion H; subst; simpl; split; reflexivity.
Qed.


(** When the CSV file cannot be read, the channel run returns the error
    in band and leaves the disk as it was. *)
Lemma channel_read_error (input_file output_dir : string)
  (config : option dict) (disk : fs frame) (required_cols numeric_cols : pyset) (e : exn) :
  required_columns config = Returned required_cols ->
  numeric_columns config = Returned numeric_cols ->
  read_csv w input_file = Raised e ->
  run_analysis w o input_file output_dir config disk
  = (Returned (Result false [("Analysis error: " ++ str_exn e)%string] [] None), disk).
Proof.
  intros Hr Hn Hd. unfold run_analysis. rewrite Hr, Hn.
  unfold try_except, analysis_body, bind, lift. rewrite Hd. reflexivity.
Qed.

End Effects.

(** The check of [success_leaves_four_artifacts] on the sample run. *)
Lemma success_leaves_four_artifacts_witness :
  run_analysis (Samples.channel_env Samples.channel_frame) forward_order
               "channels.csv" "out" None []
  = (Returned Samples.channel_result, snd Samples.channel_run) /\
  success Samples.channel_result = true /\
  artifacts Samples.channel_result
  = [Artifact "traffic_by_channel.png" "chart" "out/traffic_by_channel.png";
     Artifact "channel_mix_by_target.png" "chart" "out/channel_mix_by_target.png";
     Artifact "channel_comparison.png" "chart" "out/channel_comparison.png";
     Artifact "channel_analysis.csv" "csv" "out/channel_analysis.csv"] /\
  errors Samples.channel_result = [] /\
  Pandas.summary Samples.channel_result <> None /\
  dict_get (snd Samples.channel_run) "out" = Some Dir /\
  (forall a, In a (artifacts Samples.channel_result) -> type a = "chart"%string ->
             dict_get (snd Samples.channel_run) (path a) = Some Png) /\
  (exists table,
     dict_get (snd Samples.channel_run) (path_join "out" "channel_analysis.csv")
     = Some (CsvFile table)).
Proof.
  split; [reflexivity|]. split; [reflexivity|].
  exact (success_leaves_four_artifacts (Samples.channel_env Samples.channel_frame)
           forward_order "channels.csv" "out" None [] (snd Samples.channel_run)
           Samples.channel_result eq_refl eq_refl).
Defined.

End ChannelsEffects.

Module ChannelsEdges.
Import Py Pandas PyFacts PandasFacts Channels ChannelsFacts ChannelsRun.

Section Edges.

Variable w : env.
Variable o : set_order.

(** X4: when the required columns of [config] leave out [Target], a table
    that passes validation cannot be cleaned: the lookup of the [Target]
    column among the selected columns raises [KeyError], and the run
    returns [success = false] with the error "Analysis error: 'Target'",
    no artifact, and the disk as it was. *)
Theorem target_not_required_fails (input_file output_dir : string)
  (config : option dict) (disk : fs frame) (df : frame)
  (required_cols numeric_cols : pyset) :
  required_columns config = Returned required_cols ->
  numeric_columns config = Returned numeric_cols ->
  read_csv w input_file = Returned df ->
  validate_df_structure o df required_cols numeric_cols = Returned (true, []) ->
  ~ In "Target"%string required_cols ->
  clean_df w o df required_cols numeric_cols = Raised (Exn KeyError "'Target'") /\
  run_analysis w o input_file output_dir config disk
  = (Returned (Result false ["Analysis error: 'Target'"] [] None), disk).
Proof.
  intros Hr Hn Hd Hv HT.
  assert (Hc : clean_df w o df required_cols numeric_cols = Raised (Exn KeyError "'Target'")).
  { destruct (validate_true o _ _ _ _ Hv) as (_ & Hreq & _).
    destruct (select_total df (iter o required_cols)) as (sel & Es).
    { intros n Hin. apply Hreq. now apply iter_In in Hin. }
    unfold clean_df. rewrite Es. simpl.
    apply select_named in Es. destruct Es as [-> _].
    unfold getcol. rewrite dict_get_named.
    assert (Hm : mem "Target" (iter o required_cols) = false).
    { apply mem_false. intros Hin. apply HT. now apply iter_In in Hin. }
    rewrite Hm. reflexivity. }
  split; [exact Hc|].
  unfold run_analysis. rewrite Hr, Hn.
  unfold try_except, analysis_body, bind, lift. rewrite Hd. simpl.
  rewrite Hv. simpl. rewrite Hc. reflexivity.
Qed.

(** X5: a run whose set of numeric columns is empty never succeeds:
    whatever the table and the libraries do, no channel total exists of
    which [max] could pick the top channel. *)
Theorem no_numeric_columns_never_succeeds (input_file output_dir : string)
  (config : option dict) (disk disk' : fs frame) (r : result summary) :
  numeric_columns config = Returned [] ->
  run_analysis w o input_file output_dir config disk = (Returned r, disk') ->
  success r = false.
Proof.
  intros Hn H. destruct (success r) eqn:Hs; [|reflexivity]. exfalso.
  destruct (run_success w o _ _ _ _ _ _ H Hs)
    as (req & num & df & clean & sm & _ & Hn' & _ & _ & _ & Hb & _).
  rewrite Hn in Hn'. inversion Hn'; subst num.
  unfold build_summary in Hb. rewrite iter_nil in Hb. simpl in Hb.
  unfold obind in Hb.
  repeat (inner_case Hb; try discriminate).
Qed.

End Edges.

(** The check of [target_not_required_fails] on the sample export, with
    two channels required and [Target] left out. *)
Lemma target_not_required_fails_witness :
  required_columns (Some Cases.no_target_config) = Returned ["Direct"; "Referral"] /\
  numeric_columns (Some Cases.no_target_config) = Returned ["Direct"; "Referral"] /\
  read_csv (Samples.channel_env Samples.channel_frame) "channels.csv"
  = Returned Samples.channel_frame /\
  validate_df_structure forward_order Samples.channel_frame
                        ["Direct"; "Referral"] ["Direct"; "Referral"]
  = Returned (true, []) /\
  ~ In "Target"%string ["Direct"; "Referral"] /\
  clean_df (Samples.channel_env Samples.channel_frame) forward_order Samples.channel_frame
           ["Direct"; "Referral"] ["Direct"; "Referral"]
  = Raised (Exn KeyError "'Target'") /\
  run_analysis (Samples.channel_env Samples.channel_frame) forward_order
               "channels.csv" "out" (Some Cases.no_target_config) []
  = (Returned (Result false ["Analysis error: 'Target'"] [] None), []).
Proof.
  assert (H : ~ In "Target"%string ["Direct"; "Referral"]).
  { simpl. intros [E|[E|[]]]; discriminate. }
  split; [reflexivity|]. split; [reflexivity|]. split; [reflexivity|].
  split; [reflexivity|]. split; [exact H|].
  exact (target_not_required_fails (Samples.channel_env Samples.channel_frame)
           forward_order "channels.csv" "out" (Some Cases.no_target_config) []
           Samples.channel_frame ["Direct"; "Referral"] ["Direct"; "Referral"]
           eq_refl eq_refl eq_refl eq_refl H).
Defined.

(** The check of [no_numeric_columns_never_succeeds] on the sample export,
    with an empty list of numeric columns. *)
Lemma no_numeric_columns_never_succeeds_witness :
  numeric_columns (Some Cases.no_numeric_config) = Returned [] /\
  exists r disk',
    run_analysis (Samples.channel_env Samples.channel_frame) forward_order
                 "channels.csv" "out" (Some Cases.no_numeric_config) []
    = (Returned r, disk') /\
    success r = false.
Proof.
  split; [reflexivity|].
  eexists. eexists. split; [vm_compute; reflexivity|].
  eapply (no_numeric_columns_never_succeeds (Samples.channel_env Samples.channel_frame)
            forward_order "channels.csv" "out" (Some Cases.no_numeric_config) []);
    [reflexivity|vm_compute; reflexivity].
Defined.

End ChannelsEdges.

Module ChannelsSummary.
Import Py Pandas PyFacts PandasFacts Channels ChannelsFacts ChannelsRun ChannelOrder.

Lemma sumZ_app (l l' : list Z) : sumZ (l ++ l') = (sumZ l + sumZ l')%Z.
Proof.
  induction l as [|x t IH]; simpl; [reflexivity|].
  rewrite !sumZ_cons, IH. lia.
Qed.

Lemma sumZ_map_add {A} (f g : A -> Z) (l : list A) :
  sumZ (map (fun x => (f x + g x)%Z) l) = (sumZ (map f l) + sumZ (map g l))%Z.
Proof.
  induction l as [|x t IH]; simpl; [reflexivity|].
  rewrite !sumZ_cons, IH. lia.
Qed.

Lemma sumZ_map_zero {A} (l : list A) : sumZ (map (fun _ => 0%Z) l) = 0%Z.
Proof. induction l as [|x t IH]; simpl; [reflexivity|]. now rewrite sumZ_cons, IH. Qed.

(** The sum of the wrapped sums is the sum, modulo 2^64. *)
Lemma wrap64_sum_of_sums (cells : list (list Z)) :
  wrap64 (sumZ (map sum64 cells)) = wrap64 (sumZ (map sumZ cells)).
Proof.
  induction cells as [|xs t IH]; simpl; [reflexivity|].
  rewrite !sumZ_cons, sum64_wrap, wrap64_add_l.
  rewrite (Z.add_comm (sumZ xs) (sumZ (map sum64 t))).
  rewrite <- wrap64_add_l, IH, wrap64_add_l. f_equal. lia.
Qed.

(** The cells of a list, read by position. *)
Lemma map_nth_seq (xs : list Z) :
  map (fun i => nth i xs 0%Z) (seq 0 (List.length xs)) = xs.
Proof.
  induction xs as [|x t IH]; simpl; [reflexivity|].
  f_equal. rewrite <- seq_shift, map_map. exact IH.
Qed.

(** Summing a table by rows or by columns gives the same total. *)
Lemma row_sums_total (cells : list (list Z)) (n : nat) :
  (forall xs, In xs cells -> List.length xs = n) ->
  sumZ (map (row_sum cells) (seq 0 n)) = sumZ (map sumZ cells).
Proof.
  intros Hlen. unfold row_sum.
  induction cells as [|xs t IH]; simpl.
  - apply sumZ_map_zero.
  - rewrite sumZ_cons.
    rewrite (map_ext _ (fun i => (nth i xs 0 + sumZ (map (fun ys => nth i ys 0) t))%Z))
      by (intros i; apply sumZ_cons).
    rewrite sumZ_map_add, IH by (intros; apply Hlen; now right).
    rewrite <- (Hlen xs (or_introl eq_refl)), map_nth_seq. reflexivity.
Qed.

Lemma dict_set_fresh {V} (d : list (string * V)) (k : string) (v : V) :
  ~ In k (map fst d) -> dict_set d k v = d ++ [(k, v)].
Proof.
  induction d as [|[k0 v0] t IH]; simpl; intros H; [reflexivity|].
  destruct (String.eqb k k0) eqn:E.
  - apply String.eqb_eq in E. subst. tauto.
  - rewrite IH; tauto.
Qed.

(** The totals of the channels, in the order of the loop. *)
Lemma channel_totals_values (clean_data : frame) (cols : list string)
  (acc tot : list (string * Z)) (cells : list (list Z)) :
  NoDup cols -> (forall c, In c cols -> ~ In c (map fst acc)) ->
  channel_totals_loop clean_data cols acc = Returned tot ->
  numeric_cells clean_data cols = Returned cells ->
  map snd tot = map snd acc ++ map sum64 cells.
Proof.
  revert acc cells. induction cols as [|col rest IH]; simpl; intros acc cells Hnd Hfresh H Hc.
  - inversion H; inversion Hc; subst. simpl. now rewrite app_nil_r.
  - inversion Hnd as [|? ? Hnotin Hrest]; subst.
    destruct (getcol clean_data col) as [[xs|?|?]|]; simpl in *; try discriminate.
    destruct (numeric_cells clean_data rest) as [r|] eqn:Er; simpl in Hc; [|discriminate].
    inversion Hc; subst cells. clear Hc.
    rewrite dict_set_fresh in H by (apply Hfresh; now left).
    rewrite (IH _ r Hrest) with (3 := eq_refl) (2 := H).
    + rewrite map_app. simpl. now rewrite <- app_assoc.
    + intros c Hin. rewrite map_app, in_app_iff. simpl.
      intros [Hacc|[<-|[]]]; [|contradiction].
      apply (Hfresh c); auto.
Qed.

(** The totals of the targets, in the order of the rows. *)
Lemma target_totals_values (targets : list string) (cells : list (list Z)) (i : nat)
  (acc tot : list (string * Z)) :
  NoDup targets -> (forall t, In t targets -> ~ In t (map fst acc)) ->
  target_totals_loop (map Some targets) cells i acc = Returned tot ->
  map snd tot = map snd acc ++ map (row_sum cells) (seq i (List.length targets)).
Proof.
  revert i acc. induction targets as [|t rest IH]; simpl; intros i acc Hnd Hfresh H.
  - inversion H; subst. now rewrite app_nil_r.
  - inversion Hnd as [|? ? Hnotin Hrest]; subst.
    rewrite dict_set_fresh in H by (apply Hfresh; now left).
    rewrite (IH _ _ Hrest) with (2 := H).
    + rewrite map_app. simpl. now rewrite <- app_assoc.
    + intros c Hin. rewrite map_app, in_app_iff. simpl.
      intros [Hacc|[<-|[]]]; [|contradiction].
      apply (Hfresh c); auto.
Qed.

Lemma numeric_cells_In (clean_data : frame) (cols : list string) (cells : list (list Z)) :
  numeric_cells clean_data cols = Returned cells ->
  forall xs, In xs cells ->
    exists c, In c cols /\ getcol clean_data c = Returned (ColInt xs).
Proof.
  revert cells. induction cols as [|col rest IH]; simpl; intros cells H xs Hxs.
  - inversion H; subst. destruct Hxs.
  - destruct (getcol clean_data col) as [[ys|?|?]|] eqn:Eg; simpl in H; try discriminate.
    destruct (numeric_cells clean_data rest) as [r|] eqn:Er; simpl in H; [|discriminate].
    inversion H; subst cells. destruct Hxs as [<-|Hxs].
    + exists col. auto.
    + destruct (IH _ eq_refl _ Hxs) as (c & Hc & Hg). exists c. auto.
Qed.

Section Summary.

Variable o : set_order.

(** The total of a summary against the totals of its targets, on a table
    with distinct targets and as many cells in every numeric column. *)
Lemma total_against_targets (clean_data : frame) (numeric_cols : pyset) (sm : summary)
  (targets : list string) :
  build_summary o clean_data numeric_cols = Returned sm ->
  getcol clean_data "Target" = Returned (ColObj (map Some targets)) ->
  NoDup targets ->
  (forall c xs, In c numeric_cols -> getcol clean_data c = Returned (ColInt xs) ->
                List.length xs = List.length targets) ->
  wrap64 (total_traffic sm) = wrap64 (sumZ (map snd (target_breakdown sm))) /\
  ((forall c xs, In c numeric_cols -> getcol clean_data c = Returned (ColInt xs) ->
                 in_int64 (sumZ xs)) ->
   total_traffic sm = sumZ (map snd (target_breakdown sm))).
Proof.
  intros Hb Ht Hnd Hlen.
  destruct (build_summary_parts _ _ _ _ Hb)
    as (ts & cells & Hloop & Hg & Hcells & Htt & Htotal & _).
  rewrite Ht in Hg. inversion Hg; subst ts. clear Hg.
  pose proof (channel_totals_values _ _ [] _ _ (iter_NoDup o numeric_cols)
                (fun _ _ H => H) Hloop Hcells) as Hch.
  pose proof (target_totals_values _ _ _ [] _ Hnd (fun _ _ H => H) Htt) as Htg.
  simpl in Hch, Htg. rewrite Htotal, Hch, Htg.
  assert (Hcol : forall xs, In xs cells ->
            exists c, In c numeric_cols /\ getcol clean_data c = Returned (ColInt xs)).
  { intros xs Hxs. destruct (numeric_cells_In _ _ _ Hcells _ Hxs) as (c & Hc & Hg).
    exists c. split; auto. now apply iter_In in Hc. }
  rewrite row_sums_total.
  2:{ intros xs Hxs. destruct (Hcol _ Hxs) as (c & Hc & Hg). eauto. }
  split; [apply wrap64_sum_of_sums|].
  intros Hfit. f_equal. apply map_ext_in. intros xs Hxs.
  destruct (Hcol _ Hxs) as (c & Hc & Hg). apply sum64_exact. eauto.
Qed.

End Summary.
End ChannelsSummary.

Module ChannelsTotals.
Import Py Pandas PyFacts PandasFacts Channels ChannelsFacts ChannelsRun ChannelOrder.
Import ChannelsSummary.

Lemma mask_filter_length_eq {A B} (m : list bool) (l1 : list A) (l2 : list B) :
  List.length l1 = List.length l2 ->
  List.length (mask_filter m l1) = List.length (mask_filter m l2).
Proof.
  revert l1 l2. induction m as [|b m IH]; intros [|x l1] [|y l2] H; simpl in *;
    try reflexivity; try discriminate.
  destruct b; simpl; auto.
Qed.

Lemma int64_cells_length (c : column) :
  is_numeric_dtype c = true -> List.length (int64_cells c) = col_len c.
Proof. destruct c; simpl; intros H; try discriminate; auto. now rewrite length_map. Qed.

Section Totals.

Variable w : env.
Variable o : set_order.

(** X6: after a successful channel run on a rectangular table, the
    [total_traffic] of the summary and the sum of the totals of
    [target_breakdown] agree modulo 2^64, and they are equal when no
    column of the processed table overflows 64 bits: every cell is counted
    once under its channel and once under its target. *)
Theorem total_traffic_is_sum_of_target_totals (input_file output_dir : string)
  (config : option dict) (disk disk' : fs frame) (r : result summary) (df : frame) :
  run_analysis w o input_file output_dir config disk = (Returned r, disk') ->
  success r = true ->
  read_csv w input_file = Returned df ->
  (forall n c, In (n, c) df -> col_len c = nrows df) ->
  exists sm table,
    Pandas.summary r = Some sm /\
    dict_get disk' (path_join output_dir "channel_analysis.csv") = Some (CsvFile table) /\
    wrap64 (total_traffic sm) = wrap64 (sumZ (map snd (target_breakdown sm))) /\
    ((forall c xs, In (c, ColInt xs) table -> in_int64 (sumZ xs)) ->
     total_traffic sm = sumZ (map snd (target_breakdown sm))).
Proof.
  intros H Hs Hd Hrect.
  destruct (run_success w o _ _ _ _ _ _ H Hs)
    as (req & num & df' & clean & sm & _ & _ & Hd' & Hv & Hc & Hb & Hsm & _ & Hcsv).
  rewrite Hd in Hd'. inversion Hd'; subst df'. clear Hd'.
  exists sm, clean. split; [exact Hsm|]. split; [exact Hcsv|].
  destruct (clean_df_columns w o _ _ _ _ _ Hv Hc) as (ts & Hdf & HT & HnT & Eclean).
  destruct (validate_true o _ _ _ _ Hv) as (_ & Hreq & Hsub & Hnum).
  destruct (kept_targets (clean_targets ts)) as (targets & Ek & Hnd & _).
  assert (Htarget : getcol clean "Target" = Returned (ColObj (map Some targets))).
  { rewrite Eclean, getcol_named by now apply iter_In.
    unfold cleaned_column. simpl. now rewrite Ek. }
  assert (Hlen : forall c xs, In c num -> getcol clean c = Returned (ColInt xs) ->
                              List.length xs = List.length targets).
  { intros c xs Hcn Hg.
    rewrite Eclean, getcol_named in Hg by (apply iter_In; auto).
    unfold cleaned_column in Hg.
    destruct (String.eqb c "Target") eqn:E.
    - apply String.eqb_eq in E. subst c. contradiction.
    - destruct (Hnum _ Hcn) as (raw & Hraw & Hdt). rewrite Hraw in Hg.
      apply mem_In in Hcn. rewrite Hcn in Hg. inversion Hg; subst xs.
      rewrite <- (length_map Some targets), <- Ek.
      apply mask_filter_length_eq.
      rewrite int64_cells_length by exact Hdt.
      unfold clean_targets. rewrite !length_map.
      rewrite (Hrect _ _ (dict_get_In _ _ _ Hraw)).
      now rewrite <- (Hrect _ _ (dict_get_In _ _ _ Hdf)). }
  destruct (total_against_targets o _ _ _ _ Hb Htarget Hnd Hlen) as [Hmod Hexact].
  split; [exact Hmod|].
  intros Hfit. apply Hexact. intros c xs Hcn Hg. apply (Hfit c).
  apply dict_get_In. now apply getcol_Returned.
Qed.

(** X7: after a successful channel run, [top_target] is empty exactly
    when [target_breakdown] is, and otherwise names a target of
    [target_breakdown] whose total is at least the total of every
    target. *)
Theorem top_target_has_largest_total (input_file output_dir : string)
  (config : option dict) (disk disk' : fs frame) (r : result summary) :
  run_analysis w o input_file output_dir config disk = (Returned r, disk') ->
  success r = true ->
  exists sm,
    Pandas.summary r = Some sm /\
    (top_target sm = None <-> target_breakdown sm = []) /\
    forall t, top_target sm = Some t ->
      exists v, In (t, v) (target_breakdown sm) /\
                forall t' v', In (t', v') (target_breakdown sm) -> (v' <= v)%Z.
Proof.
  intros H Hs.
  destruct (run_success w o _ _ _ _ _ _ H Hs)
    as (req & num & df & clean & sm & _ & _ & _ & _ & _ & Hb & Hsm & _).
  exists sm. split; [exact Hsm|].
  destruct (build_summary_parts _ _ _ _ Hb) as (ts & cells & _ & _ & _ & _ & _ & _ & Htop).
  rewrite Htop. destruct (target_breakdown sm) as [|[k v] rest].
  - split; [tauto|]. discriminate.
  - split; [split; discriminate|].
    intros t [= <-].
    destruct (max_from_spec rest k v) as (_ & rv & Hin & Hge & Hmax).
    exists rv. split.
    + destruct Hin as [[-> ->]|Hin]; [now left|now right].
    + intros t' v' [[= <- <-]|Hin']; eauto.
Qed.

End Totals.

(** The check of [total_traffic_is_sum_of_target_totals] on the sample
    run. *)
Lemma total_traffic_is_sum_of_target_totals_witness :
  run_analysis (Samples.channel_env Samples.channel_frame) forward_order
               "channels.csv" "out" None []
  = (Returned Samples.channel_result, snd Samples.channel_run) /\
  success Samples.channel_result = true /\
  read_csv (Samples.channel_env Samples.channel_frame) "channels.csv"
  = Returned Samples.channel_frame /\
  (forall n c, In (n, c) Samples.channel_frame -> col_len c = nrows Samples.channel_frame) /\
  exists sm table,
    Pandas.summary Samples.channel_result = Some sm /\
    dict_get (snd Samples.channel_run) (path_join "out" "channel_analysis.csv")
    = Some (CsvFile table) /\
    wrap64 (total_traffic sm) = wrap64 (sumZ (map snd (target_breakdown sm))) /\
    ((forall c xs, In (c, ColInt xs) table -> in_int64 (sumZ xs)) ->
     total_traffic sm = sumZ (map snd (target_breakdown sm))).
Proof.
  assert (Hrect : forall n c, In (n, c) Samples.channel_frame ->
                              col_len c = nrows Samples.channel_frame).
  { intros n c Hin. simpl in Hin.
    repeat (destruct Hin as [Hin|Hin]; [inversion Hin; reflexivity|]). destruct Hin. }
  split; [reflexivity|]. split; [reflexivity|]. split; [reflexivity|].
  split; [exact Hrect|].
  exact (total_traffic_is_sum_of_target_totals (Samples.channel_env Samples.channel_frame)
           forward_order "channels.csv" "out" None [] (snd Samples.channel_run)
           Samples.channel_result Samples.channel_frame eq_refl eq_refl eq_refl Hrect).
Defined.

(** The check of [top_target_has_largest_total] on the sample run. *)
Lemma top_target_has_largest_total_witness :
  run_analysis (Samples.channel_env Samples.channel_frame) forward_order
               "channels.csv" "out" None []
  = (Returned Samples.channel_result, snd Samples.channel_run) /\
  success Samples.channel_result = true /\
  exists sm,
    Pandas.summary Samples.channel_result = Some sm /\
    (top_target sm = None <-> target_breakdown sm = []) /\
    forall t, top_target sm = Some t ->
      exists v, In (t, v) (target_breakdown sm) /\
                forall t' v', In (t', v') (target_breakdown sm) -> (v' <= v)%Z.
Proof.
  split; [reflexivity|]. split; [reflexivity|].
  exact (top_target_has_largest_total (Samples.channel_env Samples.channel_frame)
           forward_order "channels.csv" "out" None [] (snd Samples.channel_run)
           Samples.channel_result eq_refl eq_refl).
Defined.

End ChannelsTotals.

Module ChannelsIdempotent.
Import Py Pandas PyFacts PandasFacts Channels ChannelsFacts.

Lemma mask_filter_all {A B} (l' : list B) (l : list A) :
  (List.length l <= List.length l')%nat ->
  mask_filter (map (fun _ => true) l') l = l.
Proof.
  revert l. induction l' as [|y l' IH]; intros [|x l] H; simpl in *; try reflexivity; try lia.
  f_equal. apply IH. lia.
Qed.

Lemma col_filter_all {B} (l' : list B) (c : column) :
  (col_len c <= List.length l')%nat ->
  col_filter (map (fun _ => true) l') c = c.
Proof. destruct c; simpl; intros H; f_equal; now apply mask_filter_all. Qed.

Lemma mask_then_all {B} (l : list B) (m : list bool) :
  List.length m = List.length l ->
  mask_then (map (fun _ => true) l) m = m.
Proof.
  revert m. induction l as [|y l IH]; intros [|b m] H; simpl in *; try reflexivity;
    try discriminate.
  f_equal. apply IH. lia.
Qed.

Lemma mask_then_length (m1 m2 : list bool) :
  (List.length (mask_then m1 m2) <= List.length m1)%nat.
Proof.
  revert m2. induction m1 as [|b m1 IH]; intros m2; simpl; [lia|].
  destruct b.
  - destruct m2; simpl; [lia|]. specialize (IH m2). lia.
  - simpl. specialize (IH m2). lia.
Qed.

(** A selection has at most as many cells as the cells of a column that
    is as long as the mask. *)
Lemma mask_filter_shorter {A B} (m : list bool) (l : list A) (l' : list B) :
  (List.length m <= List.length l')%nat ->
  (List.length (mask_filter m l) <= List.length (mask_filter m l'))%nat.
Proof.
  revert l l'. induction m as [|b m IH]; intros l l' H; simpl; [lia|].
  destruct l' as [|y l']; [simpl in H; lia|].
  destruct l as [|x l]; [simpl; lia|].
  simpl in H. destruct b; simpl; [apply le_n_S|]; apply IH; lia.
Qed.

Lemma first_occurrence_distinct (seen : list (option string)) (ts : list string) :
  NoDup ts -> (forall t, In t ts -> ~ In (Some t) seen) ->
  first_occurrence ostr_eqb seen (map Some ts) = map (fun _ => true) ts.
Proof.
  revert seen. induction ts as [|t rest IH]; intros seen Hnd Hfresh; simpl; [reflexivity|].
  inversion Hnd as [|? ? Hnotin Hrest]; subst.
  destruct (existsb (ostr_eqb (Some t)) seen) eqn:E.
  - apply existsb_exists in E. destruct E as (x & Hx & Hxe).
    apply ostr_eqb_eq in Hxe. subst x. exfalso. apply (Hfresh t); auto. now left.
  - f_equal. apply IH; auto. intros t' Ht' [Heq|Hin].
    + inversion Heq; subst. contradiction.
    + apply (Hfresh t'); auto. now right.
Qed.

(** Every row of a column of distinct, non-empty targets is kept. *)
Lemma kept_rows_clean (targets : list string) :
  NoDup targets -> (forall t, In t targets -> t <> ""%string) ->
  kept_rows (map Some targets) = map (fun _ => true) targets.
Proof.
  intros Hnd Hne. unfold kept_rows.
  rewrite map_map. simpl.
  rewrite (mask_filter_all targets (map Some targets)) by (rewrite length_map; lia).
  assert (E2 : map (fun x => negb (ostr_eqb x (Some ""%string))) (map Some targets)
               = map (fun _ => true) targets).
  { rewrite map_map. apply map_ext_in. intros t Ht. simpl.
    apply negb_true_iff. apply String.eqb_neq. now apply Hne. }
  rewrite E2.
  rewrite (mask_filter_all targets (map Some targets)) by (rewrite length_map; lia).
  rewrite first_occurrence_distinct by (auto; intros ? ? []).
  rewrite !mask_then_all by (now rewrite !length_map).
  reflexivity.
Qed.

Lemma clean_targets_fixed (targets : list string) :
  (forall t, In t targets -> lower t = t /\ strip t = t) ->
  clean_targets (map Some targets) = map Some targets.
Proof.
  intros H. unfold clean_targets. rewrite !map_map. apply map_ext_in.
  intros t Ht. simpl. destruct (H t Ht) as [Hl Hs]. now rewrite Hs, Hl.
Qed.

Lemma kept_rows_length (ts : list (option string)) :
  (List.length (kept_rows ts) <= List.length ts)%nat.
Proof.
  unfold kept_rows.
  eapply Nat.le_trans; [apply mask_then_length|].
  eapply Nat.le_trans; [apply mask_then_length|].
  now rewrite length_map.
Qed.

Section Idempotent.

Variable w : env.
Variable o : set_order.

(** X8: the table [clean_df] gives for a validated table passes
    validation itself, and cleaning it again gives it back unchanged. *)
Theorem clean_df_idempotent (df : frame) (required_cols numeric_cols : pyset)
  (errs : list string) (cleaned : frame) :
  validate_df_structure o df required_cols numeric_cols = Returned (true, errs) ->
  clean_df w o df required_cols numeric_cols = Returned (Some cleaned) ->
  validate_df_structure o cleaned required_cols numeric_cols = Returned (true, []) /\
  clean_df w o cleaned required_cols numeric_cols = Returned (Some cleaned).
Proof.
  intros Hv Hc.
  destruct (clean_df_columns w o _ _ _ _ _ Hv Hc) as (ts & Hdf & HT & HnT & Eclean).
  destruct (validate_true o _ _ _ _ Hv) as (_ & Hreq & Hsub & Hnum).
  destruct (kept_targets (clean_targets ts)) as (targets & Ek & Hnd & Hts).
  set (keep := kept_rows (clean_targets ts)) in *.
  assert (Hshape : forall t, In t targets -> lower t = t /\ strip t = t).
  { intros t Ht. destruct (Hts t Ht) as [_ Hin]. eapply clean_targets_shape; eauto. }
  assert (Hcols : columns cleaned = iter o required_cols).
  { rewrite Eclean. apply columns_named. }
  assert (Hget : forall n, In n required_cols ->
                   dict_get cleaned n = Some (cleaned_column df numeric_cols ts n)).
  { intros n Hn. rewrite Eclean, dict_get_named.
    assert (Hm : mem n (iter o required_cols) = true) by (apply mem_In; now apply iter_In).
    now rewrite Hm. }
  assert (HgetT : dict_get cleaned "Target" = Some (ColObj (map Some targets))).
  { rewrite Hget by auto. unfold cleaned_column. simpl. fold keep. now rewrite Ek. }
  assert (Hnumcol : forall n, In n numeric_cols ->
                      exists xs, dict_get cleaned n = Some (ColInt xs)).
  { intros n Hn. rewrite Hget by auto. unfold cleaned_column.
    destruct (String.eqb n "Target") eqn:E.
    - apply String.eqb_eq in E. subst n. contradiction.
    - destruct (Hnum _ Hn) as (raw & -> & _). apply mem_In in Hn. rewrite Hn. eauto. }
  assert (Hvalid : validate_df_structure o cleaned required_cols numeric_cols
                   = Returned (true, [])).
  { unfold validate_df_structure, validate_columns.
    rewrite ChannelsValidation.set_diff_nil
      by (intros c Hc'; rewrite Hcols; now apply iter_In).
    simpl. pose proof Hsub as Hsub'. apply issubset_spec in Hsub'. rewrite Hsub'. simpl.
    rewrite ChannelsValidation.check_numeric_spec.
    2:{ intros c Hc'. rewrite Hcols. apply iter_In. apply Hsub. now apply iter_In in Hc'. }
    simpl. rewrite KeywordsFacts.filter_none; [reflexivity|].
    intros c Hc'. apply iter_In in Hc'. destruct (Hnumcol _ Hc') as (xs & ->). reflexivity. }
  split; [exact Hvalid|].
  destruct (ChannelsReturns.clean_df_returns w o cleaned required_cols numeric_cols []
              (map Some targets) Hvalid HT HgetT) as (again & Hagain).
  { intros col xs Hcol Hx. destruct (Hnumcol _ Hcol) as (ys & Hy). congruence. }
  rewrite Hagain. do 2 f_equal.
  destruct (clean_df_columns w o _ _ _ _ _ Hvalid Hagain) as (ts' & Hdf' & _ & _ & Eagain).
  rewrite HgetT in Hdf'. inversion Hdf'; subst ts'. clear Hdf'.
  rewrite Eagain.
  transitivity (map (fun n => (n, cleaned_column df numeric_cols ts n)) (iter o required_cols));
    [|now symmetry].
  apply named_ext. intros n Hn.
  apply iter_In in Hn.
  assert (Hkeep : kept_rows (clean_targets (map Some targets)) = map (fun _ => true) targets).
  { rewrite clean_targets_fixed by exact Hshape.
    apply kept_rows_clean; auto. intros t Ht. now apply Hts. }
  assert (Hlen : List.length targets = List.length (mask_filter keep (clean_targets ts))).
  { now rewrite Ek, length_map. }
  assert (Hshort : forall A (l : list A),
             (List.length (mask_filter keep l) <= List.length targets)%nat).
  { intros A l. rewrite Hlen. apply mask_filter_shorter. apply kept_rows_length. }
  unfold cleaned_column at 1. rewrite Hkeep, (Hget n Hn).
  destruct (String.eqb n "Target") eqn:E.
  - rewrite clean_targets_fixed by exact Hshape.
    rewrite mask_filter_all by (rewrite length_map; lia).
    unfold cleaned_column. rewrite E. fold keep. now rewrite Ek.
  - unfold cleaned_column. rewrite E. fold keep.
    destruct (dict_get df n) as [c|] eqn:Edf.
    + destruct (mem n numeric_cols) eqn:Em.
      * simpl. f_equal. apply mask_filter_all. apply Hshort.
      * destruct (col_filter keep c) as [xs|xs|xs] eqn:Ecf.
        -- simpl. f_equal. apply mask_filter_all.
           destruct c; simpl in Ecf; inversion Ecf. apply Hshort.
        -- simpl. f_equal. apply mask_filter_all.
           destruct c; simpl in Ecf; inversion Ecf. apply Hshort.
        -- simpl. f_equal. apply mask_filter_all.
           destruct c; simpl in Ecf; inversion Ecf. apply Hshort.
    + destruct (mem n numeric_cols); simpl; now rewrite mask_filter_nil.
Qed.

End Idempotent.

(** The check of [clean_df_idempotent] on the sample export. *)
Lemma clean_df_idempotent_witness :
  validate_df_structure forward_order Samples.channel_frame default_required default_numeric
  = Returned (true, []) /\
  clean_df (Samples.channel_env Samples.channel_frame) forward_order Samples.channel_frame
           default_required default_numeric
  = Returned (Some Samples.channel_cleaned) /\
  validate_df_structure forward_order Samples.channel_cleaned default_required default_numeric
  = Returned (true, []) /\
  clean_df (Samples.channel_env Samples.channel_frame) forward_order Samples.channel_cleaned
           default_required default_numeric
  = Returned (Some Samples.channel_cleaned).
Proof.
  split; [reflexivity|]. split; [reflexivity|].
  exact (clean_df_idempotent (Samples.channel_env Samples.channel_frame) forward_order
           Samples.channel_frame default_required default_numeric []
           Samples.channel_cleaned eq_refl eq_refl).
Defined.

End ChannelsIdempotent.

Module HeliumValidation.
Import Py Pandas PyFacts PandasFacts Helium HeliumFacts.

Lemma omem_In (x : option string) (l : list (option string)) :
  omem x l = true <-> In x l.
Proof.
  unfold omem. rewrite existsb_exists. split.
  - intros (y & Hy & E). apply ChannelsFacts.ostr_eqb_eq in E. now subst.
  - intros H. exists x. split; auto. now apply ChannelsFacts.ostr_eqb_eq.
Qed.

Lemma non_integer_cols_nil (df : frame) (cols : list string) :
  non_integer_cols df cols = Returned [] <->
  forall c, In c cols -> exists xs, dict_get df c = Some (ColInt xs).
Proof.
  induction cols as [|col rest IH]; simpl.
  - split; auto. intros _ c [].
  - unfold getcol. destruct (dict_get df col) as [cc|] eqn:E; simpl.
    + destruct (non_integer_cols df rest) as [r|] eqn:Er; simpl.
      * destruct cc as [xs|xs|xs]; simpl.
        -- split.
           ++ intros H. inversion H; subst r.
              intros c [<-|Hc]; [eauto|]. now apply IH.
           ++ intros H. f_equal. assert (Hr : Returned r = Returned (A := list string) []).
              { apply IH. intros c Hc. apply H. now right. }
              now inversion Hr.
        -- split; [discriminate|]. intros H.
           destruct (H col (or_introl eq_refl)) as (ys & Hy). congruence.
        -- split; [discriminate|]. intros H.
           destruct (H col (or_introl eq_refl)) as (ys & Hy). congruence.
      * split; [discriminate|]. intros H.
        assert (Hr : Raised (A := list string) e = Returned []).
        { apply IH. intros c Hc. apply H. now right. }
        discriminate.
    + split; [discriminate|]. intros H.
      destruct (H col (or_introl eq_refl)) as (ys & Hy). congruence.
Qed.

(** What the validator accepts. *)
Lemma validate_accepts (o : set_order) (df : frame) :
  (forall errs, validate_df_structure o df = Returned (true, errs) -> errs = []) /\
  (validate_df_structure o df = Returned (true, []) <->
   nrows df = 6%nat /\
   (3 <= List.length (filter is_date_label (columns df)))%nat /\
   (exists cells,
      dict_get df "Metric" = Some (ColObj cells) /\
      forall x, In x (map (option_map lower) cells) <-> In x (map Some required_metrics)) /\
   (forall c, In c (columns df) -> is_date_label c = true ->
      exists xs, dict_get df c = Some (ColInt xs))).
Proof.
  unfold validate_df_structure. generalize required_metrics as metrics. intros metrics.
  destruct (Nat.eqb_spec (nrows df) 6) as [Hrows|Hrows]; simpl.
  2:{ split.
      - destruct (negb (mem "Metric" (columns df)));
          destruct (Nat.ltb _ 3); simpl; discriminate.
      - split; [|tauto].
        destruct (negb (mem "Metric" (columns df)));
          destruct (Nat.ltb _ 3); simpl; discriminate. }
  destruct (mem "Metric" (columns df)) eqn:Hmem; simpl.
  2:{ assert (Hno : dict_get df "Metric" = None).
      { apply dict_get_None. now apply mem_false. }
      split.
      - destruct (Nat.ltb _ 3); simpl; discriminate.
      - split; [destruct (Nat.ltb _ 3); simpl; discriminate|].
        intros (_ & _ & (cells & Hc & _) & _). congruence. }
  destruct (Nat.ltb_spec (List.length (filter is_date_label (columns df))) 3) as [Hlt|Hge];
    simpl.
  1:{ split; [discriminate|]. split; [discriminate|]. intros (_ & H & _). lia. }
  unfold getcol. destruct (dict_get df "Metric") as [[xs|xs|cells]|] eqn:Hmetric; simpl.
  1,2,4: split; [discriminate|]; split; [discriminate|];
    intros (_ & _ & (cells & Hc & _) & _); discriminate.
  set (vals := map (option_map lower) cells).
  set (req := map Some metrics).
  destruct (forallb (fun x => omem x req) vals && forallb (fun x => omem x vals) req)
    eqn:Hset; cbv beta iota; unfold negb.
  - apply andb_true_iff in Hset. destruct Hset as [H1 H2].
    rewrite forallb_forall in H1, H2.
    assert (Hsame : forall x, In x vals <-> In x req).
    { intros x. split; intros Hx.
      - apply omem_In. now apply H1.
      - apply omem_In. now apply H2. }
    destruct (non_integer_cols df (filter is_date_label (columns df))) as [bad|e] eqn:Hbad;
      simpl.
    + destruct bad as [|b bad].
      * split; [now intros errs [= <-]|]. split; [|reflexivity].
        intros _. repeat split; auto.
        -- exists cells. auto.
        -- intros c Hc Hl. apply (proj1 (non_integer_cols_nil _ _) Hbad).
           apply filter_In. auto.
      * split; [discriminate|]. split; [discriminate|].
        intros (_ & _ & _ & Hint). exfalso.
        assert (Hnil : non_integer_cols df (filter is_date_label (columns df)) = Returned []).
        { apply non_integer_cols_nil. intros c Hc. apply filter_In in Hc.
          destruct Hc. now apply Hint. }
        congruence.
    + split; [discriminate|]. split; [discriminate|].
      intros (_ & _ & _ & Hint). exfalso.
      assert (Hnil : non_integer_cols df (filter is_date_label (columns df)) = Returned []).
      { apply non_integer_cols_nil. intros c Hc. apply filter_In in Hc.
        destruct Hc. now apply Hint. }
      congruence.
  - assert (Hnot : ~ forall x, In x vals <-> In x req).
    { intros Hsame. apply andb_false_iff in Hset. destruct Hset as [Hf|Hf].
      - assert (forallb (fun x => omem x req) vals = true); [|congruence].
        apply forallb_forall. intros x Hx. apply omem_In. now apply Hsame.
      - assert (forallb (fun x => omem x vals) req = true); [|congruence].
        apply forallb_forall. intros x Hx. apply omem_In. now apply Hsame. }
    split.
    + intros errs. destruct (filter _ vals); [discriminate|].
      destruct (all_strings _); simpl; discriminate.
    + split.
      * destruct (filter _ vals); [discriminate|].
        destruct (all_strings _); simpl; discriminate.
      * intros (_ & _ & (cells' & Hc & Hsame) & _). exfalso.
        inversion Hc; subst cells'. now apply Hnot.
Qed.


End HeliumValidation.

Module HeliumRun.
Import Py Pandas PyFacts PandasFacts Helium HeliumFacts.

Ltac inner_case H :=
  match type of H with
  | context [match ?x with _ => _ end] =>
      lazymatch x with
      | context [match _ with _ => _ end] => fail
      | _ => destruct x eqn:?; simpl in H
      end
  end.

Section Run.

Variable w : env.
Variable o : set_order.

(** What a successful time-series run went through. *)
Lemma helium_run_success (input_file output_dir : string) (config : option dict)
  (disk disk' : fs monthly) (r : result summary) :
  run_analysis w o input_file output_dir config disk = (Returned r, disk') ->
  success r = true ->
  exists df window df_monthly sm,
    read_csv w input_file = Returned df /\
    validate_df_structure o df = Returned (true, []) /\
    reshape w (clean_columns df) = Returned (window, df_monthly) /\
    (forall n, In n ["Organic Traffic"; "Organic Keywords"; "Paid Traffic";
                     "Paid Traffic Cost"; "Paid Keywords"]%string ->
               exists cells, monthly_col df_monthly n = Returned cells) /\
    build_summary w window df_monthly = Returned sm /\
    Pandas.summary r = Some sm /\ errors r = [] /\
    dict_get disk' (path_join output_dir "processed_monthly_data.csv")
    = Some (CsvFile df_monthly).
Proof.
  unfold run_analysis. intros H Hs.
  unfold try_except, analysis_body, bind, lift in H.
  destruct (read_csv w input_file) as [df|] eqn:Ed; simpl in H;
    [|inversion H; subst; discriminate].
  destruct (validate_df_structure o df) as [[ok errs]|] eqn:Ev;
    simpl in H; [|inversion H; subst; discriminate].
  destruct ok; simpl in H; [|inversion H; subst; discriminate].
  assert (Hnil : errs = []) by exact (proj1 (HeliumValidation.validate_accepts o df) _ Ev).
  subst errs.
  destruct (reshape w (clean_columns df)) as [[window df_monthly]|] eqn:Er;
    simpl in H; [|inversion H; subst; discriminate].
  exists df, window, df_monthly.
  unfold makedirs, save_chart, save_csv, check, bind, get, modify, ret, raise, lift in H.
  simpl in H.
  repeat (inner_case H; try (inversion H; subst; discriminate)).
  all: inversion H; subst; simpl in *.
  all: eexists; repeat split; try first [reflexivity | eassumption | apply dict_get_set_same].
  all: unfold obind in *.
  all: intros n Hn;
    repeat match goal with
           | Hc : context [match monthly_col ?t ?c with _ => _ end] |- _ =>
               destruct (monthly_col t c) eqn:?; [|discriminate]
           end;
    repeat (destruct Hn as [<-|Hn]; [eauto|]); destruct Hn.
Qed.

End Run.
End HeliumRun.

Module SortFacts.
Import Py PyFacts.

Section Sorted.

Variable A : Type.
Variable leb : A -> A -> bool.
Variable P : A -> Prop.

Hypothesis leb_total : forall x y, P x -> P y -> leb x y = true \/ leb y x = true.
Hypothesis leb_trans :
  forall x y z, P x -> P y -> P z -> leb x y = true -> leb y z = true -> leb x z = true.

Lemma insert_by_In (x y : A) (l : list A) :
  In y (insert_by leb x l) <-> y = x \/ In y l.
Proof.
  induction l as [|z t IH]; simpl.
  - intuition.
  - destruct (leb x z); simpl; [intuition|]. rewrite IH. intuition.
Qed.

Lemma insert_by_sorted (x : A) (l : list A) :
  P x -> Forall P l ->
  ForallOrdPairs (fun a b => leb a b = true) l ->
  ForallOrdPairs (fun a b => leb a b = true) (insert_by leb x l).
Proof.
  intros Px HP Hs. induction Hs as [|y t Hy Ht IH]; simpl.
  - repeat constructor.
  - inversion HP as [|? ? Py Pt]; subst.
    destruct (leb x y) eqn:E.
    + constructor; [|constructor; auto].
      constructor; auto.
      rewrite Forall_forall in Hy, Pt |- *. intros z Hz.
      apply (leb_trans x y z); auto.
    + constructor; [|auto].
      apply Forall_forall. intros z Hz. apply insert_by_In in Hz.
      destruct Hz as [->|Hz].
      * destruct (leb_total x y Px Py) as [H|H]; [congruence|exact H].
      * rewrite Forall_forall in Hy. auto.
Qed.

Lemma sort_by_In (y : A) (l : list A) : In y (sort_by leb l) <-> In y l.
Proof.
  unfold sort_by. induction l as [|x t IH]; simpl; [tauto|].
  rewrite insert_by_In, IH. intuition.
Qed.

(** The insertion sort sorts, for an order that is total and transitive
    on the elements. *)
Lemma sort_by_sorted (l : list A) :
  Forall P l -> ForallOrdPairs (fun a b => leb a b = true) (sort_by leb l).
Proof.
  unfold sort_by. induction l as [|x t IH]; simpl; intros HP.
  - constructor.
  - inversion HP; subst. apply insert_by_sorted; auto.
    apply Forall_forall. intros z Hz. apply (sort_by_In z t) in Hz.
    rewrite Forall_forall in H2. auto.
Qed.

End Sorted.

Lemma filter_sorted {A} (R : A -> A -> Prop) (p : A -> bool) (l : list A) :
  ForallOrdPairs R l -> ForallOrdPairs R (filter p l).
Proof.
  induction 1 as [|x t Hx Ht IH]; simpl; [constructor|].
  destruct (p x); auto. constructor; auto.
  apply Forall_forall. intros y Hy. apply filter_In in Hy.
  rewrite Forall_forall in Hx. apply Hx. tauto.
Qed.

Lemma map_sorted {A B} (R : B -> B -> Prop) (f : A -> B) (l : list A) :
  ForallOrdPairs R (map f l) <-> ForallOrdPairs (fun a b => R (f a) (f b)) l.
Proof.
  induction l as [|x t IH]; simpl.
  - split; constructor.
  - split; intros H; inversion H; subst; constructor; try (apply IH; assumption).
    + rewrite Forall_forall in *. intros y Hy. match goal with Hf : forall _, In _ (map f t) -> _ |- _ => apply Hf end. now apply in_map.
    + rewrite Forall_forall in *. intros y Hy. apply in_map_iff in Hy.
      destruct Hy as (a & <- & Ha). auto.
Qed.

End SortFacts.

Module HeliumReshape.
Import Py Pandas PyFacts PandasFacts Helium HeliumFacts HeliumRun.

Lemma dict_get_filter {V} (p : string * V -> bool) (d : list (string * V))
  (k : string) (v : V) :
  dict_get d k = Some v -> p (k, v) = true -> dict_get (filter p d) k = Some v.
Proof.
  induction d as [|[k0 v0] t IH]; simpl; [discriminate|].
  destruct (String.eqb k k0) eqn:E.
  - apply String.eqb_eq in E. subst k0. intros [= ->] Hp. rewrite Hp. simpl.
    now rewrite String.eqb_refl.
  - intros Hg Hp. destruct (p (k0, v0)); simpl; [rewrite E|]; auto.
Qed.

(** The [Metric] column of a validated table survives the cleaning. *)
Lemma metric_kept (o : set_order) (df : frame) :
  validate_df_structure o df = Returned (true, []) ->
  exists cells,
    dict_get df "Metric" = Some (ColObj cells) /\
    dict_get (clean_columns df) "Metric" = Some (ColObj cells) /\
    forall x, In x (map (option_map lower) cells) <-> In x (map Some required_metrics).
Proof.
  intros Hv. apply (HeliumValidation.validate_accepts o df) in Hv.
  destruct Hv as (_ & _ & (cells & Hc & Hsame) & _).
  exists cells. split; auto. split; auto.
  assert (Hin : In (Some "organic traffic"%string) (map (option_map lower) cells)).
  { apply Hsame. simpl. tauto. }
  apply in_map_iff in Hin. destruct Hin as ([s|] & Hs & Hcell); [|discriminate].
  unfold clean_columns, drop_all_missing, keep_nonzero, drop_columns.
  repeat apply dict_get_filter; auto; simpl.
  - apply existsb_exists. eauto.
  - apply negb_true_iff. apply not_true_is_false. intros Hall.
    rewrite forallb_forall in Hall. specialize (Hall _ Hcell). discriminate.
Qed.

Lemma int_value_columns_total (df : frame) :
  (forall n c, In (n, c) df -> n <> "Metric"%string -> exists xs, c = ColInt xs) ->
  exists value_cols, int_value_columns df = Some value_cols.
Proof.
  induction df as [|[n c] rest IH]; simpl; intros H; [eauto|].
  destruct IH as (r & Er); [intros; eapply H; eauto|].
  destruct (String.eqb n "Metric") eqn:E; [eauto|].
  apply String.eqb_neq in E.
  destruct (H n c (or_introl eq_refl) E) as (xs & ->). rewrite Er. eauto.
Qed.

Lemma int_value_columns_In (df : frame) (value_cols : list (string * list Z))
  (n : string) (xs : list Z) :
  int_value_columns df = Some value_cols -> In (n, xs) value_cols ->
  In (n, ColInt xs) df /\ n <> "Metric"%string.
Proof.
  revert value_cols. induction df as [|[k c] rest IH]; simpl; intros v H Hin.
  - inversion H; subst. destruct Hin.
  - destruct (String.eqb k "Metric") eqn:E.
    + destruct (IH _ H Hin). auto.
    + destruct c as [ys|?|?]; try discriminate.
      destruct (int_value_columns rest) as [r|]; [|discriminate].
      inversion H; subst. destruct Hin as [[= <- <-]|Hin].
      * split; auto. now apply String.eqb_neq.
      * destruct (IH _ eq_refl Hin). auto.
Qed.

Lemma present_metrics_In (rows : list dated_row) (n : string) :
  In n (present_metrics rows) <-> exists r, In r rows /\ d_metric r = Some n.
Proof.
  induction rows as [|r rest IH]; simpl.
  - split; [tauto|]. intros (? & [] & _).
  - destruct (d_metric r) as [m|] eqn:E; simpl; rewrite ?IH; split.
    + intros [<-|(r' & Hr' & Hm)]; eauto.
    + intros (r' & [<-|Hr'] & Hm); [left; congruence|right; eauto].
    + intros (r' & Hr' & Hm). eauto.
    + intros (r' & [<-|Hr'] & Hm); [congruence|eauto].
Qed.

Lemma monthly_col_In (t : monthly) (n : string) (cells : list num) :
  monthly_col t n = Returned cells -> In n (monthly_names t).
Proof.
  unfold monthly_col. generalize 0%nat.
  induction (monthly_names t) as [|m rest IH]; intros j; simpl; [discriminate|].
  destruct (String.eqb m n) eqn:E.
  - apply String.eqb_eq in E. auto.
  - intros H. right. eapply IH. exact H.
Qed.

Section Reshape.

Variable w : env.

(** The rows of the melted table after the date parsing. *)
Lemma parse_dates_rows (rows : list melted_row) (parsed : list dated_row) :
  parse_dates w rows = Returned parsed ->
  forall r, In r parsed ->
    exists m, In m rows /\ d_metric r = m_metric m /\ d_value r = m_value m /\
              to_datetime w (m_date m) = Some (d_date r).
Proof.
  revert parsed. induction rows as [|m rest IH]; simpl; intros parsed H r Hr.
  - inversion H; subst. destruct Hr.
  - destruct (to_datetime w (m_date m)) as [d|] eqn:Ed; [|discriminate].
    destruct (parse_dates w rest) as [ps|] eqn:Ep; simpl in H; [|discriminate].
    inversion H; subst. destruct Hr as [<-|Hr].
    + exists m. simpl. auto.
    + destruct (IH _ eq_refl _ Hr) as (m' & Hm & Hd). exists m'. auto.
Qed.

Lemma melt_rows (labels : list (option string)) (value_cols : list (string * list Z))
  (m : melted_row) :
  In m (melt labels value_cols) ->
  In (m_metric m) labels /\
  exists xs, In (m_date m, xs) value_cols /\ In (m_value m) xs.
Proof.
  unfold melt. rewrite in_flat_map. intros ((n & xs) & Hin & Hm).
  apply in_map_iff in Hm. destruct Hm as ((l & v) & <- & Hc). simpl in *.
  split; [eapply in_combine_l; eauto|].
  exists xs. split; auto. eapply in_combine_r; eauto.
Qed.

(** The columns of the monthly table are metric labels of the file, and
    there are none unless a value column is left after the cleaning. *)
Lemma monthly_names_source (cleaned_df : frame) (labels : list (option string))
  (value_cols : list (string * list Z)) (window : option (date * date))
  (df_monthly : monthly) (n : string) :
  dict_get cleaned_df "Metric" = Some (ColObj labels) ->
  int_value_columns cleaned_df = Some value_cols ->
  reshape w cleaned_df = Returned (window, df_monthly) ->
  In n (monthly_names df_monthly) ->
  In (Some n) labels /\ value_cols <> [].
Proof.
  intros Hm Hv Hr Hn. unfold reshape, getcol in Hr. rewrite Hm, Hv in Hr. simpl in Hr.
  unfold pivoted in Hr.
  destruct (parse_dates w (melt labels value_cols)) as [rows|] eqn:Ep; simpl in Hr;
    [|discriminate].
  assert (Hnames : monthly_names df_monthly = metric_names (pivot_table rows)).
  { destruct (index_max (pivot_table rows)).
    - inversion Hr; subst. reflexivity.
    - destruct (empty_index_error w); inversion Hr; subst. reflexivity. }
  rewrite Hnames in Hn. unfold pivot_table in Hn. simpl in Hn.
  apply (sort_uniq_In String.eqb String.eqb_eq) in Hn.
  apply present_metrics_In in Hn. destruct Hn as (r & Hr' & Hmr).
  destruct (parse_dates_rows _ _ Ep _ Hr') as (m & Hin & Hmm & _).
  destruct (melt_rows _ _ _ Hin) as (Hl & xs & Hx & _).
  split; [congruence|]. intros ->. destruct Hx.
Qed.

End Reshape.

Section Needs.

Variable w : env.
Variable o : set_order.

(** X10: a time-series run succeeds only on a file whose [Metric] column
    spells the five charted metrics exactly ('Organic Traffic', 'Organic
    Keywords', 'Paid Traffic', 'Paid Traffic Cost', 'Paid Keywords': the
    validator compares lower-cased labels, the charts and the summary
    look the columns up by these names), and in which some value column
    that is not dropped holds a non-zero cell.  The value columns of the
    table are taken to be [int64] columns. *)
Theorem success_needs_exact_labels (input_file output_dir : string)
  (config : option dict) (disk disk' : fs monthly) (r : result summary) (df : frame) :
  run_analysis w o input_file output_dir config disk = (Returned r, disk') ->
  success r = true ->
  read_csv w input_file = Returned df ->
  (forall n c, In (n, c) df -> n <> "Metric"%string -> mem n dropping_cols = false ->
               exists xs, c = ColInt xs) ->
  exists labels,
    dict_get df "Metric" = Some (ColObj labels) /\
    (forall n, In n ["Organic Traffic"; "Organic Keywords"; "Paid Traffic";
                     "Paid Traffic Cost"; "Paid Keywords"]%string ->
               In (Some n) labels) /\
    exists c xs,
      In (c, ColInt xs) df /\ c <> "Metric"%string /\ mem c dropping_cols = false /\
      any_nonzero (ColInt xs) = true.
Proof.
  intros H Hs Hd Htyped.
  destruct (helium_run_success w o _ _ _ _ _ _ H Hs)
    as (df' & window & df_monthly & sm & Hd' & Hv & Hr & Hcols & _).
  rewrite Hd in Hd'. inversion Hd'; subst df'. clear Hd'.
  destruct (metric_kept o df Hv) as (labels & Hm & Hmc & _).
  destruct (int_value_columns_total (clean_columns df)) as (value_cols & Hvc).
  { intros n c Hin Hn. apply clean_columns_In in Hin.
    destruct Hin as (Hin & Hdrop & _). eauto. }
  exists labels. split; [exact Hm|].
  assert (Hall : forall n, In n ["Organic Traffic"; "Organic Keywords"; "Paid Traffic";
                                 "Paid Traffic Cost"; "Paid Keywords"]%string ->
                           In (Some n) labels /\ value_cols <> []).
  { intros n Hn. destruct (Hcols n Hn) as (cells & Hcells).
    eapply monthly_names_source; eauto. eapply monthly_col_In; eauto. }
  split; [intros n Hn; now apply Hall|].
  destruct (Hall "Organic Traffic"%string) as [_ Hne]; [simpl; tauto|].
  destruct value_cols as [|[c xs] rest]; [contradiction|].
  destruct (int_value_columns_In _ _ c xs Hvc (or_introl eq_refl)) as [Hin Hc].
  apply clean_columns_In in Hin. destruct Hin as (Hin & Hdrop & Hnz & _).
  exists c, xs. auto.
Qed.

End Needs.

(** The check of [success_needs_exact_labels] on the sample run. *)
Lemma success_needs_exact_labels_witness :
  run_analysis (Samples.helium_env Samples.helium_frame) forward_order
               "helium.csv" "out" None []
  = (Returned Cases.helium_result, snd Cases.helium_run) /\
  success Cases.helium_result = true /\
  read_csv (Samples.helium_env Samples.helium_frame) "helium.csv"
  = Returned Samples.helium_frame /\
  (forall n c, In (n, c) Samples.helium_frame -> n <> "Metric"%string ->
               mem n dropping_cols = false -> exists xs, c = ColInt xs) /\
  exists labels,
    dict_get Samples.helium_frame "Metric" = Some (ColObj labels) /\
    (forall n, In n ["Organic Traffic"; "Organic Keywords"; "Paid Traffic";
                     "Paid Traffic Cost"; "Paid Keywords"]%string ->
               In (Some n) labels) /\
    exists c xs,
      In (c, ColInt xs) Samples.helium_frame /\ c <> "Metric"%string /\
      mem c dropping_cols = false /\ any_nonzero (ColInt xs) = true.
Proof.
  assert (Htyped : forall n c, In (n, c) Samples.helium_frame -> n <> "Metric"%string ->
                     mem n dropping_cols = false -> exists xs, c = ColInt xs).
  { intros n c Hin Hn Hdrop. simpl in Hin.
    repeat (destruct Hin as [Hin|Hin];
            [inversion Hin; subst; first [contradiction | discriminate | eauto]|]).
    destruct Hin. }
  split; [reflexivity|]. split; [reflexivity|]. split; [reflexivity|].
  split; [exact Htyped|].
  exact (success_needs_exact_labels (Samples.helium_env Samples.helium_frame)
           forward_order "helium.csv" "out" None [] (snd Cases.helium_run)
           Cases.helium_result Samples.helium_frame eq_refl eq_refl eq_refl Htyped).
Defined.

(** The sample table with lower-case labels passes validation, and its
    run stops at the first chart, on the lookup of 'Organic Traffic'. *)
Example lowercase_labels_fail :
  validate_df_structure forward_order Cases.lowercase_frame = Returned (true, []) /\
  fst (run_analysis (Samples.helium_env Cases.lowercase_frame) forward_order
                    "helium.csv" "out" None [])
  = Returned (Result false ["Analysis error: 'Organic Traffic'"] [] None).
Proof. split; vm_compute; reflexivity. Qed.

End HeliumReshape.

Module HeliumWindow.
Import Py Pandas PyFacts PandasFacts Helium HeliumFacts HeliumRun HeliumReshape SortFacts.

Lemma date_leb_refl (a : date) : date_leb a a = true.
Proof.
  unfold date_leb. rewrite !Z.eqb_refl, Z.leb_refl. simpl.
  now rewrite !orb_true_r.
Qed.

Lemma date_leb_total (a b : date) : date_leb a b = true \/ date_leb b a = true.
Proof.
  unfold date_leb.
  destruct (Z.lt_total (year a) (year b)) as [H|[H|H]].
  - left. apply Z.ltb_lt in H. now rewrite H.
  - destruct (Z.lt_total (month a) (month b)) as [Hm|[Hm|Hm]].
    + left. apply Z.ltb_lt in Hm. rewrite Hm. apply Z.eqb_eq in H. rewrite H.
      now rewrite orb_true_r.
    + destruct (Z.le_ge_cases (day a) (day b)) as [Hd|Hd].
      * left. apply Z.leb_le in Hd. apply Z.eqb_eq in H, Hm. rewrite H, Hm, Hd.
        now rewrite !orb_true_r.
      * right. apply Z.leb_le in Hd. symmetry in H, Hm.
        apply Z.eqb_eq in H, Hm. rewrite H, Hm, Hd. now rewrite !orb_true_r.
    + right. apply Z.ltb_lt in Hm. rewrite Hm. symmetry in H. apply Z.eqb_eq in H.
      rewrite H. now rewrite orb_true_r.
  - right. apply Z.ltb_lt in H. now rewrite H.
Qed.

Lemma date_leb_spec (a b : date) :
  date_leb a b = true <->
  (year a < year b \/
   (year a = year b /\ (month a < month b \/ (month a = month b /\ day a <= day b))))%Z.
Proof.
  unfold date_leb.
  rewrite !orb_true_iff, !andb_true_iff, !orb_true_iff, !andb_true_iff.
  rewrite !Z.ltb_lt, !Z.eqb_eq, Z.leb_le. tauto.
Qed.

Lemma date_leb_trans (a b c : date) :
  date_leb a b = true -> date_leb b c = true -> date_leb a c = true.
Proof. rewrite !date_leb_spec. lia. Qed.

(** Dates in order fall in months in order. *)
Lemma date_leb_month_index (a b : date) :
  date_leb a b = true -> (1 <= month a <= 12)%Z -> (1 <= month b <= 12)%Z ->
  (month_index a <= month_index b)%Z.
Proof. rewrite date_leb_spec. unfold month_index. lia. Qed.

Lemma minus_one_year_before (e : date) : date_leb (minus_one_year e) e = true.
Proof. apply date_leb_spec. unfold minus_one_year. simpl. lia. Qed.

Lemma minus_one_year_month_index (e : date) :
  month_index (minus_one_year e) = (month_index e - 12)%Z.
Proof. unfold month_index, minus_one_year. simpl. lia. Qed.

Lemma index_max_In (p : pivot) (e : date) :
  index_max p = Some e -> In e (map fst (pivot_rows p)).
Proof.
  unfold index_max. destruct (rev (pivot_rows p)) as [|[d cells] t] eqn:E; [discriminate|].
  intros [= <-]. apply in_map_iff. exists (d, cells). split; auto.
  apply in_rev. rewrite E. now left.
Qed.

(** The first row of an ordered table is before its last row. *)
Lemma first_before_last {A} (R : A -> A -> Prop) (l : list A) (x y : A) (t u : list A) :
  (forall a, R a a) -> ForallOrdPairs R l ->
  l = x :: t -> rev l = y :: u -> R x y.
Proof.
  intros Hrefl Hs -> Hrev. inversion Hs as [|? ? Hx _]; subst.
  assert (Hy : In y (x :: t)) by (apply in_rev; rewrite Hrev; now left).
  destruct Hy as [<-|Hy]; auto. rewrite Forall_forall in Hx. auto.
Qed.

Section Window.

Variable w : env.

(** The typed reshaping, step by step. *)
Lemma reshape_typed (cleaned_df : frame) (labels : list (option string))
  (value_cols : list (string * list Z)) (s e : date) (df_monthly : monthly) :
  dict_get cleaned_df "Metric" = Some (ColObj labels) ->
  int_value_columns cleaned_df = Some value_cols ->
  reshape w cleaned_df = Returned (Some (s, e), df_monthly) ->
  exists p,
    pivoted w labels value_cols = Returned p /\
    index_max p = Some e /\ s = minus_one_year e /\
    df_monthly = resample_month_end (loc_range p s e).
Proof.
  intros Hm Hv Hr. unfold reshape, getcol in Hr. rewrite Hm, Hv in Hr. simpl in Hr.
  destruct (pivoted w labels value_cols) as [p|] eqn:Ep; simpl in Hr; [|discriminate].
  exists p. split; auto.
  destruct (index_max p) as [e'|].
  - inversion Hr; subst. auto.
  - destruct (empty_index_error w); inversion Hr.
Qed.

(** The index of the pivoted table is in date order. *)
Lemma pivot_sorted (labels : list (option string)) (value_cols : list (string * list Z))
  (p : pivot) :
  pivoted w labels value_cols = Returned p ->
  ForallOrdPairs (fun a b => date_leb (fst a) (fst b) = true) (pivot_rows p).
Proof.
  unfold pivoted. destruct (parse_dates w (melt labels value_cols)) as [rows|]; simpl;
    [|discriminate].
  intros [= <-]. unfold pivot_table. simpl.
  apply (map_sorted (fun a b : date * list (option Z) => date_leb (fst a) (fst b) = true)).
  simpl. unfold sort_uniq.
  apply (sort_by_sorted date date_leb (fun _ => True)).
  - intros x y _ _. apply date_leb_total.
  - intros x y z _ _ _. apply date_leb_trans.
  - apply Forall_forall. auto.
Qed.

(** The rows of the monthly table of a window. *)
Lemma monthly_rows_count (p : pivot) (e : date) :
  (forall d, In d (map fst (pivot_rows p)) -> (1 <= month d <= 12)%Z) ->
  ForallOrdPairs (fun a b => date_leb (fst a) (fst b) = true) (pivot_rows p) ->
  index_max p = Some e ->
  (1 <= List.length (monthly_rows (resample_month_end (loc_range p (minus_one_year e) e)))
   <= 13)%nat.
Proof.
  intros Hvalid Hsorted He.
  unfold resample_month_end. simpl. rewrite length_map.
  set (keep := fun r : date * list (option Z) =>
                 date_leb (minus_one_year e) (fst r) && date_leb (fst r) e).
  set (rows := filter keep (pivot_rows p)).
  assert (Hin : forall r, In r rows ->
            (month_index e - 12 <= month_index (fst r) <= month_index e)%Z).
  { intros r Hr. apply filter_In in Hr. destruct Hr as [Hr Hk].
    unfold keep in Hk. apply andb_true_iff in Hk. destruct Hk as [H1 H2].
    assert (Hmr : (1 <= month (fst r) <= 12)%Z).
    { apply Hvalid. now apply in_map. }
    assert (Hme : (1 <= month e <= 12)%Z).
    { apply Hvalid. now apply index_max_In. }
    rewrite <- minus_one_year_month_index. split.
    - apply date_leb_month_index; auto.
    - apply date_leb_month_index; auto. }
  assert (Hsorted' : ForallOrdPairs (fun a b => date_leb (fst a) (fst b) = true) rows).
  { now apply filter_sorted. }
  assert (Hne : rows <> []).
  { apply index_max_In in He. apply in_map_iff in He. destruct He as ([d cells] & Hd & Hr).
    simpl in Hd. subst d. intros Hnil.
    assert (Hr' : In (e, cells) rows).
    { apply filter_In. split; auto. unfold keep. simpl.
      now rewrite minus_one_year_before, date_leb_refl. }
    rewrite Hnil in Hr'. destruct Hr'. }
  unfold month_bins.
  destruct rows as [|[first c1] t] eqn:Erows; [contradiction|].
  destruct (rev ((first, c1) :: t)) as [|[last c2] u] eqn:Erev.
  { apply (f_equal (@List.length _)) in Erev. rewrite length_rev in Erev. discriminate. }
  rewrite length_map, length_seq.
  assert (Hfl : date_leb first last = true).
  { apply (first_before_last (fun a b : date * list (option Z) => date_leb (fst a) (fst b) = true)
             ((first, c1) :: t) (first, c1) (last, c2) t u); auto.
    intros a. apply date_leb_refl. }
  assert (H1 : In (first, c1) ((first, c1) :: t)) by now left.
  assert (H2 : In (last, c2) ((first, c1) :: t)).
  { apply in_rev. rewrite Erev. now left. }
  pose proof (Hin _ H1) as B1. pose proof (Hin _ H2) as B2. simpl in B1, B2.
  assert (Hord : (month_index first <= month_index last)%Z).
  { apply date_leb_month_index; auto.
    - apply Hvalid. apply in_map_iff. exists (first, c1). split; auto.
      assert (Hf : In (first, c1) (filter keep (pivot_rows p))) by (fold rows; rewrite Erows; auto).
      apply filter_In in Hf. tauto.
    - apply Hvalid. apply in_map_iff. exists (last, c2). split; auto.
      assert (Hf : In (last, c2) (filter keep (pivot_rows p))) by (fold rows; rewrite Erows; auto).
      apply filter_In in Hf. tauto. }
  lia.
Qed.

Lemma build_summary_window (window : option (date * date)) (df_monthly : monthly)
  (sm : summary) :
  build_summary w window df_monthly = Returned sm ->
  exists s e, window = Some (s, e) /\
              date_range_start sm = strftime s /\ date_range_end sm = strftime e.
Proof.
  unfold build_summary, obind. intros H.
  repeat (inner_case H; try discriminate).
  inversion H; subst. simpl. eauto.
Qed.

Variable o : set_order.

(** X11: after a successful time-series run, the monthly table written
    as the processed CSV has at least 1 and at most 13 rows: the window
    runs from the latest date back to the same day one year before, both
    ends included, and every month between the first and the last date of
    the window gets a row.  The value columns of the table are taken to
    be [int64] columns, and the dates parsed to have a month from 1 to
    12. *)
Theorem monthly_table_has_1_to_13_rows (input_file output_dir : string)
  (config : option dict) (disk disk' : fs monthly) (r : result summary) (df : frame) :
  run_analysis w o input_file output_dir config disk = (Returned r, disk') ->
  success r = true ->
  read_csv w input_file = Returned df ->
  (forall n c, In (n, c) df -> n <> "Metric"%string -> mem n dropping_cols = false ->
               exists xs, c = ColInt xs) ->
  (forall c d, to_datetime w c = Some d -> (1 <= month d <= 12)%Z) ->
  exists table,
    dict_get disk' (path_join output_dir "processed_monthly_data.csv")
    = Some (CsvFile table) /\
    (1 <= List.length (monthly_rows table) <= 13)%nat.
Proof.
  intros H Hs Hd Htyped Hmonths.
  destruct (helium_run_success w o _ _ _ _ _ _ H Hs)
    as (df' & window & df_monthly & sm & Hd' & Hv & Hr & _ & Hb & _ & _ & Hcsv).
  rewrite Hd in Hd'. inversion Hd'; subst df'. clear Hd'.
  exists df_monthly. split; [exact Hcsv|].
  destruct (build_summary_window _ _ _ Hb) as (s & e & -> & _).
  destruct (metric_kept o df Hv) as (labels & _ & Hmc & _).
  destruct (int_value_columns_total (clean_columns df)) as (value_cols & Hvc).
  { intros n c Hin Hn. apply clean_columns_In in Hin.
    destruct Hin as (Hin & Hdrop & _). eauto. }
  destruct (reshape_typed _ _ _ _ _ _ Hmc Hvc Hr) as (p & Hp & He & -> & ->).
  apply monthly_rows_count; auto.
  - intros d Hin. destruct (pivot_index_source w _ _ _ _ Hp Hin) as (n & _ & Hn). eauto.
  - eapply pivot_sorted; eauto.
Qed.

End Window.

(** The check of [monthly_table_has_1_to_13_rows] on the sample run,
    whose monthly table has the rows of January, February and March
    2024. *)
Lemma monthly_table_has_1_to_13_rows_witness :
  run_analysis (Samples.helium_env Samples.helium_frame) forward_order
               "helium.csv" "out" None []
  = (Returned Cases.helium_result, snd Cases.helium_run) /\
  success Cases.helium_result = true /\
  read_csv (Samples.helium_env Samples.helium_frame) "helium.csv"
  = Returned Samples.helium_frame /\
  (forall n c, In (n, c) Samples.helium_frame -> n <> "Metric"%string ->
               mem n dropping_cols = false -> exists xs, c = ColInt xs) /\
  (forall c d, to_datetime (Samples.helium_env Samples.helium_frame) c = Some d ->
               (1 <= month d <= 12)%Z) /\
  exists table,
    dict_get (snd Cases.helium_run) (path_join "out" "processed_monthly_data.csv")
    = Some (CsvFile table) /\
    (1 <= List.length (monthly_rows table) <= 13)%nat.
Proof.
  assert (Htyped : forall n c, In (n, c) Samples.helium_frame -> n <> "Metric"%string ->
                     mem n dropping_cols = false -> exists xs, c = ColInt xs).
  { intros n c Hin Hn Hdrop. simpl in Hin.
    repeat (destruct Hin as [Hin|Hin];
            [inversion Hin; subst; first [contradiction | discriminate | eauto]|]).
    destruct Hin. }
  assert (Hmonths : forall c d, to_datetime (Samples.helium_env Samples.helium_frame) c = Some d ->
                      (1 <= month d <= 12)%Z).
  { intros c d. simpl. unfold Samples.iso_date.
    destruct (chars c) as [|y1 [|y2 [|y3 [|y4 [|c1 [|m1 [|m2 [|c2 [|d1 [|d2 [|]]]]]]]]]]];
      try discriminate.
    destruct (is_date_label c); [|discriminate].
    match goal with
    | |- context [if ?b then _ else _] => destruct b eqn:E; [|discriminate]
    end.
    intros [= <-]. simpl. rewrite !andb_true_iff, !Z.leb_le in E. lia. }
  split; [reflexivity|]. split; [reflexivity|]. split; [reflexivity|].
  split; [exact Htyped|]. split; [exact Hmonths|].
  exact (monthly_table_has_1_to_13_rows (Samples.helium_env Samples.helium_frame)
           forward_order "helium.csv" "out" None [] (snd Cases.helium_run)
           Cases.helium_result Samples.helium_frame eq_refl eq_refl eq_refl Htyped Hmonths).
Defined.

End HeliumWindow.

Module KeywordsReconcile.
Import Py Pandas PyFacts PandasFacts Keywords KeywordsFacts SortFacts.
Import ChannelOrder ChannelsSummary.

Lemma flat_map_filter {A B} (f : A -> list B) (p : A -> bool) (l : list A) :
  (forall x, In x l -> p x = false -> f x = []) ->
  flat_map f (filter p l) = flat_map f l.
Proof.
  induction l as [|x t IH]; simpl; intros H; [reflexivity|].
  destruct (p x) eqn:E; simpl.
  - rewrite IH; auto.
  - rewrite (H x) by auto. simpl. apply IH. auto.
Qed.

Lemma in_group_has_intents (k : key) (r : cleaned_row) :
  in_group k r = true ->
  match c_intents r with Some _ => true | None => false end = true.
Proof. unfold in_group, key_of. destruct (c_intents r); auto. Qed.

Section Reconcile.

Variable w : env.

Lemma groupby_agg_with_intents (rows : list cleaned_row) :
  groupby_agg w rows
  = groupby_agg w (filter (fun r => match c_intents r with
                                    | Some _ => true
                                    | None => false
                                    end) rows).
Proof.
  unfold groupby_agg, group_keys.
  rewrite (flat_map_filter _ (fun r => match c_intents r with
                                        | Some _ => true
                                        | None => false
                                        end) rows).
  2:{ intros r _ Hr. unfold key_of. destruct (c_intents r); [discriminate|reflexivity]. }
  apply map_ext. intros k.
  rewrite HeliumFacts.filter_absorb; [reflexivity|].
  intros r _. apply in_group_has_intents.
Qed.

(** Every reconciled row is the row of the key of some input row. *)
Lemma reconcile_source (rows : list cleaned_row) (out : reconciled_row) :
  In out (reconcile w rows) ->
  exists r, In r rows /\ key_of r = Some (row_key out).
Proof.
  unfold reconcile. intros H.
  apply (Permutation_in _ (sort_by_perm ranks_before (groupby_agg w rows))) in H.
  unfold groupby_agg in H. apply in_map_iff in H. destruct H as (k & <- & Hk).
  apply group_keys_In in Hk. destruct Hk as (r & Hr & Hkey).
  exists r. split; auto. rewrite Hkey. destruct k as [[a b] c]. reflexivity.
Qed.

(** X12: a row whose 'Keyword Intents' cell is missing falls in no
    group: the reconciled table is the one computed from the rows that
    have an intents string, and every row of it carries the key (keyword,
    month, intents string) of an input row. *)
Theorem rows_without_intents_are_dropped (rows : list cleaned_row) :
  reconcile w rows
  = reconcile w (filter (fun r => match c_intents r with
                                  | Some _ => true
                                  | None => false
                                  end) rows) /\
  forall out, In out (reconcile w rows) ->
    exists r, In r rows /\ c_intents r = Some (r_intents out) /\
              c_keyword r = r_keyword out /\ c_month r = r_month out.
Proof.
  split.
  - unfold reconcile. now rewrite groupby_agg_with_intents.
  - intros out Hout. destruct (reconcile_source _ _ Hout) as (r & Hr & Hk).
    exists r. split; auto. unfold key_of, row_key in Hk.
    destruct (c_intents r) as [i|]; [|discriminate].
    inversion Hk. auto.
Qed.

Lemma int_cells (cells : list num) :
  (forall c, In c cells -> exists z, c = IntCell z) ->
  exists zs, cells = map IntCell zs.
Proof.
  induction cells as [|c t IH]; intros H; [now exists []|].
  destruct IH as (zs & ->); [intros; apply H; now right|].
  destruct (H c (or_introl eq_refl)) as (z & ->). now exists (z :: zs).
Qed.

(** The rows of the grouped table of integer cells hold integers: the sum
    of the traffic and the maximum of the search volume of the group. *)
Lemma groupby_agg_ints (rows : list cleaned_row) (out : reconciled_row) :
  (forall r, In r rows -> exists t v, c_traffic r = IntCell t /\ c_volume r = IntCell v) ->
  In out (groupby_agg w rows) ->
  exists ts v,
    map c_traffic (filter (in_group (row_key out)) rows) = map IntCell ts /\
    r_traffic out = IntCell (sum64 ts) /\ r_volume out = IntCell v.
Proof.
  intros Hint Hout. unfold groupby_agg in Hout.
  apply in_map_iff in Hout. destruct Hout as (k & <- & Hk).
  assert (Hkey : row_key (Reconciled (fst (fst k)) (snd (fst k)) (snd k)
                            (agg_sum w (map c_traffic (filter (in_group k) rows)))
                            (agg_max (map c_volume (filter (in_group k) rows)))) = k).
  { destruct k as [[a b] c]. reflexivity. }
  rewrite Hkey. simpl.
  destruct (int_cells (map c_traffic (filter (in_group k) rows))) as (ts & Ets).
  { intros c Hc. apply in_map_iff in Hc. destruct Hc as (r & <- & Hr).
    apply filter_In in Hr. destruct (Hint r (proj1 Hr)) as (t & v & Ht & _). eauto. }
  destruct (int_cells (map c_volume (filter (in_group k) rows))) as (vs & Evs).
  { intros c Hc. apply in_map_iff in Hc. destruct Hc as (r & <- & Hr).
    apply filter_In in Hr. destruct (Hint r (proj1 Hr)) as (t & v & _ & Hv). eauto. }
  exists ts. rewrite Ets, Evs. unfold agg_sum. rewrite all_int_cells.
  destruct vs as [|v vs].
  - exists 0%Z. auto.
  - rewrite agg_max_ints. eauto.
Qed.

Lemma ranks_before_ints (a b : reconciled_row) (ta va tb vb : Z) :
  r_traffic a = IntCell ta -> r_volume a = IntCell va ->
  r_traffic b = IntCell tb -> r_volume b = IntCell vb ->
  (ranks_before a b = true <-> (tb < ta \/ (ta = tb /\ vb <= va))%Z).
Proof.
  unfold ranks_before. intros -> -> -> ->. simpl.
  rewrite orb_true_iff, andb_true_iff, negb_true_iff, Z.ltb_lt, Z.eqb_eq, Z.ltb_ge.
  tauto.
Qed.

Lemma sorted_impl {A} (R R' : A -> A -> Prop) (P : A -> Prop) (l : list A) :
  (forall a b, P a -> P b -> R a b -> R' a b) ->
  Forall P l -> ForallOrdPairs R l -> ForallOrdPairs R' l.
Proof.
  intros Himp HP Hs. induction Hs as [|x t Hx Ht IH]; [constructor|].
  inversion HP as [|? ? Px Pt]; subst. constructor; auto.
  rewrite Forall_forall in *. intros y Hy. apply Himp; auto.
Qed.

(** X13: the reconciled table of integer cells is in descending order of
    Traffic, rows of one Traffic in descending order of Search Volume. *)
Theorem reconciled_rows_are_ranked (rows : list cleaned_row) :
  (forall r, In r rows -> exists t v, c_traffic r = IntCell t /\ c_volume r = IntCell v) ->
  ForallOrdPairs
    (fun a b => exists ta va tb vb,
       r_traffic a = IntCell ta /\ r_volume a = IntCell va /\
       r_traffic b = IntCell tb /\ r_volume b = IntCell vb /\
       (tb < ta \/ (ta = tb /\ vb <= va))%Z)
    (reconcile w rows).
Proof.
  intros Hint. unfold reconcile.
  set (P := fun r : reconciled_row =>
              exists t v, r_traffic r = IntCell t /\ r_volume r = IntCell v).
  assert (HP : Forall P (groupby_agg w rows)).
  { apply Forall_forall. intros out Hout.
    destruct (groupby_agg_ints rows out Hint Hout) as (ts & v & _ & Ht & Hv).
    unfold P. eauto. }
  apply (sorted_impl (fun a b => ranks_before a b = true) _ P).
  - intros a b (ta & va & Hta & Hva) (tb & vb & Htb & Hvb) Hr.
    exists ta, va, tb, vb. repeat split; auto.
    now apply (ranks_before_ints a b ta va tb vb Hta Hva Htb Hvb).
  - apply Forall_forall. intros out Hout.
    apply (proj1 (sort_by_In _ ranks_before out _)) in Hout.
    rewrite Forall_forall in HP. auto.
  - apply (sort_by_sorted _ ranks_before P); auto.
    + intros a b (ta & va & Hta & Hva) (tb & vb & Htb & Hvb).
      rewrite (ranks_before_ints a b ta va tb vb), (ranks_before_ints b a tb vb ta va); auto.
      lia.
    + intros a b c (ta & va & Hta & Hva) (tb & vb & Htb & Hvb) (tc & vc & Htc & Hvc).
      rewrite (ranks_before_ints a b ta va tb vb), (ranks_before_ints b c tb vb tc vc),
        (ranks_before_ints a c ta va tc vc); auto.
      lia.
Qed.

Lemma sum_indicator (ks : list key) (k0 : key) (v : Z) :
  NoDup ks ->
  sumZ (map (fun k => if key_eqb k0 k then v else 0%Z) ks)
  = if existsb (key_eqb k0) ks then v else 0%Z.
Proof.
  induction ks as [|k t IH]; simpl; intros Hnd; [reflexivity|].
  inversion Hnd as [|? ? Hnotin Ht]; subst. rewrite sumZ_cons, (IH Ht).
  destruct (key_eqb k0 k) eqn:E; simpl; [|lia].
  apply key_eqb_eq in E. subst k.
  destruct (existsb (key_eqb k0) t) eqn:Ex; [|lia].
  apply existsb_exists in Ex. destruct Ex as (k & Hk & Ek).
  apply key_eqb_eq in Ek. subst k. contradiction.
Qed.

(** The groups split the rows that have a key. *)
Lemma partition_sum (f : cleaned_row -> Z) (ks : list key) (rows : list cleaned_row) :
  NoDup ks ->
  (forall r k, In r rows -> key_of r = Some k -> In k ks) ->
  sumZ (map (fun k => sumZ (map f (filter (in_group k) rows))) ks)
  = sumZ (map f (filter (fun r => match c_intents r with
                                   | Some _ => true
                                   | None => false
                                   end) rows)).
Proof.
  intros Hnd. induction rows as [|r t IH]; intros Hall.
  - simpl. apply sumZ_map_zero.
  - assert (IH' := IH (fun r' k Hr => Hall r' k (or_intror Hr))). clear IH.
    destruct (key_of r) as [k0|] eqn:Ek.
    + assert (Hsome : c_intents r = Some (snd k0)).
      { unfold key_of in Ek. destruct (c_intents r); inversion Ek. reflexivity. }
      simpl. rewrite Hsome. simpl. rewrite sumZ_cons, <- IH'.
      rewrite (map_ext _ (fun k => ((if key_eqb k0 k then f r else 0)
                                    + sumZ (map f (filter (in_group k) t)))%Z)).
      2:{ intros k. unfold in_group at 1. rewrite Ek.
          destruct (key_eqb k0 k); simpl; [apply sumZ_cons|lia]. }
      rewrite sumZ_map_add, sum_indicator by exact Hnd.
      assert (Hex : existsb (key_eqb k0) ks = true).
      { apply existsb_exists. exists k0. split.
        - apply (Hall r k0); auto. now left.
        - now apply key_eqb_eq. }
      now rewrite Hex.
    + assert (Hnone : c_intents r = None).
      { unfold key_of in Ek. destruct (c_intents r); [discriminate|reflexivity]. }
      simpl. rewrite Hnone, <- IH'. f_equal. apply map_ext. intros k.
      unfold in_group at 1. now rewrite Ek.
Qed.

(** X14: reconciling the duplicates keeps the traffic: over integer
    cells, the Traffic of the reconciled rows and the Traffic of the input
    rows that have an intents string have the same sum modulo 2^64, and
    the same sum when the traffic of no group overflows 64 bits. *)
Theorem reconcile_keeps_total_traffic (rows : list cleaned_row) :
  (forall r, In r rows -> exists t, c_traffic r = IntCell t) ->
  let with_intents := filter (fun r => match c_intents r with
                                       | Some _ => true
                                       | None => false
                                       end) rows in
  wrap64 (sumZ (map (fun out => num_to_int64 (r_traffic out)) (reconcile w rows)))
  = wrap64 (sumZ (map (fun r => num_to_int64 (c_traffic r)) with_intents)) /\
  ((forall k, in_int64 (sumZ (map (fun r => num_to_int64 (c_traffic r))
                                  (filter (in_group k) rows)))) ->
   sumZ (map (fun out => num_to_int64 (r_traffic out)) (reconcile w rows))
   = sumZ (map (fun r => num_to_int64 (c_traffic r)) with_intents)).
Proof.
  intros Hint with_intents.
  set (g := fun r : cleaned_row => num_to_int64 (c_traffic r)).
  assert (Hperm : sumZ (map (fun out => num_to_int64 (r_traffic out)) (reconcile w rows))
                  = sumZ (map (fun k => sum64 (map g (filter (in_group k) rows)))
                              (group_keys rows))).
  { unfold reconcile.
    rewrite (sumZ_Permutation _ _
               (Permutation_map _ (sort_by_perm ranks_before (groupby_agg w rows)))).
    unfold groupby_agg. rewrite map_map. f_equal. apply map_ext. intros k. simpl.
    destruct (int_cells (map c_traffic (filter (in_group k) rows))) as (ts & Ets).
    { intros c Hc. apply in_map_iff in Hc. destruct Hc as (r & <- & Hr).
      apply filter_In in Hr. exact (Hint r (proj1 Hr)). }
    rewrite Ets. unfold agg_sum. rewrite all_int_cells. simpl. f_equal.
    unfold g. rewrite <- (map_map c_traffic num_to_int64), Ets, map_map. simpl.
    now rewrite map_id. }
  assert (Hpart : sumZ (map (fun k => sumZ (map g (filter (in_group k) rows)))
                            (group_keys rows))
                  = sumZ (map g with_intents)).
  { apply partition_sum.
    - apply (sort_uniq_NoDup key_eqb key_eqb_eq).
    - intros r k Hr Hk. apply group_keys_In. eauto. }
  rewrite Hperm, <- Hpart. split.
  - rewrite <- (map_map (fun k => map g (filter (in_group k) rows)) sum64).
    rewrite wrap64_sum_of_sums. now rewrite map_map.
  - intros Hfit. f_equal. apply map_ext. intros k. apply sum64_exact. apply Hfit.
Qed.

End Reconcile.

(** The check of [reconcile_keeps_total_traffic] on the sample
    duplicates, whose traffic is 10, 7 and 5. *)
Lemma reconcile_keeps_total_traffic_witness :
  (forall r, In r Samples.duplicate_rows -> exists t, c_traffic r = IntCell t) /\
  sumZ (map (fun out => num_to_int64 (r_traffic out))
            (reconcile (Samples.keyword_env []) Samples.duplicate_rows)) = 22%Z /\
  wrap64 (sumZ (map (fun out => num_to_int64 (r_traffic out))
                    (reconcile (Samples.keyword_env []) Samples.duplicate_rows)))
  = wrap64 (sumZ (map (fun r => num_to_int64 (c_traffic r))
                      (filter (fun r => match c_intents r with
                                        | Some _ => true
                                        | None => false
                                        end) Samples.duplicate_rows))).
Proof.
  assert (H : forall r, In r Samples.duplicate_rows -> exists t, c_traffic r = IntCell t).
  { intros r Hr. simpl in Hr.
    repeat (destruct Hr as [<-|Hr]; [simpl; eauto|]). destruct Hr. }
  split; [exact H|]. split; [reflexivity|].
  exact (proj1 (reconcile_keeps_total_traffic (Samples.keyword_env [])
                  Samples.duplicate_rows H)).
Defined.

(** The check of [reconciled_rows_are_ranked] on the sample duplicates. *)
Lemma reconciled_rows_are_ranked_witness :
  (forall r, In r Samples.duplicate_rows ->
             exists t v, c_traffic r = IntCell t /\ c_volume r = IntCell v) /\
  ForallOrdPairs
    (fun a b => exists ta va tb vb,
       r_traffic a = IntCell ta /\ r_volume a = IntCell va /\
       r_traffic b = IntCell tb /\ r_volume b = IntCell vb /\
       (tb < ta \/ (ta = tb /\ vb <= va))%Z)
    (reconcile (Samples.keyword_env []) Samples.duplicate_rows).
Proof.
  assert (H : forall r, In r Samples.duplicate_rows ->
                        exists t v, c_traffic r = IntCell t /\ c_volume r = IntCell v).
  { intros r Hr. simpl in Hr.
    repeat (destruct Hr as [<-|Hr]; [simpl; eauto|]). destruct Hr. }
  split; [exact H|].
  exact (reconciled_rows_are_ranked (Samples.keyword_env []) Samples.duplicate_rows H).
Defined.

End KeywordsReconcile.

Module KeywordsClean.
Import Py Pandas PyFacts PandasFacts Keywords KeywordsFacts KeywordsClaims KeywordsReconcile.

Lemma zip_rows_keyword (keywords : list (option string)) (months : list (option Z))
  (intents : list (option string)) (traffic volume : list num) (p : parsed_row) :
  In p (zip_rows keywords months intents traffic volume) -> In (p_keyword p) keywords.
Proof.
  revert months intents traffic volume.
  induction keywords as [|k ks IH]; intros [|m ms] [|i is_] [|t ts] [|v vs] H;
    simpl in H; try contradiction.
  destruct H as [<-|H]; [now left|]. right. eapply IH; eauto.
Qed.

Lemma drop_invalid_In (rows : list parsed_row) (c : cleaned_row) :
  In c (drop_invalid rows) ->
  c_keyword c <> ""%string /\ exists p, In p rows /\ p_keyword p = Some (c_keyword c).
Proof.
  unfold drop_invalid. rewrite in_flat_map. intros (p & Hp & Hc).
  destruct (p_keyword p) as [k|] eqn:Ek; [|destruct Hc].
  destruct (p_month p) as [m|]; [|destruct Hc].
  destruct (String.eqb k "") eqn:E; [destruct Hc|].
  destruct Hc as [<-|[]]. simpl. split; [now apply String.eqb_neq|eauto].
Qed.

Lemma normal_intent (part : string) :
  lower (lower (strip part)) = lower (strip part)
  /\ strip (lower (strip part)) = lower (strip part).
Proof. split; [apply lower_idem|apply cleaned_text_trimmed]. Qed.

Section Clean.

Variable w : env.
Variable o : set_order.

(** The keywords of the reconciled table. *)
Lemma reconciled_keywords (cleaned_df : frame) (reconciled : list reconciled_row)
  (out : reconciled_row) :
  reconciled_of w cleaned_df = Returned reconciled -> In out reconciled ->
  r_keyword out <> ""%string /\
  lower (r_keyword out) = r_keyword out /\ strip (r_keyword out) = r_keyword out.
Proof.
  unfold reconciled_of, obind. intros H Hout.
  repeat (inner_case H; try discriminate).
  inversion H; subst reconciled. clear H.
  destruct (reconcile_source w _ _ Hout) as (c & Hc & Hk).
  assert (Hkw : c_keyword c = r_keyword out).
  { unfold key_of, row_key in Hk. destruct (c_intents c); inversion Hk. reflexivity. }
  destruct (drop_invalid_In _ _ Hc) as (Hne & p & Hp & Hpk).
  apply zip_rows_keyword in Hp. rewrite Hpk, map_map in Hp.
  apply in_map_iff in Hp. destruct Hp as ([s|] & Hs & _); [|discriminate].
  simpl in Hs. inversion Hs as [Hs']. rewrite <- Hkw. split; auto.
  rewrite <- Hs'. split; [apply lower_idem|apply cleaned_text_trimmed].
Qed.

(** The rows of the table [clean_df] returns. *)
Lemma cleaned_row_facts (raw_df : frame) (required_cols valid_intents : pyset)
  (cleaned : list clean_row) (row : clean_row) :
  clean_df w o raw_df required_cols valid_intents = Returned (Some cleaned) ->
  In row cleaned ->
  cr_keyword row <> ""%string /\
  lower (cr_keyword row) = cr_keyword row /\ strip (cr_keyword row) = cr_keyword row /\
  In (cr_intent row) valid_intents /\
  lower (cr_intent row) = cr_intent row /\ strip (cr_intent row) = cr_intent row.
Proof.
  unfold clean_df, obind. intros H Hrow.
  destruct (select raw_df (iter o required_cols)) as [cleaned_df|]; [|discriminate].
  destruct (reconciled_of w cleaned_df) as [reconciled|] eqn:Er; [|discriminate].
  unfold finish_clean, obind in H.
  repeat (inner_case H; try discriminate).
  inversion H; subst cleaned. clear H.
  apply in_map_iff in Hrow. destruct Hrow as ([[out intent] [t v]] & <- & Hx). simpl.
  apply in_combine_l in Hx.
  pose proof (process_intents_source _ _ _ Hx) as Hsrc. simpl in Hsrc.
  destruct (reconciled_keywords _ _ _ Er Hsrc) as (H1 & H2 & H3).
  split; auto. split; auto. split; auto.
  unfold process_intents in Hx. apply filter_In in Hx. destruct Hx as [Hx Hv].
  simpl in Hv. split; [now apply mem_In|].
  apply in_map_iff in Hx. destruct Hx as ([out' part] & E & _). simpl in E.
  inversion E; subst. apply normal_intent.
Qed.


End Clean.


End KeywordsClean.

Module KeywordsEdges.
Import Py Pandas PyFacts PandasFacts Keywords KeywordsFacts KeywordsClaims.

Section Edges.

Variable w : env.
Variable o : set_order.

(** X16: the brand keywords of [config] are joined inside the [try]
    block: when they are [None] or a number, a run on a table that passes
    validation and cleaning returns [success = false] with the error
    "Analysis error: can only join an iterable", no artifact, and the disk
    as it was. *)
Theorem brand_keywords_not_iterable_reported (input_file output_dir : string)
  (config : option dict) (disk : fs (list row)) (df : frame)
  (required_cols valid_intents : pyset) (cleaned : list clean_row) (v : cfgval) :
  required_columns config = Returned required_cols ->
  valid_intents_of config = Returned valid_intents ->
  read_csv w input_file = Returned df ->
  validate_df_structure w o df required_cols = Returned (true, []) ->
  clean_df w o df required_cols valid_intents = Returned (Some cleaned) ->
  cfg_get (config_dict config) "brand_keywords" (CfgList default_brands) = v ->
  v = CfgNone \/ (exists z, v = CfgInt z) ->
  run_analysis w o input_file output_dir config disk
  = (Returned (Result false ["Analysis error: can only join an iterable"] [] None), disk).
Proof.
  intros Hr Hi Hd Hv Hc Hb Hbad.
  unfold run_analysis. rewrite Hr, Hi, Hb.
  unfold try_except, analysis_body, bind, lift. rewrite Hd. simpl.
  rewrite Hv. simpl. rewrite Hc. simpl.
  destruct Hbad as [->|(z & ->)]; reflexivity.
Qed.


(** What a successful keyword run leaves as its summary. *)
Lemma keyword_run_summary (input_file output_dir : string)
  (config : option dict) (disk disk' : fs (list row)) (r : result summary) :
  run_analysis w o input_file output_dir config disk = (Returned r, disk') ->
  success r = true ->
  exists valid_intents filtered_df range df required_cols cleaned brand_pattern,
    valid_intents_of config = Returned valid_intents /\
    clean_df w o df required_cols valid_intents = Returned (Some cleaned) /\
    (forall row, In row filtered_df -> In row (map (add_category w brand_pattern) cleaned)) /\
    Pandas.summary r = Some (build_summary filtered_df range) /\
    dict_get disk' (path_join output_dir "keyword_analysis.csv") = Some (CsvFile filtered_df).
Proof.
  unfold run_analysis. intros H Hs.
  destruct (required_columns config) as [required_cols|] eqn:Er; [|discriminate].
  destruct (valid_intents_of config) as [valid_intents|] eqn:En; [|discriminate].
  exists valid_intents.
  unfold try_except, analysis_body, bind, lift in H.
  destruct (read_csv w input_file) as [df|] eqn:Ed; simpl in H;
    [|inversion H; subst; discriminate].
  destruct (validate_df_structure w o df required_cols) as [[ok errs]|] eqn:Ev;
    simpl in H; [|inversion H; subst; discriminate].
  destruct ok; simpl in H; [|inversion H; subst; discriminate].
  destruct (clean_df w o df required_cols valid_intents) as [[cleaned|]|] eqn:Ec;
    simpl in H; try (inversion H; subst; discriminate).
  destruct (py_join "|" _) as [brand_pattern|] eqn:Ej; simpl in H;
    [|inversion H; subst; discriminate].
  unfold makedirs, save_chart, save_csv, check, bind, get, modify, ret, raise, lift in H.
  simpl in H.
  destruct (regex_error w brand_pattern) eqn:Ere; simpl in H;
    [inversion H; subst; discriminate|].
  destruct (makedirs_error w output_dir) eqn:Em; simpl in H;
    [inversion H; subst; discriminate|].
  destruct (dict_get disk output_dir) as [[| |]|] eqn:Edir; simpl in H;
    try (inversion H; subst; discriminate).
  all: destruct (date_range w (config_dict config) (map (add_category w brand_pattern) cleaned))
    as [range|] eqn:Edr; simpl in H; [|inversion H; subst; discriminate].
  all: exists (filter_window (fst (fst range)) (snd (fst range))
                 (map (add_category w brand_pattern) cleaned)), (snd range),
         df, required_cols, cleaned, brand_pattern.
  all: repeat (inner_case H; try (inversion H; subst; discriminate)).
  all: inversion H; subst; simpl in *.
  all: repeat split; try first [reflexivity | eassumption | apply dict_get_set_same].
  all: intros row Hrow; unfold filter_window in Hrow; apply filter_In in Hrow; tauto.
Qed.

Lemma drop_duplicates_In {K} (eqb : K -> K -> bool) (key_fn : row -> K)
  (seen : list K) (rows : list row) (x : row) :
  In x (drop_duplicates eqb key_fn seen rows) -> In x rows.
Proof.
  revert seen. induction rows as [|r rest IH]; simpl; intros seen H; [exact H|].
  destruct (existsb (eqb (key_fn r)) seen).
  - right. eapply IH; eauto.
  - destruct H as [<-|H]; [now left|]. right. eapply IH; eauto.
Qed.

(** X18: after a successful keyword run, the intents of the summary's
    [intent_breakdown] are listed once each, every one a valid intent
    carried by a row of the processed CSV, and every row of the processed
    CSV has a keyword that is not empty and an intent that is valid. *)
Theorem summary_intents_are_valid (input_file output_dir : string)
  (config : option dict) (disk disk' : fs (list row)) (r : result summary) :
  run_analysis w o input_file output_dir config disk = (Returned r, disk') ->
  success r = true ->
  exists valid_intents rows sm,
    valid_intents_of config = Returned valid_intents /\
    dict_get disk' (path_join output_dir "keyword_analysis.csv") = Some (CsvFile rows) /\
    Pandas.summary r = Some sm /\
    NoDup (map fst (intent_breakdown sm)) /\
    (forall i v, In (i, v) (intent_breakdown sm) ->
       In i valid_intents /\ exists x, In x rows /\ Intent x = i) /\
    (forall x, In x rows -> Keyword x <> ""%string /\ In (Intent x) valid_intents).
Proof.
  intros H Hs.
  destruct (keyword_run_summary _ _ _ _ _ _ H Hs)
    as (valid & rows & range & df & req & cleaned & pat & Hv & Hc & Hsub & Hsm & Hcsv).
  exists valid, rows, (build_summary rows range).
  split; [exact Hv|]. split; [exact Hcsv|]. split; [exact Hsm|].
  assert (Hrows : forall x, In x rows -> Keyword x <> ""%string /\ In (Intent x) valid).
  { intros x Hx. apply Hsub in Hx. apply in_map_iff in Hx. destruct Hx as (c & <- & Hin).
    destruct (KeywordsClean.cleaned_row_facts w o _ _ _ _ _ Hc Hin)
      as (H1 & _ & _ & H4 & _).
    simpl. auto. }
  simpl. unfold intent_totals, traffic_by. rewrite map_map. simpl. rewrite map_id.
  split; [apply (sort_uniq_NoDup String.eqb String.eqb_eq)|]. split; [|exact Hrows].
  intros i v Hin. apply in_map_iff in Hin. destruct Hin as (l & E & Hl).
  inversion E; subst l. clear E.
  apply (sort_uniq_In String.eqb String.eqb_eq) in Hl.
  apply in_map_iff in Hl. destruct Hl as (x & Hxi & Hx).
  apply drop_duplicates_In in Hx. split.
  - rewrite <- Hxi. now apply Hrows.
  - eauto.
Qed.

End Edges.

(** The check of [brand_keywords_not_iterable_reported] on the sample
    export, with the number 5 as brand keywords. *)
Lemma brand_keywords_not_iterable_reported_witness :
  required_columns (Some Cases.brand_number_config) = Returned default_required /\
  valid_intents_of (Some Cases.brand_number_config) = Returned default_intents /\
  read_csv (Samples.keyword_env Samples.keyword_frame) "keywords.csv"
  = Returned Samples.keyword_frame /\
  validate_df_structure (Samples.keyword_env Samples.keyword_frame) forward_order
                        Samples.keyword_frame default_required
  = Returned (true, []) /\
  clean_df (Samples.keyword_env Samples.keyword_frame) forward_order Samples.keyword_frame
           default_required default_intents
  = Returned (Some Cases.keyword_cleaned) /\
  cfg_get (config_dict (Some Cases.brand_number_config)) "brand_keywords"
          (CfgList default_brands) = CfgInt 5 /\
  (CfgInt 5 = CfgNone \/ (exists z, CfgInt 5 = CfgInt z)) /\
  run_analysis (Samples.keyword_env Samples.keyword_frame) forward_order
               "keywords.csv" "out" (Some Cases.brand_number_config) []
  = (Returned (Result false ["Analysis error: can only join an iterable"] [] None), []).
Proof.
  assert (H : CfgInt 5 = CfgNone \/ (exists z, CfgInt 5 = CfgInt z)) by (right; eauto).
  split; [reflexivity|]. split; [reflexivity|]. split; [reflexivity|].
  split; [reflexivity|]. split; [reflexivity|]. split; [reflexivity|].
  split; [exact H|].
  exact (brand_keywords_not_iterable_reported (Samples.keyword_env Samples.keyword_frame)
           forward_order "keywords.csv" "out" (Some Cases.brand_number_config) []
           Samples.keyword_frame default_required default_intents Cases.keyword_cleaned
           (CfgInt 5) eq_refl eq_refl eq_refl eq_refl eq_refl eq_refl H).
Defined.


(** The check of [summary_intents_are_valid] on the sample run. *)
Lemma summary_intents_are_valid_witness :
  run_analysis (Samples.keyword_env Samples.keyword_frame) forward_order
               "keywords.csv" "out" None []
  = (Returned Samples.keyword_result, snd Samples.keyword_run) /\
  success Samples.keyword_result = true /\
  exists valid_intents rows sm,
    valid_intents_of None = Returned valid_intents /\
    dict_get (snd Samples.keyword_run) (path_join "out" "keyword_analysis.csv")
    = Some (CsvFile rows) /\
    Pandas.summary Samples.keyword_result = Some sm /\
    NoDup (map fst (intent_breakdown sm)) /\
    (forall i v, In (i, v) (intent_breakdown sm) ->
       In i valid_intents /\ exists x, In x rows /\ Intent x = i) /\
    (forall x, In x rows -> Keyword x <> ""%string /\ In (Intent x) valid_intents).
Proof.
  split; [reflexivity|]. split; [reflexivity|].
  exact (summary_intents_are_valid (Samples.keyword_env Samples.keyword_frame)
           forward_order "keywords.csv" "out" None [] (snd Samples.keyword_run)
           Samples.keyword_result eq_refl eq_refl).
Defined.

End KeywordsEdges.

Module HeliumEffects.
Import Py Pandas PyFacts PandasFacts Helium HeliumFacts HeliumRun.
Import ChannelsEffects.

Section Effects.

Variable w : env.
Variable o : set_order.

(** A time-series run reports success exactly when it reports no error. *)
Lemma helium_success_iff_no_error (input_file output_dir : string)
  (config : option dict) (disk disk' : fs monthly) (r : result summary) :
  run_analysis w o input_file output_dir config disk = (Returned r, disk') ->
  (success r = true <-> errors r = []).
Proof.
  unfold run_analysis. intros H.
  unfold try_except, analysis_body, bind, lift in H.
  destruct (read_csv w input_file) as [df|] eqn:Ed; simpl in H;
    [|inversion H; subst; simpl; split; discriminate].
  destruct (validate_df_structure o df) as [[ok errs]|] eqn:Ev;
    simpl in H; [|inversion H; subst; simpl; split; discriminate].
  destruct ok; simpl in H.
  2:{ inversion H; subst; simpl. apply HeliumClaims.validate_false_has_error in Ev.
      split; [discriminate|contradiction]. }
  unfold makedirs, save_chart, save_csv, check, bind, get, modify, ret, raise, lift in H.
  simpl in H.
  repeat (inner_case H; try (inversion H; subst; simpl; split; discriminate)).
  all: inversion H; subst; simpl; split; reflexivity.
Qed.


(** When the CSV file cannot be read, the time-series run returns the
    error in band and leaves the disk as it was. *)
Lemma helium_read_error (input_file output_dir : string)
  (config : option dict) (disk : fs monthly) (e : exn) :
  read_csv w input_file = Raised e ->
  run_analysis w o input_file output_dir config disk
  = (Returned (Result false [("Analysis error: " ++ str_exn e)%string] [] None), disk).
Proof.
  intros Hd. unfold run_analysis.
  unfold try_except, analysis_body, bind, lift. rewrite Hd. reflexivity.
Qed.

End Effects.

End HeliumEffects.

Module KeywordsEffects.
Import Py Pandas PyFacts PandasFacts Keywords KeywordsFacts KeywordsClaims.
Import ChannelsEffects.

Section Effects.

Variable w : env.
Variable o : set_order.

Lemma keyword_validation_failure_has_error (df : frame) (required_cols : pyset) (errs : list string) :
  validate_df_structure w o df required_cols = Returned (false, errs) -> errs <> [].
Proof.
  unfold validate_df_structure, obind.
  destruct (negb (validate_columns df required_cols _)); [intros [= <-]; discriminate|].
  intros H. repeat (inner_case H; try discriminate).
  all: inversion H; subst; try discriminate.
  all: try (intros Habs; apply app_eq_nil in Habs; destruct Habs; discriminate).
  all: match goal with
       | Hl : _ = _ :: _ |- _ => try (rewrite Hl in *; discriminate)
       end.
Qed.

(** A keyword run that returns reports success exactly when it reports no
    error. *)
Lemma keyword_success_iff_no_error (input_file output_dir : string)
  (config : option dict) (disk disk' : fs (list row)) (r : result summary) :
  run_analysis w o input_file output_dir config disk = (Returned r, disk') ->
  (success r = true <-> errors r = []).
Proof.
  unfold run_analysis. intros H.
  destruct (required_columns config) as [required_cols|] eqn:Er; [|discriminate].
  destruct (valid_intents_of config) as [valid_intents|] eqn:En; [|discriminate].
  unfold try_except, analysis_body, bind, lift in H.
  destruct (read_csv w input_file) as [df|] eqn:Ed; simpl in H;
    [|inversion H; subst; simpl; split; discriminate].
  destruct (validate_df_structure w o df required_cols) as [[ok errs]|] eqn:Ev;
    simpl in H; [|inversion H; subst; simpl; split; discriminate].
  destruct ok; simpl in H.
  2:{ inversion H; subst; simpl. apply keyword_validation_failure_has_error in Ev.
      split; [discriminate|contradiction]. }
  unfold makedirs, save_chart, save_csv, check, bind, get, modify, ret, raise, lift in H.
  simpl in H.
  repeat (inner_case H; try (inversion H; subst; simpl; split; discriminate)).
  all: inversion H; subst; simpl; split; reflexivity.
Qed.


(** When the CSV file cannot be read, the keyword run returns the error
    in band and leaves the disk as it was. *)
Lemma keyword_read_error (input_file output_dir : string)
  (config : option dict) (disk : fs (list row)) (required_cols valid_intents : pyset)
  (e : exn) :
  required_columns config = Returned required_cols ->
  valid_intents_of config = Returned valid_intents ->
  read_csv w input_file = Raised e ->
  run_analysis w o input_file output_dir config disk
  = (Returned (Result false [("Analysis error: " ++ str_exn e)%string] [] None), disk).
Proof.
  intros Hr Hn Hd. unfold run_analysis. rewrite Hr, Hn.
  unfold try_except, analysis_body, bind, lift. rewrite Hd. reflexivity.
Qed.

End Effects.

End KeywordsEffects.

Module Reporting.
Import Py Pandas PyFacts PandasFacts.

(** X19: in the three pipelines, a run that returns a result reports
    [success = true] exactly when its list of errors is empty: every
    failed validation and every exception caught leaves a message, and
    nothing adds a message to a run that goes through. *)
Theorem success_exactly_without_errors (o : set_order) :
  (forall w input_file output_dir config disk disk' r,
     Channels.run_analysis w o input_file output_dir config disk = (Returned r, disk') ->
     (success r = true <-> errors r = [])) /\
  (forall w input_file output_dir config disk disk' r,
     Helium.run_analysis w o input_file output_dir config disk = (Returned r, disk') ->
     (success r = true <-> errors r = [])) /\
  (forall w input_file output_dir config disk disk' r,
     Keywords.run_analysis w o input_file output_dir config disk = (Returned r, disk') ->
     (success r = true <-> errors r = [])).
Proof.
  split; [|split]; intros.
  - eapply ChannelsEffects.channel_success_iff_no_error; eauto.
  - eapply HeliumEffects.helium_success_iff_no_error; eauto.
  - eapply KeywordsEffects.keyword_success_iff_no_error; eauto.
Qed.

(** The check of [success_exactly_without_errors] on the three sample
    runs, each of which succeeds. *)
Lemma success_exactly_without_errors_witness :
  (success Samples.channel_result = true /\ errors Samples.channel_result = []) /\
  (success Cases.helium_result = true /\ errors Cases.helium_result = []) /\
  (success Samples.keyword_result = true /\ errors Samples.keyword_result = []).
Proof.
  destruct (success_exactly_without_errors forward_order) as (Hc & Hh & Hk).
  split; [|split]; (split; [reflexivity|]).
  - exact (proj1 (Hc (Samples.channel_env Samples.channel_frame) "channels.csv" "out" None
                     [] (snd Samples.channel_run) Samples.channel_result eq_refl) eq_refl).
  - exact (proj1 (Hh (Samples.helium_env Samples.helium_frame) "helium.csv" "out" None
                     [] (snd Cases.helium_run) Cases.helium_result eq_refl) eq_refl).
  - exact (proj1 (Hk (Samples.keyword_env Samples.keyword_frame) "keywords.csv" "out" None
                     [] (snd Samples.keyword_run) Samples.keyword_result eq_refl) eq_refl).
Defined.



(** X21: when the CSV file cannot be read, each pipeline returns the
    exception in band, as the one error "Analysis error: " followed by its
    message, with [success = false], no artifact and no summary, and
    leaves the disk as it was. *)
Theorem unreadable_file_reported (o : set_order) (input_file output_dir : string)
  (config : option dict) (e : exn) :
  (forall w disk required_cols numeric_cols,
     Channels.required_columns config = Returned required_cols ->
     Channels.numeric_columns config = Returned numeric_cols ->
     Channels.read_csv w input_file = Raised e ->
     Channels.run_analysis w o input_file output_dir config disk
     = (Returned (Result false [("Analysis error: " ++ str_exn e)%string] [] None), disk)) /\
  (forall w disk,
     Helium.read_csv w input_file = Raised e ->
     Helium.run_analysis w o input_file output_dir config disk
     = (Returned (Result false [("Analysis error: " ++ str_exn e)%string] [] None), disk)) /\
  (forall w disk required_cols valid_intents,
     Keywords.required_columns config = Returned required_cols ->
     Keywords.valid_intents_of config = Returned valid_intents ->
     Keywords.read_csv w input_file = Raised e ->
     Keywords.run_analysis w o input_file output_dir config disk
     = (Returned (Result false [("Analysis error: " ++ str_exn e)%string] [] None), disk)).
Proof.
  split; [|split]; intros.
  - eapply ChannelsEffects.channel_read_error; eauto.
  - eapply HeliumEffects.helium_read_error; eauto.
  - eapply KeywordsEffects.keyword_read_error; eauto.
Qed.

(** The check of [unreadable_file_reported] on a channel run whose input
    file does not exist. *)
Lemma unreadable_file_reported_witness :
  Channels.run_analysis Cases.unreadable_env forward_order "missing.csv" "out" None []
  = (Returned (Result false
                 ["Analysis error: [Errno 2] No such file or directory: 'missing.csv'"]
                 [] None), []).
Proof.
  exact (proj1 (unreadable_file_reported forward_order "missing.csv" "out" None
                  Cases.missing_file)
           Cases.unreadable_env [] _ _ eq_refl eq_refl eq_refl).
Defined.

End Reporting.

Module HeliumLatest.
Import Py Pandas PyFacts PandasFacts Helium HeliumFacts HeliumRun HeliumReshape.
Import HeliumWindow SortFacts.

(** The last row of an ordered table is after every row. *)
Lemma last_is_max {A} (R : A -> A -> Prop) (l : list A) (y : A) (u : list A) :
  (forall a, R a a) -> ForallOrdPairs R l -> rev l = y :: u ->
  forall x, In x l -> R x y.
Proof.
  intros Hrefl Hs. revert y u. induction Hs as [|a t Ha Ht IH]; intros y u Hrev x Hx.
  - destruct Hx.
  - simpl in Hrev. destruct (rev t) as [|z v] eqn:Et.
    + simpl in Hrev. inversion Hrev; subst.
      assert (t = []).
      { destruct t; auto. apply (f_equal (@List.length _)) in Et.
        rewrite length_rev in Et. discriminate. }
      subst t. destruct Hx as [<-|[]]. apply Hrefl.
    + simpl in Hrev. inversion Hrev; subst z.
      destruct Hx as [<-|Hx].
      * rewrite Forall_forall in Ha. apply Ha. apply in_rev. rewrite Et. now left.
      * eapply IH; eauto.
Qed.

Lemma int_value_columns_complete (df : frame) (value_cols : list (string * list Z))
  (n : string) (xs : list Z) :
  int_value_columns df = Some value_cols ->
  In (n, ColInt xs) df -> n <> "Metric"%string -> In (n, xs) value_cols.
Proof.
  revert value_cols. induction df as [|[k c] rest IH]; simpl; intros v H Hin Hn;
    [destruct Hin|].
  destruct (String.eqb k "Metric") eqn:E.
  - destruct Hin as [[= -> ->]|Hin].
    + apply String.eqb_eq in E. contradiction.
    + eapply IH; eauto.
  - destruct c as [ys|?|?]; try discriminate.
    destruct (int_value_columns rest) as [r|]; [|discriminate].
    inversion H; subst. destruct Hin as [[= -> ->]|Hin]; [now left|].
    right. eapply IH; eauto.
Qed.

Section Latest.

Variable w : env.

(** Every row of the melted table has its date parsed. *)
Lemma parse_dates_all (rows : list melted_row) (parsed : list dated_row) (m : melted_row) :
  parse_dates w rows = Returned parsed -> In m rows ->
  exists d, to_datetime w (m_date m) = Some d /\
            In (Dated (m_metric m) d (m_value m)) parsed.
Proof.
  revert parsed. induction rows as [|m0 rest IH]; simpl; intros parsed H Hin;
    [destruct Hin|].
  destruct (to_datetime w (m_date m0)) as [d|] eqn:Ed; [|discriminate].
  destruct (parse_dates w rest) as [ps|] eqn:Ep; simpl in H; [|discriminate].
  inversion H; subst. destruct Hin as [<-|Hin].
  - exists d. split; auto. now left.
  - destruct (IH _ eq_refl Hin) as (d' & Hd' & Hp). exists d'. split; auto. now right.
Qed.

(** A value column with a cell, under a labelled first row, has its date
    in the index of the pivoted table. *)
Lemma pivot_index_complete (l0 : string) (labels : list (option string))
  (value_cols : list (string * list Z)) (p : pivot) (c : string) (x : Z) (xs : list Z) :
  pivoted w (Some l0 :: labels) value_cols = Returned p ->
  In (c, x :: xs) value_cols ->
  exists d, to_datetime w c = Some d /\ In d (map fst (pivot_rows p)).
Proof.
  unfold pivoted.
  destruct (parse_dates w (melt (Some l0 :: labels) value_cols)) as [rows|] eqn:Ep;
    simpl; [|discriminate].
  intros [= <-] Hin.
  assert (Hm : In (Melted (Some l0) c x) (melt (Some l0 :: labels) value_cols)).
  { unfold melt. apply in_flat_map. exists (c, x :: xs). split; auto. simpl. now left. }
  destruct (parse_dates_all _ _ _ Ep Hm) as (d & Hd & Hrow). simpl in Hd, Hrow.
  exists d. split; auto.
  unfold pivot_table. simpl. rewrite map_map. simpl. rewrite map_id.
  apply (sort_uniq_In date_eqb date_eqb_eq).
  apply in_map_iff. exists (Dated (Some l0) d x). split; auto.
  apply filter_In. split; auto.
Qed.

Variable o : set_order.

(** X22: after a successful time-series run, the [date_range] of the
    summary ends at the latest date among the value columns that the
    cleaning keeps (the columns with a non-zero cell that are not
    dropped), and starts on the same day one year before.  The value
    columns of the table are taken to be [int64] columns. *)
Theorem window_ends_at_latest_kept_date (input_file output_dir : string)
  (config : option dict) (disk disk' : fs monthly) (r : result summary) (df : frame) :
  run_analysis w o input_file output_dir config disk = (Returned r, disk') ->
  success r = true ->
  read_csv w input_file = Returned df ->
  (forall n c, In (n, c) df -> n <> "Metric"%string -> mem n dropping_cols = false ->
               exists xs, c = ColInt xs) ->
  exists sm e,
    Pandas.summary r = Some sm /\
    date_range_end sm = strftime e /\
    date_range_start sm = strftime (minus_one_year e) /\
    (exists c xs, In (c, ColInt xs) df /\ c <> "Metric"%string /\
                  mem c dropping_cols = false /\ any_nonzero (ColInt xs) = true /\
                  to_datetime w c = Some e) /\
    (forall c xs, In (c, ColInt xs) df -> c <> "Metric"%string ->
                  mem c dropping_cols = false -> any_nonzero (ColInt xs) = true ->
                  exists d, to_datetime w c = Some d /\ date_leb d e = true).
Proof.
  intros H Hs Hd Htyped.
  destruct (helium_run_success w o _ _ _ _ _ _ H Hs)
    as (df' & window & df_monthly & sm & Hd' & Hv & Hr & _ & Hb & Hsm & _).
  rewrite Hd in Hd'. inversion Hd'; subst df'. clear Hd'.
  destruct (build_summary_window w _ _ _ Hb) as (s & e & -> & Hstart & Hend).
  destruct (metric_kept o df Hv) as (labels & _ & Hmc & Hsame).
  destruct (int_value_columns_total (clean_columns df)) as (value_cols & Hvc).
  { intros n c Hin Hn. apply clean_columns_In in Hin.
    destruct Hin as (Hin & Hdrop & _). eauto. }
  destruct (reshape_typed w _ _ _ _ _ _ Hmc Hvc Hr) as (p & Hp & He & -> & _).
  exists sm, e. split; [exact Hsm|]. split; [exact Hend|]. split; [exact Hstart|].
  split.
  - destruct (pivot_index_source w _ _ _ _ Hp (index_max_In _ _ He)) as (c & Hc & Hce).
    apply in_map_iff in Hc. destruct Hc as ([c' xs] & Hc' & Hin). simpl in Hc'. subst c'.
    destruct (int_value_columns_In _ _ _ _ Hvc Hin) as [Hin' Hnm].
    apply clean_columns_In in Hin'. destruct Hin' as (Hdf & Hdrop & Hnz & _).
    exists c, xs. auto.
  - intros c xs Hin Hnm Hdrop Hnz.
    assert (Hkept : In (c, xs) value_cols).
    { eapply int_value_columns_complete; eauto.
      apply clean_columns_In. repeat split; auto.
      destruct xs; [discriminate|reflexivity]. }
    destruct labels as [|[l0|] labels].
    + exfalso. assert (Hx : In (Some "organic traffic"%string) (map (option_map lower) []))
        by (apply Hsame; simpl; tauto). destruct Hx.
    + destruct xs as [|x xs]; [discriminate|].
      destruct (pivot_index_complete _ _ _ _ _ _ _ Hp Hkept) as (d & Hd' & Hidx).
      exists d. split; auto.
      unfold index_max in He.
      destruct (rev (pivot_rows p)) as [|[e' cells] u] eqn:Erev; [discriminate|].
      inversion He; subst e'.
      apply in_map_iff in Hidx. destruct Hidx as ([d' cs] & Hd'' & Hrow).
      simpl in Hd''. subst d'.
      apply (last_is_max (fun a b : date * list (option Z) => date_leb (fst a) (fst b) = true)
               (pivot_rows p) (e, cells) u) with (x := (d, cs)); auto.
      * intros a. apply date_leb_refl.
      * eapply pivot_sorted; eauto.
    + exfalso. assert (Hx : In None (map Some required_metrics)).
      { apply Hsame. simpl. now left. }
      simpl in Hx. repeat (destruct Hx as [Hx|Hx]; [discriminate|]). destruct Hx.
Qed.

End Latest.

(** The check of [window_ends_at_latest_kept_date] on the sample run: the
    window ends on 2024-03-10, the column 2024-04-10 being all zero. *)
Lemma window_ends_at_latest_kept_date_witness :
  run_analysis (Samples.helium_env Samples.helium_frame) forward_order
               "helium.csv" "out" None []
  = (Returned Cases.helium_result, snd Cases.helium_run) /\
  success Cases.helium_result = true /\
  read_csv (Samples.helium_env Samples.helium_frame) "helium.csv"
  = Returned Samples.helium_frame /\
  (forall n c, In (n, c) Samples.helium_frame -> n <> "Metric"%string ->
               mem n dropping_cols = false -> exists xs, c = ColInt xs) /\
  exists sm e,
    Pandas.summary Cases.helium_result = Some sm /\
    date_range_end sm = strftime e /\
    date_range_start sm = strftime (minus_one_year e) /\
    (exists c xs, In (c, ColInt xs) Samples.helium_frame /\ c <> "Metric"%string /\
                  mem c dropping_cols = false /\ any_nonzero (ColInt xs) = true /\
                  to_datetime (Samples.helium_env Samples.helium_frame) c = Some e) /\
    (forall c xs, In (c, ColInt xs) Samples.helium_frame -> c <> "Metric"%string ->
                  mem c dropping_cols = false -> any_nonzero (ColInt xs) = true ->
                  exists d, to_datetime (Samples.helium_env Samples.helium_frame) c = Some d
                            /\ date_leb d e = true).
Proof.
  assert (Htyped : forall n c, In (n, c) Samples.helium_frame -> n <> "Metric"%string ->
                     mem n dropping_cols = false -> exists xs, c = ColInt xs).
  { intros n c Hin Hn Hdrop. simpl in Hin.
    repeat (destruct Hin as [Hin|Hin];
            [inversion Hin; subst; first [contradiction | discriminate | eauto]|]).
    destruct Hin. }
  split; [reflexivity|]. split; [reflexivity|]. split; [reflexivity|].
  split; [exact Htyped|].
  exact (window_ends_at_latest_kept_date (Samples.helium_env Samples.helium_frame)
           forward_order "helium.csv" "out" None [] (snd Cases.helium_run)
           Cases.helium_result Samples.helium_frame eq_refl eq_refl eq_refl Htyped).
Defined.

End HeliumLatest.

Module HeliumTotals.
Import Py Pandas PyFacts PandasFacts Helium HeliumFacts HeliumRun HeliumReshape.
Import HeliumWindow HeliumLatest SortFacts ChannelOrder ChannelsSummary Expected.

Lemma filter_filter {A} (p q : A -> bool) (l : list A) :
  filter p (filter q l) = filter (fun x => q x && p x) l.
Proof.
  induction l as [|x t IH]; simpl; [reflexivity|].
  destruct (q x); simpl; [destruct (p x)|]; now rewrite IH.
Qed.

(** The value columns of the cleaned table, read off the table. *)
Lemma kept_value_columns_typed (df : frame) (value_cols : list (string * list Z)) :
  int_value_columns (clean_columns df) = Some value_cols ->
  kept_value_columns df = value_cols.
Proof.
  unfold clean_columns, drop_all_missing, keep_nonzero, drop_columns, kept_value_columns.
  generalize dropping_cols as dropped. intros dropped.
  rewrite !filter_filter. revert value_cols.
  induction df as [|[n c] rest IH]; simpl; intros vc H.
  - now inversion H.
  - destruct (mem n dropped) eqn:Edrop; simpl in *.
    + rewrite andb_false_r. destruct c; simpl; auto.
    + destruct c as [xs|xs|xs]; simpl in *.
      * destruct (existsb (fun z => negb (z =? 0)%Z) xs) eqn:Enz; simpl in *.
        -- assert (Hne : match xs with [] => true | _ => false end = false).
           { destruct xs; [discriminate|reflexivity]. }
           rewrite Hne in H. simpl in H.
           destruct (String.eqb n "Metric") eqn:Em; simpl.
           ++ auto.
           ++ destruct (int_value_columns (filter _ rest)) as [r|] eqn:Er; [|discriminate].
              inversion H; subst. f_equal. now apply IH.
        -- rewrite andb_false_r. simpl. auto.
      * destruct (existsb _ xs && negb (forallb is_nan xs)) eqn:Ek; simpl in *; auto.
        destruct (String.eqb n "Metric"); auto. discriminate.
      * destruct (existsb _ xs && negb (forallb _ xs)) eqn:Ek; simpl in *; auto.
        destruct (String.eqb n "Metric"); auto. discriminate.
Qed.

Section Totals.

Variable w : env.

Lemma parse_dates_map (rows : list melted_row) (parsed : list dated_row) :
  parse_dates w rows = Returned parsed ->
  parsed = map (fun m => Dated (m_metric m) (column_date w (m_date m)) (m_value m)) rows.
Proof.
  revert parsed. induction rows as [|m rest IH]; simpl; intros parsed H.
  - now inversion H.
  - unfold column_date at 1.
    destruct (to_datetime w (m_date m)) as [d|] eqn:Ed; [|discriminate].
    destruct (parse_dates w rest) as [ps|] eqn:Ep; simpl in H; [|discriminate].
    inversion H; subst. f_equal. now apply IH.
Qed.

Lemma first_value_app (a b : list dated_row) (d : date) (n : string) :
  first_value (a ++ b) d n
  = match first_value a d n with
    | Some z => Some z
    | None => first_value b d n
    end.
Proof.
  induction a as [|r t IH]; simpl; [reflexivity|].
  destruct (date_eqb (d_date r) d && ostr_eqb (d_metric r) (Some n)); auto.
Qed.

Lemma first_value_other_date (rows : list dated_row) (d : date) (n : string) :
  (forall r, In r rows -> d_date r <> d) -> first_value rows d n = None.
Proof.
  induction rows as [|r t IH]; simpl; intros H; [reflexivity|].
  destruct (date_eqb (d_date r) d) eqn:E.
  - apply date_eqb_eq in E. exfalso. apply (H r); auto.
  - simpl. apply IH. auto.
Qed.

(** The rows of one value column in the melted table. *)
Lemma first_value_column (labels : list (option string)) (xs : list Z) (d : date)
  (n : string) :
  cell_value (first_value (map (fun mv => Dated (fst mv) d (snd mv)) (combine labels xs)) d n)
  = labelled_cell labels n xs.
Proof.
  revert xs. induction labels as [|l ls IH]; intros [|x xs]; simpl; try reflexivity.
  assert (Hd : date_eqb d d = true) by now apply date_eqb_eq.
  rewrite Hd. simpl. destruct (ostr_eqb l (Some n)); [reflexivity|apply IH].
Qed.

Lemma melt_parsed (labels : list (option string)) (value_cols : list (string * list Z)) :
  map (fun m => Dated (m_metric m) (column_date w (m_date m)) (m_value m))
      (melt labels value_cols)
  = flat_map (fun nc => map (fun mv => Dated (fst mv) (column_date w (fst nc)) (snd mv))
                            (combine labels (snd nc))) value_cols.
Proof.
  unfold melt. rewrite KeywordsFacts.map_flat_map. apply flat_map_ext.
  intros nc. now rewrite map_map.
Qed.

(** The cell of the pivoted table for the date of a value column and a
    metric, when no two value columns share a date. *)
Lemma first_value_melt (labels : list (option string)) (value_cols : list (string * list Z))
  (c : string) (xs : list Z) (n : string) :
  NoDup (map (fun nc => column_date w (fst nc)) value_cols) ->
  In (c, xs) value_cols ->
  cell_value
    (first_value
       (flat_map (fun nc => map (fun mv => Dated (fst mv) (column_date w (fst nc)) (snd mv))
                                (combine labels (snd nc))) value_cols)
       (column_date w c) n)
  = labelled_cell labels n xs.
Proof.
  induction value_cols as [|[c0 xs0] rest IH]; simpl; intros Hnd Hin; [destruct Hin|].
  inversion Hnd as [|? ? Hnotin Hrest]; subst.
  rewrite first_value_app. destruct Hin as [[= -> ->]|Hin].
  - pose proof (first_value_column labels xs (column_date w c) n) as Hcol.
    destruct (first_value (map _ (combine labels xs)) (column_date w c) n) as [z|] eqn:E.
    + exact Hcol.
    + rewrite first_value_other_date; [exact Hcol|].
      intros r Hr Hd. apply in_flat_map in Hr. destruct Hr as (nc & Hnc & Hr).
      apply in_map_iff in Hr. destruct Hr as (mv & <- & _). simpl in Hd.
      apply Hnotin. rewrite <- Hd. apply in_map_iff. exists nc. auto.
  - rewrite first_value_other_date.
    + now apply IH.
    + intros r Hr Hd. apply in_map_iff in Hr. destruct Hr as (mv & <- & _). simpl in Hd.
      apply Hnotin. rewrite Hd. apply in_map_iff. exists (c, xs). auto.
Qed.

Lemma sumZ_present (cells : list (option Z)) :
  sumZ (flat_map (fun c => match c with Some z => [z] | None => [] end) cells)
  = sumZ (map cell_value cells).
Proof.
  induction cells as [|[z|] t IH]; simpl; [reflexivity| |].
  - now rewrite !sumZ_cons, IH.
  - now rewrite sumZ_cons, IH.
Qed.

Lemma sum_indicator_Z (ks : list Z) (k0 v : Z) :
  NoDup ks -> In k0 ks ->
  sumZ (map (fun k => if (k0 =? k)%Z then v else 0%Z) ks) = v.
Proof.
  induction ks as [|k t IH]; simpl; intros Hnd Hin; [destruct Hin|].
  inversion Hnd as [|? ? Hnotin Ht]; subst. rewrite sumZ_cons.
  destruct (Z.eqb_spec k0 k) as [->|Hne].
  - rewrite (map_ext_in _ (fun _ => 0%Z)), sumZ_map_zero; [lia|].
    intros a Ha. destruct (Z.eqb_spec k a); [subst; contradiction|reflexivity].
  - destruct Hin as [->|Hin]; [contradiction|]. rewrite IH by auto. lia.
Qed.

(** The bins split the rows whose key is a bin. *)
Lemma partition_sum_Z {R} (key_fn : R -> Z) (f : R -> Z) (ks : list Z) (rows : list R) :
  NoDup ks -> (forall r, In r rows -> In (key_fn r) ks) ->
  sumZ (map (fun k => sumZ (map f (filter (fun r => (key_fn r =? k)%Z) rows))) ks)
  = sumZ (map f rows).
Proof.
  intros Hnd. induction rows as [|r t IH]; intros Hall.
  - simpl. apply sumZ_map_zero.
  - simpl. rewrite sumZ_cons, <- IH by (intros; apply Hall; now right).
    rewrite (map_ext _ (fun k => ((if (key_fn r =? k)%Z then f r else 0)
                                  + sumZ (map f (filter (fun r => (key_fn r =? k)%Z) t)))%Z)).
    2:{ intros k. destruct (key_fn r =? k)%Z; simpl; [apply sumZ_cons|lia]. }
    rewrite sumZ_map_add, sum_indicator_Z; auto. apply Hall. now left.
Qed.

Lemma nth_map_seq {A} (F : nat -> A) (n j : nat) (d : A) :
  (j < n)%nat -> nth j (map F (seq 0 n)) d = F j.
Proof.
  intros H. rewrite (nth_indep _ d (F 0%nat)) by (rewrite length_map, length_seq; lia).
  rewrite map_nth, seq_nth by lia. reflexivity.
Qed.

Lemma nth_map_error {A B} (f : A -> B) (l : list A) (j : nat) (a : A) (d : B) :
  nth_error l j = Some a -> nth j (map f l) d = f a.
Proof.
  revert j. induction l as [|x t IH]; intros [|j] H; simpl in *; try discriminate.
  - now inversion H.
  - now apply IH.
Qed.

(** The column of the monthly table by its name. *)
Lemma monthly_col_cells (t : monthly) (name : string) (cells : list num) :
  monthly_col t name = Returned cells ->
  exists j, nth_error (monthly_names t) j = Some name /\
            cells = map (fun r => nth j (snd r) (IntCell 0)) (monthly_rows t).
Proof.
  unfold monthly_col.
  match goal with
  | |- obind (?find _ _) ?K = _ -> _ =>
      assert (G : forall names k, obind (find names k) K = Returned cells ->
                    exists i, nth_error names i = Some name /\
                              K (k + i)%nat = Returned cells)
  end.
  { induction names as [|n rest IH]; intros k; simpl; [discriminate|].
    destruct (String.eqb n name) eqn:E.
    - apply String.eqb_eq in E. subst n. simpl. intros H. exists 0%nat.
      rewrite Nat.add_0_r. auto.
    - intros H. destruct (IH _ H) as (i & Hi & Hc). exists (S i).
      rewrite Nat.add_succ_r. auto. }
  intros H. destruct (G _ _ H) as (i & Hi & Hc). exists i. split; auto.
  simpl in Hc. now inversion Hc.
Qed.

Lemma month_bins_NoDup (rows : list (date * list (option Z))) : NoDup (month_bins rows).
Proof.
  unfold month_bins. destruct rows as [|[first c1] t]; [constructor|].
  destruct (rev ((first, c1) :: t)) as [|[last c2] u]; [constructor|].
  generalize (Z.to_nat (month_index last - month_index first + 1)) as n.
  generalize (month_index first) as a. intros a n. generalize 0%nat as s.
  induction n as [|n IH]; intros s; simpl; [constructor|].
  constructor; [|apply IH].
  intros H. apply in_map_iff in H. destruct H as (k & Hk & Hin).
  apply in_seq in Hin. lia.
Qed.

(** The months of the rows of an ordered table are among its bins. *)
Lemma month_bins_cover (rows : list (date * list (option Z))) :
  ForallOrdPairs (fun a b => date_leb (fst a) (fst b) = true) rows ->
  (forall r, In r rows -> (1 <= month (fst r) <= 12)%Z) ->
  forall r, In r rows -> In (month_index (fst r)) (month_bins rows).
Proof.
  intros Hs Hvalid r Hr. unfold month_bins.
  destruct rows as [|[first c1] t] eqn:Erows; [destruct Hr|].
  destruct (rev ((first, c1) :: t)) as [|[last c2] u] eqn:Erev.
  { apply (f_equal (@List.length _)) in Erev. rewrite length_rev in Erev. discriminate. }
  assert (Hlast : In (last, c2) ((first, c1) :: t)).
  { apply in_rev. rewrite Erev. now left. }
  assert (H1 : date_leb first (fst r) = true).
  { inversion Hs as [|? ? Hx _]; subst. destruct Hr as [<-|Hr].
    - apply date_leb_refl.
    - rewrite Forall_forall in Hx. now apply (Hx r). }
  assert (H2 : date_leb (fst r) last = true).
  { apply (last_is_max (fun a b : date * list (option Z) => date_leb (fst a) (fst b) = true)
             ((first, c1) :: t) (last, c2) u); auto.
    intros a. apply date_leb_refl. }
  apply date_leb_month_index in H1; [|apply (Hvalid (first, c1)); now left|now apply Hvalid].
  apply date_leb_month_index in H2; [|now apply Hvalid|now apply (Hvalid (last, c2))].
  simpl in H1, H2.
  apply in_map_iff. exists (Z.to_nat (month_index (fst r) - month_index first)).
  split; [lia|]. apply in_seq. lia.
Qed.

(** The total of a column of the monthly table is, modulo 2^64, the sum
    of the column over the rows that were resampled. *)
Lemma resample_total (q : pivot) (name : string) (cells : list num) :
  ForallOrdPairs (fun a b => date_leb (fst a) (fst b) = true) (pivot_rows q) ->
  (forall r, In r (pivot_rows q) -> (1 <= month (fst r) <= 12)%Z) ->
  monthly_col (resample_month_end q) name = Returned cells ->
  exists j,
    nth_error (metric_names q) j = Some name /\
    total w cells
    = Returned (wrap64 (sumZ (map (fun r => cell_value (nth j (snd r) None))
                                  (pivot_rows q)))).
Proof.
  intros Hs Hvalid Hc.
  destruct (monthly_col_cells _ _ _ Hc) as (j & Hj & ->).
  exists j. split; [exact Hj|].
  assert (Hlt : (j < List.length (metric_names q))%nat).
  { apply nth_error_Some. simpl in Hj. congruence. }
  unfold resample_month_end. simpl. rewrite map_map. simpl.
  rewrite (map_ext _ (fun k => IntCell (sum_present
             (map (fun r => nth j (snd r) None)
                  (filter (fun r => (month_index (fst r) =? k)%Z) (pivot_rows q)))))).
  2:{ intros k. now rewrite nth_map_seq. }
  rewrite <- (map_map _ IntCell). unfold total. rewrite KeywordsFacts.all_int_cells.
  f_equal. rewrite sum64_wrap.
  rewrite <- (partition_sum_Z (fun r => month_index (fst r))
                (fun r => cell_value (nth j (snd r) None))
                (month_bins (pivot_rows q)) (pivot_rows q)).
  2:{ apply month_bins_NoDup. }
  2:{ now apply month_bins_cover. }
  unfold sum_present.
  rewrite <- (map_map (fun k => flat_map (fun c => match c with Some z => [z] | None => [] end)
                                  (map (fun r => nth j (snd r) None)
                                       (filter (fun r => (month_index (fst r) =? k)%Z)
                                               (pivot_rows q)))) sum64).
  rewrite wrap64_sum_of_sums, map_map. do 2 f_equal. apply map_ext. intros k.
  now rewrite sumZ_present, map_map.
Qed.

Lemma filter_map_comm {A B} (p : B -> bool) (g : A -> B) (l : list A) :
  filter p (map g l) = map g (filter (fun x => p (g x)) l).
Proof.
  induction l as [|x t IH]; simpl; [reflexivity|].
  destruct (p (g x)); simpl; now rewrite IH.
Qed.

Lemma column_date_parsed (c : string) (d : date) :
  to_datetime w c = Some d -> column_date w c = d.
Proof. unfold column_date. now intros ->. Qed.

(** The dates of the index of the pivoted table are the dates of the
    value columns. *)
Lemma pivot_dates_perm (l0 : string) (labels : list (option string))
  (value_cols : list (string * list Z)) (p : pivot) :
  pivoted w (Some l0 :: labels) value_cols = Returned p ->
  (forall c xs, In (c, xs) value_cols -> xs <> []) ->
  NoDup (map (fun nc => column_date w (fst nc)) value_cols) ->
  Permutation (map fst (pivot_rows p)) (map (fun nc => column_date w (fst nc)) value_cols).
Proof.
  intros Hp Hne Hnd. apply NoDup_Permutation; auto.
  - unfold pivoted in Hp.
    destruct (parse_dates w (melt (Some l0 :: labels) value_cols)); simpl in Hp;
      [|discriminate].
    inversion Hp; subst p. unfold pivot_table. simpl. rewrite map_map. simpl.
    rewrite map_id. apply (sort_uniq_NoDup date_eqb date_eqb_eq).
  - intros d. split; intros Hd.
    + destruct (pivot_index_source w _ _ _ _ Hp Hd) as (n & Hn & Hdn).
      apply in_map_iff in Hn. destruct Hn as (nc & <- & Hnc).
      apply in_map_iff. exists nc. split; auto. now apply column_date_parsed.
    + apply in_map_iff in Hd. destruct Hd as ([c xs] & <- & Hnc). simpl.
      destruct xs as [|x xs]; [exfalso; eapply Hne; eauto|].
      destruct (pivot_index_complete w _ _ _ _ _ _ _ Hp Hnc) as (d & Hd & Hin).
      now rewrite (column_date_parsed _ _ Hd).
Qed.

(** The total of a column of the monthly table of a window, from the
    value columns. *)
Lemma window_sum (l0 : string) (labels : list (option string))
  (value_cols : list (string * list Z)) (p : pivot) (s e : date) (name : string)
  (cells : list num) :
  pivoted w (Some l0 :: labels) value_cols = Returned p ->
  (forall c xs, In (c, xs) value_cols -> xs <> []) ->
  NoDup (map (fun nc => column_date w (fst nc)) value_cols) ->
  (forall c d, to_datetime w c = Some d -> (1 <= month d <= 12)%Z) ->
  monthly_col (resample_month_end (loc_range p s e)) name = Returned cells ->
  total w cells
  = Returned (wrap64 (sumZ (map (fun nc => labelled_cell (Some l0 :: labels) name (snd nc))
                                (filter (fun nc => match to_datetime w (fst nc) with
                                                   | Some d => date_leb s d && date_leb d e
                                                   | None => false
                                                   end) value_cols)))).
Proof.
  intros Hp Hne Hnd Hmonths Hc.
  assert (Hsorted : ForallOrdPairs (fun a b => date_leb (fst a) (fst b) = true)
                      (pivot_rows (loc_range p s e))).
  { simpl. apply filter_sorted. eapply pivot_sorted; eauto. }
  assert (Hvalid : forall r, In r (pivot_rows (loc_range p s e)) ->
                             (1 <= month (fst r) <= 12)%Z).
  { simpl. intros r Hr. apply filter_In in Hr. destruct Hr as [Hr _].
    destruct (pivot_index_source w _ _ _ (fst r) Hp) as (n & _ & Hn); eauto.
    now apply in_map. }
  destruct (resample_total _ _ _ Hsorted Hvalid Hc) as (j & Hj & ->).
  do 2 f_equal. simpl in Hj.
  pose proof (pivot_dates_perm _ _ _ _ Hp Hne Hnd) as Hperm.
  assert (Hparsed : forall c xs, In (c, xs) value_cols ->
                      to_datetime w c = Some (column_date w c)).
  { intros c xs Hin. destruct xs as [|x xs]; [exfalso; eapply Hne; eauto|].
    destruct (pivot_index_complete w _ _ _ _ _ _ _ Hp Hin) as (d & Hd & _).
    now rewrite (column_date_parsed _ _ Hd). }
  remember (Some l0 :: labels) as lbls eqn:Elbls. clear Elbls.
  unfold pivoted in Hp.
  destruct (parse_dates w (melt lbls value_cols)) as [parsed|] eqn:Ep;
    simpl in Hp; [|discriminate].
  inversion Hp; subst p. clear Hp.
  apply parse_dates_map in Ep. rewrite melt_parsed in Ep.
  unfold pivot_table in *. simpl in *.
  set (names := sort_uniq String.leb String.eqb (present_metrics parsed)) in *.
  set (dates := sort_uniq date_leb date_eqb
                  (map d_date (filter (fun r => match d_metric r with
                                                | Some _ => true
                                                | None => false
                                                end) parsed))) in *.
  rewrite map_map in Hperm. simpl in Hperm. rewrite map_id in Hperm.
  rewrite filter_map_comm, map_map. simpl.
  rewrite (map_ext _ (fun d => cell_value (first_value parsed d name)))
    by (intros d; now rewrite (nth_map_error _ _ _ _ _ Hj)).
  rewrite (sumZ_Permutation _ _
             (Permutation_map _ (KeywordsFacts.Permutation_filter_same _ _ _ Hperm))).
  rewrite filter_map_comm, map_map.
  rewrite (filter_ext_in _ (fun nc => match to_datetime w (fst nc) with
                                      | Some d => date_leb s d && date_leb d e
                                      | None => false
                                      end)).
  2:{ intros [c xs] Hin. simpl. now rewrite (Hparsed c xs Hin). }
  f_equal. apply map_ext_in. intros [c xs] Hin. apply filter_In in Hin.
  destruct Hin as [Hin _]. simpl. rewrite Ep. now apply first_value_melt.
Qed.

Lemma build_summary_totals (window : option (date * date)) (df_monthly : monthly)
  (sm : summary) :
  build_summary w window df_monthly = Returned sm ->
  exists organic paid,
    monthly_col df_monthly "Organic Traffic" = Returned organic /\
    total w organic = Returned (total_organic_traffic sm) /\
    monthly_col df_monthly "Paid Traffic" = Returned paid /\
    total w paid = Returned (total_paid_traffic sm).
Proof.
  unfold build_summary, obind. intros H.
  destruct (monthly_col df_monthly "Organic Traffic") as [organic|]; [|discriminate].
  destruct (total w organic) as [ot|] eqn:Eo; [|discriminate].
  destruct (monthly_col df_monthly "Paid Traffic") as [paid|]; [|discriminate].
  destruct (total w paid) as [pt|] eqn:Ept; [|discriminate].
  destruct window as [[s e]|]; [|discriminate].
  inversion H; subst. simpl. exists organic, paid. auto.
Qed.

Lemma kept_value_columns_names (df : frame) (c : string) :
  In c (map fst (kept_value_columns df)) -> In c (columns df).
Proof.
  unfold kept_value_columns, columns. intros H. apply in_map_iff in H.
  destruct H as ([c' xs] & <- & Hin). apply in_flat_map in Hin.
  destruct Hin as ([n col] & Hdf & Hin). simpl in Hin.
  destruct col as [ys|?|?]; try destruct Hin.
  destruct (_ && _); [|destruct Hin]. destruct Hin as [[= <- <-]|[]].
  simpl. apply in_map_iff. exists (n, ColInt ys). auto.
Qed.

Lemma kept_value_columns_NoDup (df : frame) :
  NoDup (columns df) -> NoDup (map fst (kept_value_columns df)).
Proof.
  unfold columns. induction df as [|[n col] rest IH]; simpl; intros Hnd; [constructor|].
  inversion Hnd as [|? ? Hnotin Hrest]; subst.
  rewrite map_app. destruct col as [ys|?|?]; simpl; auto.
  destruct (_ && _); simpl; auto.
  constructor; auto. intros Hin. apply Hnotin. now apply kept_value_columns_names.
Qed.

Variable o : set_order.

(** X23: after a successful time-series run, [total_organic_traffic] is,
    modulo 2^64, the sum of the cells of the 'Organic Traffic' row over
    the value columns that the cleaning keeps and whose date lies in the
    window of the summary, from one year before its end to its end; and
    likewise [total_paid_traffic] for the 'Paid Traffic' row.  The value
    columns of the table are taken to be [int64] columns with distinct
    names that parse to distinct dates, with a month from 1 to 12. *)
Theorem totals_are_window_sums (input_file output_dir : string)
  (config : option dict) (disk disk' : fs monthly) (r : result summary) (df : frame) :
  run_analysis w o input_file output_dir config disk = (Returned r, disk') ->
  success r = true ->
  read_csv w input_file = Returned df ->
  (forall n c, In (n, c) df -> n <> "Metric"%string -> mem n dropping_cols = false ->
               exists xs, c = ColInt xs) ->
  NoDup (columns df) ->
  (forall c c' d, In c (columns df) -> In c' (columns df) ->
                  to_datetime w c = Some d -> to_datetime w c' = Some d -> c = c') ->
  (forall c d, to_datetime w c = Some d -> (1 <= month d <= 12)%Z) ->
  exists sm e,
    Pandas.summary r = Some sm /\
    date_range_end sm = strftime e /\
    total_organic_traffic sm
    = wrap64 (window_total w df "Organic Traffic" (minus_one_year e) e) /\
    total_paid_traffic sm
    = wrap64 (window_total w df "Paid Traffic" (minus_one_year e) e).
Proof.
  intros H Hs Hd Htyped Hnd Hinj Hmonths.
  destruct (helium_run_success w o _ _ _ _ _ _ H Hs)
    as (df' & window & df_monthly & sm & Hd' & Hv & Hr & _ & Hb & Hsm & _).
  rewrite Hd in Hd'. inversion Hd'; subst df'. clear Hd'.
  destruct (build_summary_window w _ _ _ Hb) as (s & e & -> & _ & Hend).
  destruct (build_summary_totals _ _ _ Hb) as (organic & paid & Ho & Hto & Hpd & Htp).
  destruct (metric_kept o df Hv) as (labels & Hm & Hmc & Hsame).
  destruct (int_value_columns_total (clean_columns df)) as (value_cols & Hvc).
  { intros n c Hin Hn. apply clean_columns_In in Hin.
    destruct Hin as (Hin & Hdrop & _). eauto. }
  destruct (reshape_typed w _ _ _ _ _ _ Hmc Hvc Hr) as (p & Hp & He & -> & ->).
  exists sm, e. split; [exact Hsm|]. split; [exact Hend|].
  assert (Hne : forall c xs, In (c, xs) value_cols -> xs <> []).
  { intros c xs Hin. destruct (int_value_columns_In _ _ _ _ Hvc Hin) as [Hin' _].
    apply clean_columns_In in Hin'. destruct Hin' as (_ & _ & Hnz & _).
    intros ->. discriminate. }
  destruct labels as [|[l0|] labels].
  { exfalso. assert (Hx : In (Some "organic traffic"%string) (map (option_map lower) []))
      by (apply Hsame; simpl; tauto). destruct Hx. }
  2:{ exfalso. assert (Hx : In None (map Some required_metrics)).
      { apply Hsame. simpl. now left. }
      simpl in Hx. repeat (destruct Hx as [Hx|Hx]; [discriminate|]). destruct Hx. }
  pose proof (kept_value_columns_typed _ _ Hvc) as Hkept.
  assert (Hparsed : forall c xs, In (c, xs) value_cols ->
                      to_datetime w c = Some (column_date w c)).
  { intros c xs Hin. pose proof (Hne c xs Hin) as Hx.
    destruct xs as [|x xs]; [contradiction|].
    destruct (pivot_index_complete w _ _ _ _ _ _ _ Hp Hin) as (d & Hd' & _).
    now rewrite (column_date_parsed _ _ Hd'). }
  assert (Hdates : NoDup (map (fun nc => column_date w (fst nc)) value_cols)).
  { pose proof (kept_value_columns_NoDup df Hnd) as Hnames. rewrite Hkept in Hnames.
    assert (Hcols : forall nc, In nc value_cols -> In (fst nc) (columns df)).
    { intros nc Hin. apply kept_value_columns_names. rewrite Hkept. now apply in_map. }
    clear - Hnames Hcols Hparsed Hinj.
    induction value_cols as [|[c xs] rest IH]; simpl; [constructor|].
    inversion Hnames as [|? ? Hnotin Hrest]; subst.
    constructor.
    - intros Hin. apply in_map_iff in Hin. destruct Hin as ([c' xs'] & Hd & Hin').
      simpl in Hd. apply Hnotin.
      assert (c = c').
      { apply (Hinj c c' (column_date w c)).
        - apply (Hcols (c, xs)). now left.
        - apply (Hcols (c', xs')). now right.
        - apply (Hparsed c xs). now left.
        - rewrite <- Hd. apply (Hparsed c' xs'). now right. }
      subst c'. apply in_map_iff. exists (c, xs'). auto.
    - apply IH; auto.
      + intros c' xs' Hin. apply (Hparsed c' xs'). now right.
      + intros nc Hin. apply Hcols. now right. }
  unfold window_total. rewrite Hm, Hkept.
  pose proof (window_sum _ _ _ _ _ _ _ _ Hp Hne Hdates Hmonths Ho) as Hso.
  pose proof (window_sum _ _ _ _ _ _ _ _ Hp Hne Hdates Hmonths Hpd) as Hsp.
  rewrite Hto in Hso. rewrite Htp in Hsp.
  split; congruence.
Qed.

End Totals.

(** The check of [totals_are_window_sums] on the sample run: Organic
    Traffic 1 + 1 + 10 and Paid Traffic 4 + 4 + 40 over the three columns
    of the year before 2024-03-10. *)
Lemma totals_are_window_sums_witness :
  run_analysis (Samples.helium_env Samples.helium_frame) forward_order
               "helium.csv" "out" None []
  = (Returned Cases.helium_result, snd Cases.helium_run) /\
  success Cases.helium_result = true /\
  read_csv (Samples.helium_env Samples.helium_frame) "helium.csv"
  = Returned Samples.helium_frame /\
  (forall n c, In (n, c) Samples.helium_frame -> n <> "Metric"%string ->
               mem n dropping_cols = false -> exists xs, c = ColInt xs) /\
  NoDup (columns Samples.helium_frame) /\
  (forall c c' d, In c (columns Samples.helium_frame) ->
                  In c' (columns Samples.helium_frame) ->
                  to_datetime (Samples.helium_env Samples.helium_frame) c = Some d ->
                  to_datetime (Samples.helium_env Samples.helium_frame) c' = Some d ->
                  c = c') /\
  (forall c d, to_datetime (Samples.helium_env Samples.helium_frame) c = Some d ->
               (1 <= month d <= 12)%Z) /\
  window_total (Samples.helium_env Samples.helium_frame) Samples.helium_frame
               "Organic Traffic" (Date 2023 3 10) (Date 2024 3 10) = 12%Z /\
  exists sm e,
    Pandas.summary Cases.helium_result = Some sm /\
    date_range_end sm = strftime e /\
    total_organic_traffic sm
    = wrap64 (window_total (Samples.helium_env Samples.helium_frame) Samples.helium_frame
                           "Organic Traffic" (minus_one_year e) e) /\
    total_paid_traffic sm
    = wrap64 (window_total (Samples.helium_env Samples.helium_frame) Samples.helium_frame
                           "Paid Traffic" (minus_one_year e) e).
Proof.
  assert (Htyped : forall n c, In (n, c) Samples.helium_frame -> n <> "Metric"%string ->
                     mem n dropping_cols = false -> exists xs, c = ColInt xs).
  { intros n c Hin Hn Hdrop. simpl in Hin.
    repeat (destruct Hin as [Hin|Hin];
            [inversion Hin; subst; first [contradiction | discriminate | eauto]|]).
    destruct Hin. }
  assert (Hnd : NoDup (columns Samples.helium_frame)).
  { simpl. repeat constructor; simpl; intros H;
      repeat (destruct H as [H|H]; [discriminate|]); exact H. }
  assert (Hinj : forall c c' d, In c (columns Samples.helium_frame) ->
                   In c' (columns Samples.helium_frame) ->
                   to_datetime (Samples.helium_env Samples.helium_frame) c = Some d ->
                   to_datetime (Samples.helium_env Samples.helium_frame) c' = Some d ->
                   c = c').
  { intros c c' d Hc Hc'. simpl in Hc, Hc'.
    repeat (destruct Hc as [<-|Hc]); try destruct Hc;
      repeat (destruct Hc' as [<-|Hc']); try destruct Hc';
      vm_compute; intros E1 E2; try reflexivity; try discriminate;
      rewrite <- E1 in E2; discriminate. }
  assert (Hmonths : forall c d,
            to_datetime (Samples.helium_env Samples.helium_frame) c = Some d ->
            (1 <= month d <= 12)%Z).
  { intros c d. simpl. unfold Samples.iso_date.
    destruct (chars c) as [|y1 [|y2 [|y3 [|y4 [|c1 [|m1 [|m2 [|c2 [|d1 [|d2 [|]]]]]]]]]]];
      try discriminate.
    destruct (is_date_label c); [|discriminate].
    match goal with
    | |- context [if ?b then _ else _] => destruct b eqn:E; [|discriminate]
    end.
    intros [= <-]. simpl. rewrite !andb_true_iff, !Z.leb_le in E. lia. }
  split; [reflexivity|]. split; [reflexivity|]. split; [reflexivity|].
  split; [exact Htyped|]. split; [exact Hnd|]. split; [exact Hinj|].
  split; [exact Hmonths|]. split; [reflexivity|].
  exact (totals_are_window_sums (Samples.helium_env Samples.helium_frame)
           forward_order "helium.csv" "out" None [] (snd Cases.helium_run)
           Cases.helium_result Samples.helium_frame eq_refl eq_refl eq_refl
           Htyped Hnd Hinj Hmonths).
Defined.

End HeliumTotals.

Module ChannelsShape.
Import Py Pandas PyFacts PandasFacts Channels ChannelsFacts ChannelsRun ChannelOrder.
Import ChannelsSummary ChannelsTotals.

Lemma mask_filter_length_le {A} (m : list bool) (l : list A) :
  (List.length (mask_filter m l) <= List.length l)%nat.
Proof.
  revert l. induction m as [|b m IH]; intros [|x l]; simpl; try lia.
  destruct b; simpl; specialize (IH l); lia.
Qed.

Lemma col_filter_length_eq {A} (m : list bool) (c : column) (l : list A) :
  col_len c = List.length l ->
  col_len (col_filter m c) = List.length (mask_filter m l).
Proof. destruct c; simpl; intros H; now apply mask_filter_length_eq. Qed.

(** The keys of the channel totals, in the order of the loop. *)
Lemma channel_totals_keys (clean_data : frame) (cols : list string)
  (acc tot : list (string * Z)) :
  NoDup cols -> (forall c, In c cols -> ~ In c (map fst acc)) ->
  channel_totals_loop clean_data cols acc = Returned tot ->
  map fst tot = map fst acc ++ cols.
Proof.
  revert acc. induction cols as [|col rest IH]; simpl; intros acc Hnd Hfresh H.
  - inversion H; subst. now rewrite app_nil_r.
  - inversion Hnd as [|? ? Hnotin Hrest]; subst.
    destruct (getcol clean_data col) as [c|]; simpl in H; [|discriminate].
    destruct (col_sum c) as [v|]; simpl in H; [|discriminate].
    rewrite dict_set_fresh in H by (apply Hfresh; now left).
    rewrite (IH _ Hrest) with (2 := H).
    + rewrite map_app. simpl. now rewrite <- app_assoc.
    + intros c' Hin. rewrite map_app, in_app_iff. simpl.
      intros [Hacc|[<-|[]]]; [|contradiction].
      apply (Hfresh c'); auto.
Qed.

(** The keys of the target totals, in the order of the rows. *)
Lemma target_totals_keys (targets : list string) (cells : list (list Z)) (i : nat)
  (acc tot : list (string * Z)) :
  NoDup targets -> (forall t, In t targets -> ~ In t (map fst acc)) ->
  target_totals_loop (map Some targets) cells i acc = Returned tot ->
  map fst tot = map fst acc ++ targets.
Proof.
  revert i acc. induction targets as [|t rest IH]; simpl; intros i acc Hnd Hfresh H.
  - inversion H; subst. now rewrite app_nil_r.
  - inversion Hnd as [|? ? Hnotin Hrest]; subst.
    rewrite dict_set_fresh in H by (apply Hfresh; now left).
    rewrite (IH _ _ Hrest) with (2 := H).
    + rewrite map_app. simpl. now rewrite <- app_assoc.
    + intros c Hin. rewrite map_app, in_app_iff. simpl.
      intros [Hacc|[<-|[]]]; [|contradiction].
      apply (Hfresh c); auto.
Qed.

Section Shape.

Variable w : env.
Variable o : set_order.

(** X24: on a validated rectangular table, the table [clean_df] returns
    is rectangular again: every column has one cell per kept target, and
    there are no more rows than in the input. *)
Theorem cleaned_table_is_rectangular (df : frame) (required_cols numeric_cols : pyset)
  (errs : list string) (cleaned : frame) :
  validate_df_structure o df required_cols numeric_cols = Returned (true, errs) ->
  clean_df w o df required_cols numeric_cols = Returned (Some cleaned) ->
  (forall n c, In (n, c) df -> col_len c = nrows df) ->
  exists targets,
    getcol cleaned "Target" = Returned (ColObj (map Some targets)) /\
    (forall n c, In (n, c) cleaned -> col_len c = List.length targets) /\
    (List.length targets <= nrows df)%nat.
Proof.
  intros Hv Hc Hrect.
  destruct (clean_df_columns w o _ _ _ _ _ Hv Hc) as (ts & Hdf & HT & HnT & Eclean).
  destruct (validate_true o _ _ _ _ Hv) as (_ & Hreq & Hsub & Hnum).
  destruct (kept_targets (clean_targets ts)) as (targets & Ek & Hnd & _).
  set (keep := kept_rows (clean_targets ts)) in *.
  assert (Hts : List.length (clean_targets ts) = nrows df).
  { unfold clean_targets. rewrite !length_map.
    exact (Hrect _ _ (dict_get_In _ _ _ Hdf)). }
  assert (Hk : List.length targets = List.length (mask_filter keep (clean_targets ts))).
  { now rewrite Ek, length_map. }
  exists targets. split; [|split].
  - rewrite Eclean, getcol_named by now apply iter_In.
    unfold cleaned_column. simpl. fold keep. now rewrite Ek.
  - intros n c Hin. rewrite Eclean in Hin. apply in_map_iff in Hin.
    destruct Hin as (n' & E & Hn). inversion E; subst n' c. clear E.
    apply iter_In in Hn. unfold cleaned_column. fold keep. rewrite Hk.
    destruct (String.eqb n "Target"); [reflexivity|].
    destruct (dict_get df n) as [raw|] eqn:Eraw.
    + pose proof (Hrect _ _ (dict_get_In _ _ _ Eraw)) as Hlen.
      destruct (mem n numeric_cols) eqn:Em.
      * simpl. apply mask_filter_length_eq.
        apply mem_In in Em. destruct (Hnum _ Em) as (raw' & Hraw' & Hdt).
        assert (raw' = raw) by congruence. subst raw'.
        rewrite int64_cells_length by exact Hdt. congruence.
      * apply col_filter_length_eq. congruence.
    + exfalso. apply dict_get_None in Eraw. apply Eraw. now apply Hreq.
  - rewrite Hk, <- Hts. apply mask_filter_length_le.
Qed.

(** X25: after a successful channel run, [channel_breakdown] has one
    entry for each numeric column, in the order the set of numeric
    columns is iterated, each with the [int64] sum of the column in the
    processed table; [target_breakdown] has one entry for each target of
    the processed table, in the order of its rows. *)
Theorem breakdowns_are_indexed (input_file output_dir : string)
  (config : option dict) (disk disk' : fs frame) (r : result summary) :
  run_analysis w o input_file output_dir config disk = (Returned r, disk') ->
  success r = true ->
  exists sm numeric_cols table targets,
    Pandas.summary r = Some sm /\
    numeric_columns config = Returned numeric_cols /\
    dict_get disk' (path_join output_dir "channel_analysis.csv") = Some (CsvFile table) /\
    getcol table "Target" = Returned (ColObj (map Some targets)) /\
    map fst (channel_breakdown sm) = iter o numeric_cols /\
    (forall c v, In (c, v) (channel_breakdown sm) ->
       exists xs, getcol table c = Returned (ColInt xs) /\ v = sum64 xs) /\
    map fst (target_breakdown sm) = targets.
Proof.
  intros H Hs.
  destruct (run_success w o _ _ _ _ _ _ H Hs)
    as (req & num & df & clean & sm & _ & Hn & _ & Hv & Hc & Hb & Hsm & _ & Hcsv).
  destruct (clean_df_columns w o _ _ _ _ _ Hv Hc) as (ts & Hdf & HT & HnT & Eclean).
  destruct (kept_targets (clean_targets ts)) as (targets & Ek & Hnd & _).
  assert (Htarget : getcol clean "Target" = Returned (ColObj (map Some targets))).
  { rewrite Eclean, getcol_named by now apply iter_In.
    unfold cleaned_column. simpl. now rewrite Ek. }
  destruct (build_summary_parts _ _ _ _ Hb)
    as (ts' & cells & Hloop & Hg & Hcells & Htt & _).
  rewrite Htarget in Hg. inversion Hg; subst ts'. clear Hg.
  exists sm, num, clean, targets.
  split; [exact Hsm|]. split; [exact Hn|]. split; [exact Hcsv|]. split; [exact Htarget|].
  split; [|split].
  - exact (channel_totals_keys _ _ [] _ (iter_NoDup o num) (fun _ _ H => H) Hloop).
  - intros c v Hin. destruct (channel_totals_loop_spec _ _ _ _ Hloop) as [_ Hmem].
    destruct (Hmem _ _ Hin) as [[]|(_ & xs & Hx & ->)]. eauto.
  - exact (target_totals_keys _ _ _ [] _ Hnd (fun _ _ H => H) Htt).
Qed.

End Shape.

(** The check of [cleaned_table_is_rectangular] on the sample export. *)
Lemma cleaned_table_is_rectangular_witness :
  validate_df_structure forward_order Samples.channel_frame default_required default_numeric
  = Returned (true, []) /\
  clean_df (Samples.channel_env Samples.channel_frame) forward_order Samples.channel_frame
           default_required default_numeric
  = Returned (Some Samples.channel_cleaned) /\
  (forall n c, In (n, c) Samples.channel_frame -> col_len c = nrows Samples.channel_frame) /\
  exists targets,
    getcol Samples.channel_cleaned "Target" = Returned (ColObj (map Some targets)) /\
    (forall n c, In (n, c) Samples.channel_cleaned -> col_len c = List.length targets) /\
    (List.length targets <= nrows Samples.channel_frame)%nat.
Proof.
  assert (Hrect : forall n c, In (n, c) Samples.channel_frame ->
                              col_len c = nrows Samples.channel_frame).
  { intros n c Hin. simpl in Hin.
    repeat (destruct Hin as [Hin|Hin]; [inversion Hin; reflexivity|]). destruct Hin. }
  split; [reflexivity|]. split; [reflexivity|]. split; [exact Hrect|].
  exact (cleaned_table_is_rectangular (Samples.channel_env Samples.channel_frame)
           forward_order Samples.channel_frame default_required default_numeric []
           Samples.channel_cleaned eq_refl eq_refl Hrect).
Defined.

(** The check of [breakdowns_are_indexed] on the sample run. *)
Lemma breakdowns_are_indexed_witness :
  run_analysis (Samples.channel_env Samples.channel_frame) forward_order
               "channels.csv" "out" None []
  = (Returned Samples.channel_result, snd Samples.channel_run) /\
  success Samples.channel_result = true /\
  exists sm numeric_cols table targets,
    Pandas.summary Samples.channel_result = Some sm /\
    numeric_columns None = Returned numeric_cols /\
    dict_get (snd Samples.channel_run) (path_join "out" "channel_analysis.csv")
    = Some (CsvFile table) /\
    getcol table "Target" = Returned (ColObj (map Some targets)) /\
    map fst (channel_breakdown sm) = iter forward_order numeric_cols /\
    (forall c v, In (c, v) (channel_breakdown sm) ->
       exists xs, getcol table c = Returned (ColInt xs) /\ v = sum64 xs) /\
    map fst (target_breakdown sm) = targets.
Proof.
  split; [reflexivity|]. split; [reflexivity|].
  exact (breakdowns_are_indexed (Samples.channel_env Samples.channel_frame)
           forward_order "channels.csv" "out" None [] (snd Samples.channel_run)
           Samples.channel_result eq_refl eq_refl).
Defined.

End ChannelsShape.
